(** * Transfer-learning training script ([train.py]): a shallow embedding

    The script fine-tunes a new classifier head on top of a pretrained
    torchvision backbone and checkpoints the model after every epoch.  The
    numerical work (tensors, autograd, Adam, image decoding) belongs to the
    framework and is kept abstract behind the [Torch] interface below; the
    control flow of [validation], [train], [save_checkpoint],
    [load_data_folder], [build_model] and [main] is translated line by line.

    Conventions
    - Python [int] is [Z]; Python and tensor floats are exact rationals [Q]
      (rounding is not modelled, comparisons and the shape of every formula
      are).
    - A Python exception is a value of [Exn]; a function that may raise
      returns [result A]; a function that also touches the file system or
      the framework's global state lives in the monad [M].
    - A local variable that may be read before it is assigned is an
      [option]; reading [None] raises [UnboundLocalError].
    - Moving a model or a tensor to a device ([.to(device)]) changes no
      value and is left out.
    - A file is identified by what its path names ([realpath] of the
      interface), not by the spelling of the path. *)

From Stdlib Require Import String Ascii ZArith QArith List Bool Lia Permutation.
From Stdlib Require Import Sorted.
Import ListNotations.

Local Open Scope Z_scope.

(** ** Python exceptions and results *)

Inductive Exn : Type :=
| UnboundLocalError (name : string)
| ZeroDivisionError
| FileNotFoundError (path : string)
| SameFileError (path : string)
| AttributeError (name : string)
| TypeError (msg : string)
| IndexError
| ValueError (msg : string)
| RuntimeError (msg : string)
| SystemExit (code : Z).

Definition result (A : Type) : Type := (Exn + A)%type.

Definition ok {A} (a : A) : result A := inr a.
Definition throw {A} (e : Exn) : result A := inl e.

Definition rbind {A B} (m : result A) (k : A -> result B) : result B :=
  match m with
  | inl e => inl e
  | inr a => k a
  end.

Declare Scope result_scope.
Delimit Scope result_scope with result.
Notation "x <- m ;; k" := (rbind m (fun x => k))
  (at level 61, m at next level, right associativity) : result_scope.
Notation "' p <- m ;; k" := (rbind m (fun x => let p := x in k))
  (at level 61, p pattern, m at next level, right associativity) : result_scope.

(** Reading a local variable: [None] is "not assigned yet". *)
Definition read_local {A} (name : string) (v : option A) : result A :=
  match v with
  | Some a => ok a
  | None => throw (UnboundLocalError name)
  end.

(** ** Python arithmetic used by the script *)

(** [a % b] on integers: the result has the sign of the divisor, and a zero
    divisor raises. *)
Definition py_mod (a b : Z) : result Z :=
  if b =? 0 then throw ZeroDivisionError else ok (a mod b).

(** [x / n] with [n] an integer count: true division, raising on zero. *)
Definition py_div (x : Q) (n : Z) : result Q :=
  if n =? 0 then throw ZeroDivisionError else ok (x / inject_Z n)%Q.

(** [a > b] on numbers. *)
Definition py_gt (a b : Q) : bool := negb (Qle_bool a b).

(** The builtin [max(a, b)]: keeps the first argument unless the second is
    strictly greater. *)
Definition py_max (a b : Q) : Q := if py_gt b a then b else a.

(** [len(xs)] as a Python integer. *)
Definition len {A} (xs : list A) : Z := Z.of_nat (length xs).

(** ** Paths ([os.path]) *)

Definition starts_with_sep (s : string) : bool :=
  match s with
  | String c _ => Ascii.eqb c "/"
  | EmptyString => false
  end.

Fixpoint ends_with_sep (s : string) : bool :=
  match s with
  | EmptyString => false
  | String c EmptyString => Ascii.eqb c "/"
  | String _ rest => ends_with_sep rest
  end.

(** [os.path.join(a, b)] of posixpath, for two components. *)
Definition os_path_join (a b : string) : string :=
  if starts_with_sep b then b
  else if (a =? "")%string || ends_with_sep a then (a ++ b)%string
  else (a ++ "/" ++ b)%string.

(** [os.path.dirname]: everything before the last separator. *)
Fixpoint dirname_aux (s : string) : option string :=
  match s with
  | EmptyString => None
  | String c rest =>
      match dirname_aux rest with
      | Some d => Some (String c d)
      | None => if Ascii.eqb c "/" then Some EmptyString else None
      end
  end.

Definition dirname (s : string) : string :=
  match dirname_aux s with
  | Some d => d
  | None => EmptyString
  end.

(** ** Dictionaries with insertion order (Python [dict], [OrderedDict]) *)

Section Dict.
Context {V : Type}.

Fixpoint dict_get (k : string) (d : list (string * V)) : option V :=
  match d with
  | [] => None
  | (k', v) :: rest => if (k =? k')%string then Some v else dict_get k rest
  end.

(** Assignment keeps the position of an existing key and appends a new
    one. *)
Fixpoint dict_set (k : string) (v : V) (d : list (string * V))
  : list (string * V) :=
  match d with
  | [] => [(k, v)]
  | (k', v') :: rest =>
      if (k =? k')%string then (k, v) :: rest
      else (k', v') :: dict_set k v rest
  end.

Definition dict_keys (d : list (string * V)) : list string := map fst d.
End Dict.

(** ** Modules ([torch.nn.Module])

    A module has a type (with its hyper-parameters), its own parameters
    (name and [requires_grad] flag) and an ordered dictionary of
    sub-modules. *)

Inductive Layer : Type :=
| LinearL (in_features out_features : Z)
| ReLUL
| DropoutL (p : Q)
| LogSoftmaxL (dim : Z)
| SequentialL
| OtherL (kind : string).

#[warnings="-register-all"]
Inductive Module : Type :=
| Mod (layer : Layer) (params : list (string * bool))
      (mods : list (string * Module)).

Definition layer_of (m : Module) : Layer :=
  match m with Mod l _ _ => l end.

Definition own_params (m : Module) : list (string * bool) :=
  match m with Mod _ ps _ => ps end.

(** [module.children()], in registration order, with their names. *)
Definition children (m : Module) : list (string * Module) :=
  match m with Mod _ _ ms => ms end.

(** A parameter is identified by its path inside the model, as in
    [named_parameters]. *)
Definition ParamPath : Type := list string.

Fixpoint named_parameters (m : Module) : list (ParamPath * bool) :=
  match m with
  | Mod _ ps ms =>
      map (fun p => ([fst p], snd p)) ps
      ++ flat_map (fun nm =>
                     match nm with
                     | (n, c) =>
                         map (fun q => (n :: fst q, snd q))
                             (named_parameters c)
                     end) ms
  end.

(** [for param in model.parameters(): param.requires_grad = False] *)
Fixpoint freeze (m : Module) : Module :=
  match m with
  | Mod l ps ms =>
      Mod l (map (fun p => (fst p, false)) ps)
          (map (fun nm => match nm with (n, c) => (n, freeze c) end) ms)
  end.

(** [module.<name> = child]: registers or replaces a sub-module; a name
    already taken by one of the module's own parameters is refused. *)
Definition setattr_module (name : string) (child : Module) (m : Module)
  : result Module :=
  match m with
  | Mod l ps ms =>
      if existsb (fun p => (fst p =? name)%string) ps
      then throw (TypeError "cannot assign module as parameter")
      else ok (Mod l ps (dict_set name child ms))
  end.

(** [module.<name>] for a sub-module. *)
Definition getattr_module (name : string) (m : Module) : result Module :=
  match dict_get name (children m) with
  | Some c => ok c
  | None => throw (AttributeError name)
  end.

(** Constructors of [torch.nn] without parameters. *)
Definition nn_ReLU : Module := Mod ReLUL [] [].
Definition nn_Dropout (p : Q) : Module := Mod (DropoutL p) [] [].
Definition nn_LogSoftmax (dim : Z) : Module := Mod (LogSoftmaxL dim) [] [].
Definition nn_Sequential (ms : list (string * Module)) : Module :=
  Mod SequentialL [] ms.

(** Output width of a classifier head: the [out_features] of its last
    linear layer. *)
Fixpoint last_out_features (ms : list (string * Module)) : option Z :=
  match ms with
  | [] => None
  | (_, c) :: rest =>
      match last_out_features rest with
      | Some o => Some o
      | None =>
          match layer_of c with
          | LinearL _ o => Some o
          | _ => None
          end
      end
  end.

Definition output_dim (head : Module) : option Z :=
  match layer_of head with
  | LinearL _ o => Some o
  | _ => last_out_features (children head)
  end.

(** ** Sorting, enumerating and batching *)

Fixpoint insert_sorted (s : string) (l : list string) : list string :=
  match l with
  | [] => [s]
  | x :: rest =>
      if String.leb s x then s :: l else x :: insert_sorted s rest
  end.

(** [sorted(names)] *)
Definition sorted (l : list string) : list string :=
  fold_right insert_sorted [] l.

Fixpoint enumerate_from {A} (i : Z) (l : list A) : list (Z * A) :=
  match l with
  | [] => []
  | x :: rest => (i, x) :: enumerate_from (i + 1) rest
  end.

Definition enumerate {A} (l : list A) : list (Z * A) := enumerate_from 0 l.

Fixpoint chunks_fuel {A} (fuel n : nat) (l : list A) : list (list A) :=
  match fuel with
  | O => []
  | S fuel' =>
      match l with
      | [] => []
      | _ :: _ => firstn n l :: chunks_fuel fuel' n (skipn n l)
      end
  end.

(** Consecutive batches of [n] elements, the last one possibly shorter. *)
Definition chunks {A} (n : nat) (l : list A) : list (list A) :=
  chunks_fuel (length l) n l.

(** ** Tensors of a validation batch *)

(** A row of class scores is never empty: first score and the others. *)
Definition Row : Type := (Q * list Q)%type.

Definition row_map (f : Q -> Q) (r : Row) : Row := (f (fst r), map f (snd r)).

Fixpoint argmax_from (best_i : Z) (best : Q) (i : Z) (xs : list Q) : Z :=
  match xs with
  | [] => best_i
  | x :: rest =>
      if py_gt x best then argmax_from i x (i + 1) rest
      else argmax_from best_i best (i + 1) rest
  end.

(** [row.max()[1]]: index of the first maximal entry. *)
Definition argmax (r : Row) : Z := argmax_from 0 (fst r) 1 (snd r).

(** [(labels == predicted).type(FloatTensor)] *)
Definition equality_tensor (labels predicted : list Z) : list Q :=
  map (fun lp => if fst lp =? snd lp then 1%Q else 0%Q)
      (combine labels predicted).

(** [t.mean()] *)
Definition tensor_mean (t : list Q) : Q :=
  (fold_left Qplus t 0 / inject_Z (len t))%Q.

(** ** The framework interface

    Everything the script obtains from Python builtins, torch and
    torchvision without looking inside. *)

Class Torch : Type := {
  Image : Type;
  (** numerical content of a model: what [state_dict()] returns *)
  Weights : Type;
  (** internal state of the Adam optimizer *)
  OptState : Type;
  (** [model.forward(images)] in training ([true]) or evaluation mode: one
      row of log-probabilities per image *)
  forward : Weights -> bool -> list Image -> list Row;
  (** [torch.exp] on a scalar *)
  torch_exp : Q -> Q;
  (** [nn.NLLLoss()(output, labels).item()] *)
  nll_loss : list Row -> list Z -> Q;
  (** [loss.backward(); optimizer.step()] on one batch, for the listed
      parameters and learning rate *)
  backward_step :
    list ParamPath -> Q -> OptState -> Weights -> bool ->
    list Image -> list Z -> OptState * Weights;
  (** state of a freshly constructed [optim.Adam] *)
  adam_init : list ParamPath -> Q -> OptState;
  (** weights of a freshly constructed model *)
  initial_weights : Module -> Weights;
  (** [torchvision.models.<name>(pretrained=True)] *)
  torchvision_models : string -> option Module;
  (** class sub-directories of an image directory with their decoded
      images; [None] when the directory is missing *)
  scan_image_dir : string -> option (list (string * list Image));
  (** the permutation drawn by a shuffling [DataLoader] *)
  shuffle : list (Image * Z) -> list (Image * Z);
  (** the builtins [int] and [float] on a command-line word *)
  py_int : string -> option Z;
  py_float : string -> option Q;
  (** the file that a path names ([os.path.realpath]): the working
      directory, [.], [..], repeated separators and links resolved *)
  realpath : string -> string;
  (** the exception of [torch.save] for a path whose directory does not
      exist: [FileNotFoundError] in older releases of torch,
      [RuntimeError] in newer ones *)
  save_error : string -> Exn;
  (** the error of allocating a weight tensor of [rows] x [cols] entries
      (a size beyond 64 bits, not enough memory); [None] when torch can
      hold it *)
  allocation_failure : Z -> Z -> option Exn;
  (** whether torchvision refuses a class directory without images
      (releases from 0.10 on) or accepts it (earlier ones) *)
  strict_folders : bool
}.

Section Script.
Context {T : Torch}.

(** *** Objects *)

Record Model : Type := {
  net : Module;
  class_idx_mapping : option (list (string * Z));
  state_dict : Weights;
  training : bool
}.

Definition set_training (b : bool) (m : Model) : Model :=
  {| net := net m; class_idx_mapping := class_idx_mapping m;
     state_dict := state_dict m; training := b |}.

Definition set_state_dict (w : Weights) (m : Model) : Model :=
  {| net := net m; class_idx_mapping := class_idx_mapping m;
     state_dict := w; training := training m |}.

Record Optimizer : Type := {
  opt_params : list ParamPath;
  opt_lr : Q;
  opt_state : OptState
}.

Definition set_opt_state (o : OptState) (opt : Optimizer) : Optimizer :=
  {| opt_params := opt_params opt; opt_lr := opt_lr opt; opt_state := o |}.

(** One batch as the loader yields it: [(images, labels)]. *)
Definition Batch : Type := (list Image * list Z)%type.
Definition DataLoader : Type := list Batch.

(** Values stored in a checkpoint dictionary. *)
Inductive PyVal : Type :=
| VInt (z : Z)
| VFloat (q : Q)
| VStr (s : string)
| VModule (m : Module)
| VStateDict (w : Weights)
| VOptimizerState (o : OptState)
| VClassToIdx (m : option (list (string * Z))).

Definition Checkpoint : Type := list (string * PyVal).

(** *** The world: file system, autograd switch and what happened *)

Inductive Event : Type :=
| EvSystem (cmd : string)
| EvCall (function : string)
| EvModelTrain
| EvModelEval
| EvTrainForward (training_mode : bool)
| EvOptimizerStep (steps : Z) (training_mode : bool)
| EvValForward (training_mode grad : bool)
| EvValidation (test_loss accuracy : Q)
| EvPrint (epoch epochs : Z) (training_loss validation_loss
                               validation_accuracy : Q)
| EvSaveCheckpoint (state : Checkpoint) (is_best : bool)
                   (model_dir filename : string).

Record World : Type := {
  dirs : list string;
  files : list (string * Checkpoint);
  grad_enabled : bool;
  trace : list Event
}.

Definition M (A : Type) : Type := World -> result A * World.

Definition ret {A} (a : A) : M A := fun w => (inr a, w).
Definition raise {A} (e : Exn) : M A := fun w => (inl e, w).

Definition bind {A B} (m : M A) (k : A -> M B) : M B :=
  fun w =>
    match m w with
    | (inl e, w') => (inl e, w')
    | (inr a, w') => k a w'
    end.

Definition lift {A} (r : result A) : M A := fun w => (r, w).

Definition emit (ev : Event) : M unit :=
  fun w =>
    (inr tt,
     {| dirs := dirs w; files := files w; grad_enabled := grad_enabled w;
        trace := trace w ++ [ev] |}).

Definition is_grad_enabled : M bool := fun w => (inr (grad_enabled w), w).

Definition set_grad_enabled (b : bool) (w : World) : World :=
  {| dirs := dirs w; files := files w; grad_enabled := b;
     trace := trace w |}.

(** [with torch.no_grad(): body]: the previous setting comes back on exit,
    also when [body] raises. *)
Definition no_grad {A} (body : M A) : M A :=
  fun w =>
    let prev := grad_enabled w in
    match body (set_grad_enabled false w) with
    | (r, w') => (r, set_grad_enabled prev w')
    end.
End Script.

Declare Scope M_scope.
Delimit Scope M_scope with M.
Notation "x <- m ;; k" := (bind m (fun x => k))
  (at level 61, m at next level, right associativity) : M_scope.
Notation "' p <- m ;; k" := (bind m (fun x => let p := x in k))
  (at level 61, p pattern, m at next level, right associativity) : M_scope.
Notation "m ;; k" := (bind m (fun _ => k))
  (at level 61, right associativity) : M_scope.

Section Program.
Context {T : Torch}.
Local Open Scope M_scope.

(** [for x in xs: s = body(x, s)] *)
Fixpoint for_each {A S} (body : A -> S -> M S) (xs : list A) (s : S)
  : M S :=
  match xs with
  | [] => ret s
  | x :: rest => s' <- body x s ;; for_each body rest s'
  end.

(** [range(n)] *)
Definition range (n : Z) : list Z := map Z.of_nat (seq 0 (Z.to_nat n)).

(** *** File system *)

(** Directories and files are kept under the file they name
    ([realpath]), so that two spellings of one path are one entry.  The
    working directory (the empty [dirname]) always exists. *)
Definition dir_exists (d : string) (w : World) : bool :=
  (realpath d =? realpath "")%string
  || existsb (String.eqb (realpath d)) (dirs w).

Definition read_file (path : string) (w : World) : option Checkpoint :=
  dict_get (realpath path) (files w).

Definition write_file (path : string) (c : Checkpoint) (w : World)
  : World :=
  {| dirs := dirs w; files := dict_set (realpath path) c (files w);
     grad_enabled := grad_enabled w; trace := trace w |}.

(** [torch.save(state, path)] *)
Definition torch_save (state : Checkpoint) (path : string) : M unit :=
  fun w =>
    if dir_exists (dirname path) w then (inr tt, write_file path state w)
    else (inl (save_error path), w).

(** [shutil.copyfile(src, dst)]: refuses to copy a file onto itself. *)
Definition shutil_copyfile (src dst : string) : M unit :=
  fun w =>
    if (realpath src =? realpath dst)%string
    then (inl (SameFileError src), w)
    else
      match read_file src w with
      | None => (inl (FileNotFoundError src), w)
      | Some c =>
          if dir_exists (dirname dst) w then (inr tt, write_file dst c w)
          else (inl (FileNotFoundError dst), w)
      end.

Fixpoint strip_prefix (p s : string) : option string :=
  match p with
  | EmptyString => Some s
  | String c p' =>
      match s with
      | String d s' => if Ascii.eqb c d then strip_prefix p' s' else None
      | EmptyString => None
      end
  end.

(** Characters the shell passes through unchanged. *)
Definition plain_char (c : ascii) : bool :=
  let n := nat_of_ascii c in
  ((48 <=? n) && (n <=? 57) || (65 <=? n) && (n <=? 90)
   || (97 <=? n) && (n <=? 122) || (n =? 95) || (n =? 45) || (n =? 46)
   || (n =? 47))%nat.

Fixpoint all_plain (s : string) : bool :=
  match s with
  | EmptyString => true
  | String c rest => plain_char c && all_plain rest
  end.

(** A single shell word that [mkdir] reads as a path. *)
Definition shell_word (s : string) : bool :=
  match s with
  | EmptyString => false
  | String c _ => negb (Ascii.eqb c "-") && all_plain s
  end.

Fixpoint ancestors_fuel (fuel : nat) (p : string) : list string :=
  match fuel with
  | O => []
  | S fuel' =>
      if (p =? "")%string then [] else p :: ancestors_fuel fuel' (dirname p)
  end.

Definition mkdir_p (path : string) (w : World) : World :=
  {| dirs := map realpath (ancestors_fuel (S (String.length path)) path)
             ++ dirs w;
     files := files w; grad_enabled := grad_enabled w; trace := trace w |}.

(** [os.system(cmd)]: only [mkdir -p <word>] changes the modelled file
    system; the exit status is not looked at by the script. *)
Definition os_system (cmd : string) : M unit :=
  emit (EvSystem cmd) ;;
  fun w =>
    match strip_prefix "mkdir -p " cmd with
    | Some arg => if shell_word arg then (inr tt, mkdir_p arg w)
                  else (inr tt, w)
    | None => (inr tt, w)
    end.

(** *** [validation] *)

Definition validation (model : Model) (testloader : DataLoader)
           (criterion : list Row -> list Z -> Q) (device : string)
  : M (Q * Q) :=
  let test_loss := 0%Q in
  let accuracy := 0%Q in
  ' (test_loss, accuracy) <-
    for_each
      (fun (batch : Batch) (acc : Q * Q) =>
         let '(images, labels) := batch in
         let '(test_loss, accuracy) := acc in
         grad <- is_grad_enabled ;;
         emit (EvValForward (training model) grad) ;;
         let output := forward (state_dict model) (training model) images in
         let test_loss := (test_loss + criterion output labels)%Q in
         let ps := map (row_map torch_exp) output in
         let equality := equality_tensor labels (map argmax ps) in
         let accuracy := (accuracy + tensor_mean equality)%Q in
         ret (test_loss, accuracy))
      testloader (test_loss, accuracy) ;;
  emit (EvValidation test_loss accuracy) ;;
  ret (test_loss, accuracy).

(** *** [save_checkpoint] *)

Definition save_checkpoint (state : Checkpoint) (is_best : bool)
           (model_dir filename : string) : M unit :=
  emit (EvSaveCheckpoint state is_best model_dir filename) ;;
  torch_save state (os_path_join model_dir filename) ;;
  if is_best
  then shutil_copyfile filename (os_path_join model_dir "model_best.pth")
  else ret tt.

(** *** [train] *)

Record Locals : Type := {
  steps : Z;
  running_loss : Q;
  accuracy : option Q;
  best_accuracy : Q;
  model : Model;
  optimizer : Optimizer
}.

Section Train.
Variables (trainloader validloader : DataLoader).
Variables (epochs print_every : Z).
Variable criterion : list Row -> list Z -> Q.
Variables (arch device model_dir : string).

(** Body of the loop over training batches (lines 49-79). *)
Definition train_batch (e : Z) (batch : Batch) (L : Locals)
  : M Locals :=
  let steps := steps L + 1 in
  let '(images, labels) := batch in
  let model := model L in
  emit (EvTrainForward (training model)) ;;
  let outputs := forward (state_dict model) (training model) images in
  let loss := criterion outputs labels in
  let '(o, w) :=
    backward_step (opt_params (optimizer L)) (opt_lr (optimizer L))
                  (opt_state (optimizer L)) (state_dict model)
                  (training model) images labels in
  emit (EvOptimizerStep steps (training model)) ;;
  let model := set_state_dict w model in
  let optimizer := set_opt_state o (optimizer L) in
  let running_loss := (running_loss L + loss)%Q in
  r <- lift (py_mod steps print_every) ;;
  if r =? 0 then
    emit EvModelEval ;;
    let model := set_training false model in
    ' (validation_loss, accuracy) <-
      no_grad (validation model validloader criterion device) ;;
    training_loss <- lift (py_div running_loss print_every) ;;
    val_loss <- lift (py_div validation_loss (len validloader)) ;;
    val_acc <- lift (py_div accuracy (len validloader)) ;;
    emit (EvPrint (e + 1) epochs training_loss val_loss
                  (val_acc * 100)%Q) ;;
    emit EvModelTrain ;;
    let model := set_training true model in
    ret {| steps := steps; running_loss := 0; accuracy := Some accuracy;
           best_accuracy := best_accuracy L; model := model;
           optimizer := optimizer |}
  else
    ret {| steps := steps; running_loss := running_loss;
           accuracy := accuracy L; best_accuracy := best_accuracy L;
           model := model; optimizer := optimizer |}.

(** What follows the batch loop in an epoch (lines 81-91). *)
Definition epoch_end (L : Locals) : M Locals :=
  accuracy <- lift (read_local "accuracy" (accuracy L)) ;;
  let is_best := py_gt accuracy (best_accuracy L) in
  let best_accuracy := py_max accuracy (best_accuracy L) in
  classifier <- lift (getattr_module "classifier" (net (model L))) ;;
  best_pct <- lift (py_div best_accuracy (len validloader)) ;;
  save_checkpoint
    [("epoch"%string, VInt epochs);
     ("classifier"%string, VModule classifier);
     ("state_dict"%string, VStateDict (state_dict (model L)));
     ("optimizer"%string, VOptimizerState (opt_state (optimizer L)));
     ("class_idx_mapping"%string,
      VClassToIdx (class_idx_mapping (model L)));
     ("arch"%string, VStr arch);
     ("best_accuracy"%string, VFloat (best_pct * 100)%Q)]
    is_best model_dir "checkpoint.pth" ;;
  ret {| steps := steps L; running_loss := running_loss L;
         accuracy := Some accuracy; best_accuracy := best_accuracy;
         model := model L; optimizer := optimizer L |}.

(** Body of the loop over epochs (lines 46-91). *)
Definition train_epoch (e : Z) (L : Locals) : M Locals :=
  let L := {| steps := steps L; running_loss := 0;
              accuracy := accuracy L; best_accuracy := best_accuracy L;
              model := model L; optimizer := optimizer L |} in
  L <- for_each (train_batch e) trainloader L ;;
  epoch_end L.

Definition train (model : Model) (optimizer : Optimizer) : M unit :=
  let steps := 0 in
  emit EvModelTrain ;;
  let model := set_training true model in
  let best_accuracy := 0%Q in
  _ <- for_each train_epoch (range epochs)
         {| steps := steps; running_loss := 0; accuracy := None;
            best_accuracy := best_accuracy; model := model;
            optimizer := optimizer |} ;;
  ret tt.
End Train.

(** *** [check_accuracy_on_test] *)

(** [(predicted == labels).sum().item()] *)
Definition count_equal (predicted labels : list Z) : Z :=
  len (filter (fun pl => fst pl =? snd pl) (combine predicted labels)).

(** The function moves everything to ['cuda'] itself and does not switch
    the model to evaluation mode: the forward passes run in whatever mode
    the model is in.  [correct] and [total] are integers, so the final
    division raises when no label was seen. *)
Definition check_accuracy_on_test (testloader : DataLoader) (model : Model)
  : M Q :=
  let correct := 0 in
  let total := 0 in
  ' (correct, total) <-
    no_grad
      (for_each
         (fun (data : Batch) (acc : Z * Z) =>
            let '(images, labels) := data in
            let '(correct, total) := acc in
            grad <- is_grad_enabled ;;
            emit (EvValForward (training model) grad) ;;
            let outputs :=
              forward (state_dict model) (training model) images in
            let predicted := map argmax outputs in
            let total := total + len labels in
            let correct := correct + count_equal predicted labels in
            ret (correct, total))
         testloader (correct, total)) ;;
  lift (py_div (inject_Z (100 * correct)) total).

(** *** [load_data_folder] *)

Record Dataset : Type := {
  samples : list (Image * Z);
  class_to_idx : list (string * Z)
}.

(** A class directory without images. *)
Definition empty_class (entry : string * list Image) : bool :=
  match snd entry with
  | [] => true
  | _ :: _ => false
  end.

(** [datasets.ImageFolder(root)]: classes are the sorted sub-directory
    names, numbered from 0.  A strict torchvision refuses a directory
    without classes and a class without images; an earlier one refuses
    only a directory without any image. *)
Definition ImageFolder (root : string) : result Dataset :=
  match scan_image_dir root with
  | None => throw (FileNotFoundError root)
  | Some entries =>
      let classes := sorted (map fst entries) in
      let class_to_idx :=
        fold_left (fun d ic => dict_set (snd ic) (fst ic) d)
                  (enumerate classes) [] in
      let samples :=
        flat_map
          (fun ic =>
             match dict_get (snd ic) entries with
             | Some images => map (fun img => (img, fst ic)) images
             | None => []
             end)
          (enumerate classes) in
      if strict_folders
      then
        match classes with
        | [] => throw (FileNotFoundError root)
        | _ :: _ =>
            if existsb empty_class entries
            then throw (FileNotFoundError root)
            else ok {| samples := samples; class_to_idx := class_to_idx |}
        end
      else
        match samples with
        | [] => throw (RuntimeError "Found 0 files in subfolders")
        | _ :: _ =>
            ok {| samples := samples; class_to_idx := class_to_idx |}
        end
  end.

(** [DataLoader(dataset, shuffle=True, batch_size=n)] *)
Definition make_DataLoader (dataset : Dataset) (batch_size : nat)
  : DataLoader :=
  map (fun c => (map fst c, map snd c))
      (chunks batch_size (shuffle (samples dataset))).

Definition load_data_folder (data_folder : string)
  : result (DataLoader * DataLoader * list (string * Z)) :=
  (let train_dir := os_path_join data_folder "train" in
   let valid_dir := os_path_join data_folder "valid" in
   train_dataset <- ImageFolder train_dir ;;
   validation_dataset <- ImageFolder valid_dir ;;
   let train_dataloader := make_DataLoader train_dataset 64 in
   let valid_dataloader := make_DataLoader validation_dataset 64 in
   ok (train_dataloader, valid_dataloader, class_to_idx train_dataset)
  )%result.

(** *** [build_model] *)

(** [nn.Linear(in_features, out_features)]: the weight has [out_features]
    rows and [in_features] columns.  A negative size is refused, and so is
    a weight that torch cannot allocate. *)
Definition nn_Linear (in_features out_features : Z) : result Module :=
  if (in_features <? 0) || (out_features <? 0)
  then throw (RuntimeError "Trying to create tensor with negative dimension")
  else
    match allocation_failure out_features in_features with
    | Some e => throw e
    | None =>
        ok (Mod (LinearL in_features out_features)
                [("weight"%string, true); ("bias"%string, true)] [])
    end.

Definition build_model (arch : string) (hidden_units : Z)
           (class_idx_mapping : option (list (string * Z)))
  : result Model :=
  (model <- match torchvision_models arch with
            | Some m => ok m
            | None => throw (AttributeError arch)
            end ;;
   last_child <- match rev (children model) with
                 | [] => throw IndexError
                 | (_, c) :: _ => ok c
                 end ;;
   input_features <-
     match layer_of last_child with
     | LinearL i _ => ok (Some i)
     | SequentialL =>
         match children last_child with
         | [] => throw IndexError
         | (_, first) :: _ =>
             match layer_of first with
             | LinearL i _ => ok (Some i)
             | _ => throw (AttributeError "in_features")
             end
         end
     | _ => ok None
     end ;;
   let model := freeze model in
   input_features <- read_local "input_features" input_features ;;
   fc1 <- nn_Linear input_features hidden_units ;;
   fc2 <- nn_Linear hidden_units 102 ;;
   let classifier :=
     nn_Sequential [("fc1"%string, fc1);
                    ("relu"%string, nn_ReLU);
                    ("dropout"%string, nn_Dropout (1 # 2));
                    ("fc2"%string, fc2);
                    ("output"%string, nn_LogSoftmax 1)] in
   model <- setattr_module "classifier" classifier model ;;
   ok {| net := model; class_idx_mapping := class_idx_mapping;
         state_dict := initial_weights model; training := true |}
  )%result.

(** *** [main] *)

(** The command line as argparse splits it: the word given for each
    option ([None] when the option is absent). *)
Record Argv : Type := {
  argv_data_dir : option string;
  argv_arch : option string;
  argv_hidden_units : option string;
  argv_learning_rate : option string;
  argv_epochs : option string;
  argv_gpu : bool;
  argv_model_dir : option string
}.

Record Args : Type := {
  arg_data_dir : string;
  arg_arch : string;
  arg_hidden_units : Z;
  arg_learning_rate : Q;
  arg_epochs : Z;
  arg_gpu : bool;
  arg_model_dir : string
}.

Definition VALID_ARCH_CHOICES : list string :=
  ["vgg16"; "vgg13"; "densenet121"]%string.

(** [ap.error(...)]: usage message and exit status 2. *)
Definition usage_error : Exn := SystemExit 2.

Definition with_default {A} (d : A) (o : option A) : A :=
  match o with
  | Some a => a
  | None => d
  end.

Definition convert {A} (f : string -> option A) (d : A)
           (o : option string) : result A :=
  match o with
  | None => ok d
  | Some s =>
      match f s with
      | Some a => ok a
      | None => throw usage_error
      end
  end.

Definition parse_args (argv : Argv) : result Args :=
  (arch <- match argv_arch argv with
           | None => ok (hd "vgg16"%string VALID_ARCH_CHOICES)
           | Some s =>
               if existsb (String.eqb s) VALID_ARCH_CHOICES then ok s
               else throw usage_error
           end ;;
   hidden_units <- convert py_int 4096 (argv_hidden_units argv) ;;
   learning_rate <- convert py_float (1 # 1000) (argv_learning_rate argv) ;;
   epochs <- convert py_int 3 (argv_epochs argv) ;;
   ok {| arg_data_dir := with_default "data"%string (argv_data_dir argv);
         arg_arch := arch;
         arg_hidden_units := hidden_units;
         arg_learning_rate := learning_rate;
         arg_epochs := epochs;
         arg_gpu := argv_gpu argv;
         arg_model_dir :=
           with_default "models"%string (argv_model_dir argv) |}
  )%result.

(** [optim.Adam(params, lr=lr)] *)
Definition optim_Adam (params : list ParamPath) (lr : Q)
  : result Optimizer :=
  match params with
  | [] => throw (ValueError "optimizer got an empty parameter list")
  | _ :: _ =>
      if negb (Qle_bool 0 lr) then throw (ValueError "Invalid learning rate")
      else ok {| opt_params := params; opt_lr := lr;
                 opt_state := adam_init params lr |}
  end.

(** [model.classifier.parameters()], each parameter named by its path in
    the model. *)
Definition classifier_parameters (m : Model) : result (list ParamPath) :=
  (classifier <- getattr_module "classifier" (net m) ;;
   ok (map (fun q => "classifier"%string :: fst q)
           (named_parameters classifier)))%result.

(** The optimizer of line 216. *)
Definition make_optimizer (m : Model) (learning_rate : Q)
  : result Optimizer :=
  (params <- classifier_parameters m ;;
   optim_Adam params learning_rate)%result.

Definition main (argv : Argv) : M unit :=
  args <- lift (parse_args argv) ;;
  os_system ("mkdir -p " ++ arg_model_dir args) ;;
  emit (EvCall "load_data_folder") ;;
  ' (train_dataloader, valid_dataloader, class_idx_mapping) <-
    lift (load_data_folder (arg_data_dir args)) ;;
  emit (EvCall "build_model") ;;
  model <- lift (build_model (arg_arch args) (arg_hidden_units args)
                             (Some class_idx_mapping)) ;;
  let criterion := nll_loss in
  optimizer <- lift (make_optimizer model (arg_learning_rate args)) ;;
  let device := if arg_gpu args then "cuda"%string else "cpu"%string in
  emit (EvCall "train") ;;
  train train_dataloader valid_dataloader (arg_epochs args) 20 criterion
        (arg_arch args) device (arg_model_dir args) model optimizer.
End Program.

(** * Vocabulary of the properties *)

(** Torch can hold the weight of [nn.Linear(in_features, out_features)]:
    the sizes fit and the machine has the memory. *)
Definition allocatable {T : Torch} (in_features out_features : Z) : Prop :=
  allocation_failure out_features in_features = None.

(** The classifier head as the specification describes it: linear layer,
    rectified-linear activation, dropout with probability 1/2, linear layer
    to 102 classes, log-softmax. *)
Definition spec_head (width hidden_units : Z) : Module :=
  Mod SequentialL []
      [("fc1"%string,
        Mod (LinearL width hidden_units)
            [("weight"%string, true); ("bias"%string, true)] []);
       ("relu"%string, Mod ReLUL [] []);
       ("dropout"%string, Mod (DropoutL (1 # 2)) [] []);
       ("fc2"%string,
        Mod (LinearL hidden_units 102)
            [("weight"%string, true); ("bias"%string, true)] []);
       ("output"%string, Mod (LogSoftmaxL 1) [] [])].

(** Shape of the supported torchvision backbones: the last child is called
    [classifier] and is either a linear layer reading [width] features
    (DenseNet) or a sequence whose first layer is such a linear layer
    (VGG). *)
Definition classifier_reads (old : Module) (width : Z) : Prop :=
  (exists o ps ms, old = Mod (LinearL width o) ps ms)
  \/ (exists o n0 ps ps0 ms0 rest,
        old = Mod SequentialL ps
                  ((n0, Mod (LinearL width o) ps0 ms0) :: rest)).

Definition ends_in_classifier (m : Module) (before : list (string * Module))
           (old : Module) (width : Z) : Prop :=
  children m = before ++ [("classifier"%string, old)]
  /\ ~ In "classifier"%string (map fst before)
  /\ (forall p, In p (own_params m) -> fst p <> "classifier"%string)
  /\ classifier_reads old width
  /\ 0 <= width.

(** The children of a backbone after freezing. *)
Definition frozen (ms : list (string * Module)) : list (string * Module) :=
  map (fun nm => (fst nm, freeze (snd nm))) ms.

(** A parameter path that goes through the attribute [classifier]. *)
Definition under_classifier (path : ParamPath) : Prop :=
  hd_error path = Some "classifier"%string.

(** A model is well formed when its sub-module names are distinct, as the
    keys of an ordered dictionary are. *)
Definition distinct_children (m : Module) : Prop :=
  NoDup (map fst (children m)).

(** ** The training loop, seen from outside *)

Section LoopVocabulary.
Context {T : Torch}.

(** The world after some more events. *)
Definition add_events (evs : list Event) (w : World) : World :=
  {| dirs := dirs w; files := files w; grad_enabled := grad_enabled w;
     trace := trace w ++ evs |}.

(** Loss and fraction of correct predictions of the model on one
    validation batch, as [validation] computes them. *)
Definition batch_scores (model : Model)
           (criterion : list Row -> list Z -> Q) (batch : Batch) : Q * Q :=
  let output := forward (state_dict model) (training model) (fst batch) in
  (criterion output (snd batch),
   tensor_mean (equality_tensor (snd batch)
                                (map argmax (map (row_map torch_exp) output)))).

(** The two running sums of [validation]. *)
Definition validation_sums (model : Model)
           (criterion : list Row -> list Z -> Q) (loader : DataLoader)
  : Q * Q :=
  fold_left (fun acc batch =>
               ((fst acc + fst (batch_scores model criterion batch))%Q,
                (snd acc + snd (batch_scores model criterion batch))%Q))
            loader (0%Q, 0%Q).

(** Local variables after the optimizer step on [batch]. *)
Definition after_update (criterion : list Row -> list Z -> Q)
           (batch : Batch) (L : Locals) : Locals :=
  let m := model L in
  let outputs := forward (state_dict m) (training m) (fst batch) in
  let r := backward_step (opt_params (optimizer L)) (opt_lr (optimizer L))
                         (opt_state (optimizer L)) (state_dict m)
                         (training m) (fst batch) (snd batch) in
  {| steps := steps L + 1;
     running_loss := (running_loss L + criterion outputs (snd batch))%Q;
     accuracy := accuracy L;
     best_accuracy := best_accuracy L;
     model := set_state_dict (snd r) m;
     optimizer := set_opt_state (fst r) (optimizer L) |}.

(** The model that a periodic validation pass looks at: the updated
    weights, in evaluation mode. *)
Definition validated_model (criterion : list Row -> list Z -> Q)
           (batch : Batch) (L : Locals) : Model :=
  set_training false (model (after_update criterion batch L)).

(** Local variables after the optimizer step and a validation pass. *)
Definition after_validation (validloader : DataLoader)
           (criterion : list Row -> list Z -> Q)
           (batch : Batch) (L : Locals) : Locals :=
  let U := after_update criterion batch L in
  let m := validated_model criterion batch L in
  {| steps := steps U;
     running_loss := 0;
     accuracy := Some (snd (validation_sums m criterion validloader));
     best_accuracy := best_accuracy U;
     model := set_training true m;
     optimizer := optimizer U |}.

(** Events of a validation pass on [loader]. *)
Definition validation_events (model : Model)
           (criterion : list Row -> list Z -> Q) (loader : DataLoader)
           (grad : bool) : list Event :=
  map (fun _ => EvValForward (training model) grad) loader
  ++ [EvValidation (fst (validation_sums model criterion loader))
                   (snd (validation_sums model criterion loader))].

(** An event respects the phases of training: the optimizer steps in
    training mode, validation runs in evaluation mode without gradient
    tracking. *)
Definition event_in_phase (ev : Event) : Prop :=
  match ev with
  | EvOptimizerStep _ mode => mode = true
  | EvValForward mode grad => mode = false /\ grad = false
  | _ => True
  end.

(** Step numbers of the optimizer steps, in order. *)
Definition optimizer_steps (evs : list Event) : list Z :=
  flat_map (fun ev => match ev with
                      | EvOptimizerStep s _ => [s]
                      | _ => []
                      end) evs.

(** Accuracy returned by the most recent validation pass, if any. *)
Definition last_validation (evs : list Event) : option Q :=
  fold_left (fun acc ev => match ev with
                           | EvValidation _ a => Some a
                           | _ => acc
                           end) evs None.

(** The numbers [s+1], [s+2], ... in this order. *)
Fixpoint counts_from (s : Z) (l : list Z) : Prop :=
  match l with
  | [] => True
  | x :: rest => x = s + 1 /\ counts_from (s + 1) rest
  end.

(** The dictionary that [train] hands to [save_checkpoint]. *)
Definition checkpoint_fields (epochs : Z) (arch : string)
           (classifier : Module) (m : Model) (o : Optimizer)
           (best_accuracy_pct : Q) : Checkpoint :=
  [("epoch"%string, VInt epochs);
   ("classifier"%string, VModule classifier);
   ("state_dict"%string, VStateDict (state_dict m));
   ("optimizer"%string, VOptimizerState (opt_state o));
   ("class_idx_mapping"%string, VClassToIdx (class_idx_mapping m));
   ("arch"%string, VStr arch);
   ("best_accuracy"%string, VFloat best_accuracy_pct)].

(** A checkpoint is saved from a model with sub-modules [n] and class
    mapping [mapping]: it holds the seven fields, the classifier and the
    mapping of that model. *)
Definition saved_from (n : Module)
           (mapping : option (list (string * Z))) (ev : Event) : Prop :=
  match ev with
  | EvSaveCheckpoint st _ _ _ =>
      dict_keys st =
        ["epoch"; "classifier"; "state_dict"; "optimizer";
         "class_idx_mapping"; "arch"; "best_accuracy"]%string
      /\ (exists c, getattr_module "classifier" n = ok c
                    /\ dict_get "classifier" st = Some (VModule c))
      /\ dict_get "class_idx_mapping" st = Some (VClassToIdx mapping)
  | _ => True
  end.

(** What is kept by one iteration, whatever happens. *)
Definition keeps (L L' : Locals) : Prop :=
  best_accuracy L' = best_accuracy L
  /\ net (model L') = net (model L)
  /\ class_idx_mapping (model L') = class_idx_mapping (model L)
  /\ (training (model L) = true -> training (model L') = true).

(** The model object keeps its structure and stays in training mode. *)
Definition same_structure (L L' : Locals) : Prop :=
  net (model L') = net (model L)
  /\ class_idx_mapping (model L') = class_idx_mapping (model L)
  /\ (training (model L) = true -> training (model L') = true).

Definition is_save (ev : Event) : bool :=
  match ev with
  | EvSaveCheckpoint _ _ _ _ => true
  | _ => false
  end.
End LoopVocabulary.

(** ** Validation metrics, as the specification words them *)

Section ValidationVocabulary.
Context {T : Torch}.

(** Class probabilities that the model assigns to the images of a
    batch. *)
Definition probabilities (m : Model) (images : list Image) : list Row :=
  map (row_map torch_exp) (forward (state_dict m) (training m) images).

Definition entries (r : Row) : list Q := fst r :: snd r.

(** Class [i] is the top-1 prediction of a row: its probability is the
    highest one, and the first of that value. *)
Definition is_top1 (r : Row) (i : Z) : Prop :=
  0 <= i
  /\ exists p,
      nth_error (entries r) (Z.to_nat i) = Some p
      /\ forall j q,
          nth_error (entries r) j = Some q ->
          (q <= p)%Q /\ ((j < Z.to_nat i)%nat -> (q < p)%Q).

(** A sample (true label, probabilities) whose top-1 prediction is the
    label. *)
Definition correct (sample : Z * Row) : bool :=
  fst sample =? argmax (snd sample).

(** Fraction of the samples of a batch that are predicted correctly. *)
Definition fraction_correct (m : Model) (batch : Batch) : Q :=
  let samples := combine (snd batch) (probabilities m (fst batch)) in
  (inject_Z (len (filter correct samples)) / inject_Z (len samples))%Q.

Definition total (xs : list Q) : Q := fold_right Qplus 0%Q xs.

Definition mean (xs : list Q) : Q := (total xs / inject_Z (len xs))%Q.

(** Mean over the batches of the per-batch fraction, times 100. *)
Definition spec_validation_accuracy (m : Model) (loader : DataLoader) : Q :=
  (mean (map (fraction_correct m) loader) * 100)%Q.

Definition batch_loss (m : Model) (criterion : list Row -> list Z -> Q)
           (batch : Batch) : Q :=
  criterion (forward (state_dict m) (training m) (fst batch)) (snd batch).

(** Sum of the per-batch losses divided by the number of batches. *)
Definition spec_validation_loss (m : Model)
           (criterion : list Row -> list Z -> Q) (loader : DataLoader) : Q :=
  (total (map (batch_loss m criterion) loader) / inject_Z (len loader))%Q.

Definition is_print (ev : Event) : bool :=
  match ev with
  | EvPrint _ _ _ _ _ => true
  | _ => false
  end.
End ValidationVocabulary.

(** ** Checkpoints and runs, as the specification words them *)

Section RunVocabulary.
Context {T : Torch}.

(** Number of entries of the class mapping recorded in a checkpoint. *)
Definition recorded_classes (st : Checkpoint) : option Z :=
  match dict_get "class_idx_mapping" st with
  | Some (VClassToIdx (Some mapping)) => Some (len mapping)
  | _ => None
  end.

(** Output dimensionality of the classifier head stored in a
    checkpoint. *)
Definition recorded_outputs (st : Checkpoint) : option Z :=
  match dict_get "classifier" st with
  | Some (VModule head) => output_dim head
  | _ => None
  end.

(** The class mapping recorded in a checkpoint has as many entries as the
    classifier stored in the same checkpoint has outputs. *)
Definition mapping_matches_head (st : Checkpoint) : Prop :=
  exists n, recorded_classes st = Some n /\ recorded_outputs st = Some n.

(** A freshly started process: the given directories and files, autograd
    on, nothing has happened yet. *)
Definition fresh_world (ds : list string)
           (fs : list (string * Checkpoint)) : World :=
  {| dirs := ds; files := fs; grad_enabled := true; trace := [] |}.

(** The calls of [save_checkpoint] in a trace: flag, directory, file
    name. *)
Definition save_calls (evs : list Event) : list (bool * string * string) :=
  flat_map (fun ev => match ev with
                      | EvSaveCheckpoint _ b d f => [(b, d, f)]
                      | _ => []
                      end) evs.

(** The command line without any option. *)
Definition no_options : Argv :=
  {| argv_data_dir := None; argv_arch := None; argv_hidden_units := None;
     argv_learning_rate := None; argv_epochs := None; argv_gpu := false;
     argv_model_dir := None |}.
End RunVocabulary.

(** ** Footprints and counts *)

Section FootprintVocabulary.
Context {T : Torch}.

(** Between [w] and [w'] the directories and the autograd switch are the
    same, and so is every file other than those the listed paths name. *)
Definition same_outside (paths : list string) (w w' : World) : Prop :=
  dirs w' = dirs w
  /\ grad_enabled w' = grad_enabled w
  /\ forall file, ~ In file (map realpath paths) ->
                  dict_get file (files w') = dict_get file (files w).

(** Correct predictions and labels seen by [check_accuracy_on_test]. *)
Definition test_counts (m : Model) (loader : DataLoader) : Z * Z :=
  fold_left
    (fun acc (data : Batch) =>
       (fst acc
        + count_equal
            (map argmax (forward (state_dict m) (training m) (fst data)))
            (snd data),
        snd acc + len (snd data)))
    loader (0, 0).

(** Batches as a [DataLoader] yields them: at least one image, and one
    label per image. *)
Definition proper_batches (loader : DataLoader) : Prop :=
  Forall (fun b : Batch => 1 <= len (fst b) /\ len (snd b) = len (fst b))
         loader.

(** The test samples as (predicted class, label), over all batches. *)
Definition test_pairs (m : Model) (loader : DataLoader) : list (Z * Z) :=
  flat_map
    (fun b : Batch =>
       combine (map argmax (forward (state_dict m) (training m) (fst b)))
               (snd b))
    loader.

(** All labels of a loader. *)
Definition labels_of (loader : DataLoader) : list Z := flat_map snd loader.

(** A call of [save_checkpoint] as [train] makes it: to
    [checkpoint.pth] under [model_dir], with the seven fields, the field
    [epoch] holding [epochs] and the field [arch] holding [arch]. *)
Definition epoch_checkpoint (epochs : Z) (arch model_dir : string)
           (ev : Event) : Prop :=
  match ev with
  | EvSaveCheckpoint st _ d f =>
      d = model_dir
      /\ f = "checkpoint.pth"%string
      /\ dict_keys st =
           ["epoch"; "classifier"; "state_dict"; "optimizer";
            "class_idx_mapping"; "arch"; "best_accuracy"]%string
      /\ dict_get "epoch" st = Some (VInt epochs)
      /\ dict_get "arch" st = Some (VStr arch)
  | _ => True
  end.

(** The optimizer steps and the [save_checkpoint] calls of a trace, as
    numbers. *)
Definition count_steps (evs : list Event) : Z := len (optimizer_steps evs).
Definition count_saves (evs : list Event) : Z := len (save_calls evs).
End FootprintVocabulary.

(** ** A small concrete framework

    Enough of torch, torchvision and a data directory to run the script on
    explicit inputs: an image is its own class index, the model scores the
    right class highest, the data directory [data] holds the classes
    [daisy] and [rose]. *)

Module Example.
Definition conv2d : Module :=
  Mod (OtherL "Conv2d") [("weight"%string, true); ("bias"%string, true)] [].

Definition linear (i o : Z) : Module :=
  Mod (LinearL i o) [("weight"%string, true); ("bias"%string, true)] [].

(** Top-level structure of torchvision's VGG nets (the convolutional
    stack is abridged to three layers). *)
Definition vgg : Module :=
  Mod (OtherL "VGG") []
      [("features"%string,
        nn_Sequential [("0"%string, conv2d); ("1"%string, nn_ReLU);
                       ("2"%string, conv2d)]);
       ("avgpool"%string, Mod (OtherL "AdaptiveAvgPool2d") [] []);
       ("classifier"%string,
        nn_Sequential [("0"%string, linear 25088 4096);
                       ("1"%string, nn_ReLU);
                       ("2"%string, nn_Dropout (1 # 2));
                       ("3"%string, linear 4096 4096);
                       ("4"%string, nn_ReLU);
                       ("5"%string, nn_Dropout (1 # 2));
                       ("6"%string, linear 4096 1000)])].

(** Top-level structure of torchvision's DenseNet-121 (the dense blocks
    are abridged). *)
Definition densenet_features : list (string * Module) :=
  [("features"%string,
    nn_Sequential
      [("conv0"%string, Mod (OtherL "Conv2d") [("weight"%string, true)] []);
       ("norm0"%string,
        Mod (OtherL "BatchNorm2d")
            [("weight"%string, true); ("bias"%string, true)] [])])].

Definition densenet : Module :=
  Mod (OtherL "DenseNet") []
      (densenet_features ++ [("classifier"%string, linear 1024 1000)]).

Definition zoo (name : string) : option Module :=
  if (name =? "vgg16")%string || (name =? "vgg13")%string then Some vgg
  else if (name =? "densenet121")%string then Some densenet
  else None.

(** Log-probabilities for an image of class 0 or 1. *)
Definition scores (img : Z) : Row :=
  (if img =? 0 then 0%Q else (-1)%Q, [if img =? 1 then 0%Q else (-1)%Q]).

(** An increasing positive function standing for the exponential. *)
Definition exp_like (q : Q) : Q :=
  if Qle_bool 0 q then (1 + q)%Q else (1 / (1 - q))%Q.

(** [data/train] holds [n] images per class, [data/valid] three. *)
Definition flowers (n : nat) (root : string)
  : option (list (string * list Z)) :=
  if (root =? "data/train")%string
  then Some [("rose"%string, repeat 1 n); ("daisy"%string, repeat 0 n)]
  else if (root =? "data/valid")%string
  then Some [("rose"%string, repeat 1 3%nat); ("daisy"%string, repeat 0 3%nat)]
  else None.

Fixpoint digits (acc : Z) (s : string) : option Z :=
  match s with
  | EmptyString => Some acc
  | String c rest =>
      let n := Z.of_nat (nat_of_ascii c) in
      if (48 <=? n) && (n <=? 57) then digits (10 * acc + (n - 48)) rest
      else None
  end.

(** Decimal integers, with an optional minus sign. *)
Definition int_of_string (s : string) : option Z :=
  match s with
  | EmptyString => None
  | String "-" (String c rest) => option_map Z.opp (digits 0 (String c rest))
  | _ => digits 0 s
  end.

(** [str.split("/")] *)
Fixpoint components (s : string) : list string :=
  match s with
  | EmptyString => [EmptyString]
  | String c rest =>
      if Ascii.eqb c "/" then EmptyString :: components rest
      else
        match components rest with
        | comp :: comps => String c comp :: comps
        | [] => [String c EmptyString]
        end
  end.

(** One step of [os.path.normpath] on the components kept so far (last
    one first). *)
Definition push_component (absolute : bool) (kept : list string)
           (comp : string) : list string :=
  if (comp =? "")%string || (comp =? ".")%string then kept
  else if (comp =? "..")%string then
    match kept with
    | [] => if absolute then [] else [".."%string]
    | top :: rest => if (top =? "..")%string then comp :: kept else rest
    end
  else comp :: kept.

(** [os.path.normpath] of posixpath: file identity in a tree without
    links, for paths relative to one working directory. *)
Definition normpath (path : string) : string :=
  let slashes :=
    if String.prefix "//" path && negb (String.prefix "///" path)
    then "//"%string
    else if String.prefix "/" path then "/"%string else ""%string in
  let kept :=
    fold_left (push_component (negb (slashes =? "")%string))
              (components path) [] in
  let joined := (slashes ++ String.concat "/" (rev kept))%string in
  if (joined =? "")%string then "."%string else joined.

(** A machine that holds weights of up to 2^32 entries. *)
Definition too_large (rows cols : Z) : option Exn :=
  if (2 ^ 63 <=? rows) || (2 ^ 63 <=? cols)
  then Some (RuntimeError "Overflow when unpacking long")
  else if 2 ^ 32 <? rows * cols
       then Some (RuntimeError "not enough memory")
       else None.

(** The message of a recent torch for a missing directory. *)
Definition no_parent (path : string) : Exn :=
  RuntimeError ("Parent directory " ++ dirname path ++ " does not exist.").

Definition torch (n : nat) : Torch :=
  {| Image := Z;
     Weights := Z;
     OptState := unit;
     forward := fun _ _ images => map scores images;
     torch_exp := exp_like;
     nll_loss := fun _ _ => 1%Q;
     backward_step := fun _ _ o w _ _ _ => (o, w + 1);
     adam_init := fun _ _ => tt;
     initial_weights := fun _ => 0;
     torchvision_models := zoo;
     scan_image_dir := flowers n;
     shuffle := fun samples => samples;
     py_int := int_of_string;
     py_float := fun s => option_map inject_Z (int_of_string s);
     realpath := normpath;
     save_error := no_parent;
     allocation_failure := too_large;
     strict_folders := true |}.

(** Inputs for running parts of the script. *)
Definition batch : @Batch (torch 4) := ([0; 1; 1], [0; 1; 0]).

Definition small_model : @Model (torch 4) :=
  @Build_Model (torch 4)
    (Mod (OtherL "VGG") [] [("classifier"%string, spec_head 8 4)])
    (Some [("daisy"%string, 0); ("rose"%string, 1)])
    0 true.

Definition small_optimizer : @Optimizer (torch 4) :=
  @Build_Optimizer (torch 4)
    [["classifier"; "fc1"; "weight"]%string] (1 # 1000) tt.

Definition start : @Locals (torch 4) :=
  {| steps := 0; running_loss := 0; accuracy := None; best_accuracy := 0;
     model := small_model; optimizer := small_optimizer |}.

(** The criterion that [main] passes to [train]. *)
Definition criterion : list Row -> list Z -> Q := @nll_loss (torch 4).


(** What argparse returns without options. *)
Definition default_args : Args :=
  {| arg_data_dir := "data"; arg_arch := "vgg16"; arg_hidden_units := 4096;
     arg_learning_rate := 1 # 1000; arg_epochs := 3; arg_gpu := false;
     arg_model_dir := "models" |}.

(** The model that [build_model] returns for [vgg16] with 512 hidden
    units. *)
Definition vgg16_512 : @Model (torch 4) :=
  @Build_Model (torch 4)
    (Mod (OtherL "VGG") []
         (frozen [("features"%string,
                   nn_Sequential [("0"%string, conv2d);
                                  ("1"%string, nn_ReLU);
                                  ("2"%string, conv2d)]);
                  ("avgpool"%string,
                   Mod (OtherL "AdaptiveAvgPool2d") [] [])]
          ++ [("classifier"%string, spec_head 25088 512)]))
    None 0 true.
End Example.

(** ** More shapes of models *)

(** The last child of a model reads [width] input features: it is a linear
    layer of that input width, or a sequence whose first layer is one. *)
Definition last_child_reads (m : Module) (width : Z) : Prop :=
  exists before name last,
    children m = before ++ [(name, last)] /\ classifier_reads last width.

Module Zoo.
(** Top-level structure of torchvision's AlexNet: the classifier starts
    with a dropout layer. *)
Definition alexnet : Module :=
  Mod (OtherL "AlexNet") []
      [("features"%string,
        nn_Sequential [("0"%string, Example.conv2d); ("1"%string, nn_ReLU)]);
       ("avgpool"%string, Mod (OtherL "AdaptiveAvgPool2d") [] []);
       ("classifier"%string,
        nn_Sequential [("0"%string, nn_Dropout (1 # 2));
                       ("1"%string, Example.linear 9216 4096);
                       ("2"%string, nn_ReLU);
                       ("3"%string, nn_Dropout (1 # 2));
                       ("4"%string, Example.linear 4096 4096);
                       ("5"%string, nn_ReLU);
                       ("6"%string, Example.linear 4096 1000)])].

(** Top-level structure of torchvision's ResNets (abridged): the last
    child is the linear layer [fc]. *)
Definition resnet_body : list (string * Module) :=
  [("conv1"%string, Mod (OtherL "Conv2d") [("weight"%string, true)] []);
   ("bn1"%string,
    Mod (OtherL "BatchNorm2d")
        [("weight"%string, true); ("bias"%string, true)] []);
   ("avgpool"%string, Mod (OtherL "AdaptiveAvgPool2d") [] []);
   ("fc"%string, Example.linear 512 1000)].

Definition resnet : Module := Mod (OtherL "ResNet") [] resnet_body.

(** A feature extractor whose last child is a pooling layer. *)
Definition headless : Module :=
  Mod (OtherL "Features") []
      [("conv"%string, Example.conv2d);
       ("pool"%string, Mod (OtherL "AdaptiveAvgPool2d") [] [])].

Definition models (name : string) : option Module :=
  if (name =? "alexnet")%string then Some alexnet
  else if (name =? "resnet18")%string then Some resnet
  else if (name =? "headless")%string then Some headless
  else Example.zoo name.

(** The framework of [Example.torch] with these models added. *)
Definition torch : Torch :=
  {| Image := Z;
     Weights := Z;
     OptState := unit;
     forward := fun _ _ images => map Example.scores images;
     torch_exp := Example.exp_like;
     nll_loss := fun _ _ => 1%Q;
     backward_step := fun _ _ o w _ _ _ => (o, w + 1);
     adam_init := fun _ _ => tt;
     initial_weights := fun _ => 0;
     torchvision_models := models;
     scan_image_dir := Example.flowers 4;
     shuffle := fun samples => samples;
     py_int := Example.int_of_string;
     py_float := fun s => option_map inject_Z (Example.int_of_string s);
     realpath := Example.normpath;
     save_error := Example.no_parent;
     allocation_failure := Example.too_large;
     strict_folders := true |}.
End Zoo.

(** ** More command lines *)

Module CommandLines.



End CommandLines.

(** ** More states of a run *)

Module Samples.

(** What [ImageFolder] makes of [data/train] with four images per
    class. *)
Definition flowers_dataset : @Dataset (Example.torch 4) :=
  @Build_Dataset (Example.torch 4)
    [(0, 0); (0, 0); (0, 0); (0, 0); (1, 1); (1, 1); (1, 1); (1, 1)]
    [("daisy"%string, 0); ("rose"%string, 1)].

(** A world in which [models/] exists and the working directory holds an
    older [checkpoint.pth]. *)
Definition saved_before : @World (Example.torch 4) :=
  fresh_world (T := Example.torch 4) ["models"%string]
              [("checkpoint.pth"%string, [])].
End Samples.

(** * Properties *)

(** ** Modules *)

Lemma Module_nested_ind (P : Module -> Prop) :
  (forall l ps ms, Forall (fun nm => P (snd nm)) ms -> P (Mod l ps ms)) ->
  forall m, P m.
Proof.
  intros step. fix IH 1. intros [l ps ms]. apply step.
  induction ms as [|[n c] ms IHms]; constructor.
  - apply IH.
  - exact IHms.
Qed.

Lemma freeze_disables_grad m :
  forall p, In p (named_parameters (freeze m)) -> snd p = false.
Proof.
  induction m as [l ps ms IH] using Module_nested_ind.
  intros p Hp. simpl in Hp. apply in_app_or in Hp. destruct Hp as [Hp|Hp].
  - apply in_map_iff in Hp. destruct Hp as [q [<- Hq]].
    apply in_map_iff in Hq. destruct Hq as [q0 [<- _]]. reflexivity.
  - apply in_flat_map in Hp. destruct Hp as [[n c] [Hnc Hp]].
    apply in_map_iff in Hnc. destruct Hnc as [[n0 c0] [E Hin]].
    injection E as <- <-.
    apply in_map_iff in Hp. destruct Hp as [q [<- Hq]]. simpl.
    rewrite Forall_forall in IH. exact (IH _ Hin q Hq).
Qed.

Lemma freeze_children_names m :
  map fst (children (freeze m)) = map fst (children m).
Proof.
  destruct m as [l ps ms]. simpl. rewrite map_map.
  apply map_ext. intros [n c]. reflexivity.
Qed.

Lemma freeze_children_frozen m n c :
  In (n, c) (children (freeze m)) -> exists c0, c = freeze c0.
Proof.
  destruct m as [l ps ms]. simpl. intros H.
  apply in_map_iff in H. destruct H as [[n0 c0] [E _]].
  injection E as _ <-. now exists c0.
Qed.

(** ** Dictionaries *)

Lemma dict_get_set_same {V} k (v : V) d :
  dict_get k (dict_set k v d) = Some v.
Proof.
  induction d as [|[k' v'] d IH]; simpl.
  - now rewrite String.eqb_refl.
  - destruct (String.eqb_spec k k') as [->|Hne]; simpl.
    + now rewrite String.eqb_refl.
    + destruct (String.eqb_spec k k'); [contradiction|exact IH].
Qed.

Lemma dict_set_in {V} k (v : V) d n c :
  In (n, c) (dict_set k v d) -> (n = k /\ c = v) \/ In (n, c) d.
Proof.
  induction d as [|[k' v'] d IH]; simpl.
  - intros [E|[]]. injection E as <- <-. now left.
  - destruct (String.eqb_spec k k') as [->|Hne]; simpl.
    + intros [E|H]; [injection E as <- <-; now left | right; now right].
    + intros [E|H]; [right; now left|].
      destruct (IH H) as [?|?]; [now left | right; now right].
Qed.

Lemma dict_set_in_key {V} k (v : V) d c :
  NoDup (map fst d) -> In (k, c) (dict_set k v d) -> c = v.
Proof.
  induction d as [|[k' v'] d IH]; simpl; intros Hnd.
  - intros [E|[]]. now injection E as <-.
  - inversion Hnd as [|? ? Hnotin Hnd']; subst.
    destruct (String.eqb_spec k k') as [->|Hne]; simpl.
    + intros [E|H]; [now injection E as <-|].
      exfalso. apply Hnotin. apply in_map_iff. now exists (k', c).
    + intros [E|H]; [injection E as E1 _; congruence|]. now apply IH.
Qed.

Lemma dict_set_contains {V} k (v : V) d : In (k, v) (dict_set k v d).
Proof.
  induction d as [|[k' v'] d IH]; simpl.
  - now left.
  - destruct (String.eqb_spec k k'); simpl; [now left | now right].
Qed.

Lemma dict_set_replaces_last {V} k (v v0 : V) before :
  ~ In k (map fst before) ->
  dict_set k v (before ++ [(k, v0)]) = before ++ [(k, v)].
Proof.
  induction before as [|[k' v'] before IH]; simpl; intros Hnotin.
  - now rewrite String.eqb_refl.
  - destruct (String.eqb_spec k k') as [->|Hne].
    + exfalso. apply Hnotin. now left.
    + f_equal. apply IH. intros H. apply Hnotin. now right.
Qed.

(** ** [build_model] *)

Lemma nn_Linear_ok {T : Torch} i o m :
  nn_Linear i o = ok m ->
  m = Mod (LinearL i o) [("weight"%string, true); ("bias"%string, true)] []
  /\ 0 <= i /\ 0 <= o.
Proof.
  unfold nn_Linear.
  destruct (i <? 0) eqn:Ei; destruct (o <? 0) eqn:Eo; simpl;
    try discriminate.
  destruct (allocation_failure o i); [discriminate|].
  intros E. injection E as <-.
  apply Z.ltb_ge in Ei. apply Z.ltb_ge in Eo. auto.
Qed.

Lemma nn_Linear_allocatable {T : Torch} i o m :
  nn_Linear i o = ok m -> allocatable i o.
Proof.
  unfold nn_Linear, allocatable.
  destruct ((i <? 0) || (o <? 0)); [discriminate|].
  destruct (allocation_failure o i); [discriminate|reflexivity].
Qed.

Lemma nn_Linear_nonneg {T : Torch} i o :
  0 <= i -> 0 <= o -> allocatable i o ->
  nn_Linear i o =
    ok (Mod (LinearL i o) [("weight"%string, true); ("bias"%string, true)] []).
Proof.
  intros Hi Ho Halloc. unfold nn_Linear.
  apply Z.ltb_ge in Hi. apply Z.ltb_ge in Ho. rewrite Hi, Ho.
  cbn [orb]. now rewrite Halloc.
Qed.

Lemma setattr_module_ok name child m m' :
  setattr_module name child m = ok m' ->
  (forall p, In p (own_params m) -> fst p <> name)
  /\ layer_of m' = layer_of m
  /\ own_params m' = own_params m
  /\ children m' = dict_set name child (children m).
Proof.
  destruct m as [l ps ms]. simpl.
  destruct (existsb _ ps) eqn:Ex; [discriminate|].
  intros E. injection E as <-. simpl. repeat split.
  intros p Hp Heq.
  assert (existsb (fun p => (fst p =? name)%string) ps = true) as Habs.
  { apply existsb_exists. exists p. split; [exact Hp|].
    now apply String.eqb_eq. }
  congruence.
Qed.

Section BuildModel.
Context {T : Torch}.

(** What a successful [build_model] has done. *)
Lemma build_model_ok arch hidden_units mapping model :
  build_model arch hidden_units mapping = ok model ->
  exists backbone width,
    torchvision_models arch = Some backbone
    /\ 0 <= width /\ 0 <= hidden_units
    /\ setattr_module "classifier" (spec_head width hidden_units)
                      (freeze backbone) = ok (net model)
    /\ class_idx_mapping model = mapping
    /\ training model = true.
Proof.
  unfold build_model.
  destruct (torchvision_models arch) as [backbone|]; [|discriminate].
  cbn [rbind ok throw].
  destruct (rev (children backbone)) as [|[n last] rest]; [discriminate|].
  cbn [rbind ok throw].
  set (found := match layer_of last with
                | LinearL i _ => ok (Some i)
                | SequentialL => _
                | _ => ok None
                end).
  destruct found as [e|[width|]]; cbn [rbind read_local ok throw];
    try discriminate.
  destruct (nn_Linear width hidden_units) as [e|fc1] eqn:E1;
    cbn [rbind]; [discriminate|].
  destruct (nn_Linear hidden_units 102) as [e|fc2] eqn:E2;
    cbn [rbind]; [discriminate|].
  apply nn_Linear_ok in E1. destruct E1 as [-> [Hw Hh]].
  apply nn_Linear_ok in E2. destruct E2 as [-> _].
  change (nn_Sequential _) with (spec_head width hidden_units).
  destruct (setattr_module _ _ _) as [e|net'] eqn:Eset;
    cbn [rbind]; [discriminate|].
  intros E. injection E as <-. simpl.
  exists backbone, width. repeat split; auto.
Qed.
End BuildModel.

Lemma named_parameters_unfold m :
  named_parameters m =
    map (fun p => ([fst p], snd p)) (own_params m)
    ++ flat_map (fun nm => map (fun q => (fst nm :: fst q, snd q))
                               (named_parameters (snd nm)))
                (children m).
Proof.
  destruct m as [l ps ms]. simpl. f_equal.
  induction ms as [|[n c] ms IH]; simpl; [reflexivity|]. now rewrite IH.
Qed.

Lemma freeze_own_params_names m :
  map fst (own_params (freeze m)) = map fst (own_params m).
Proof.
  destruct m as [l ps ms]. simpl. rewrite map_map. reflexivity.
Qed.

Lemma freeze_children m : children (freeze m) = frozen (children m).
Proof.
  destruct m as [l ps ms]. simpl. apply map_ext. now intros [n c].
Qed.

Lemma spec_head_parameters width hidden_units :
  named_parameters (spec_head width hidden_units) =
    [(["fc1"; "weight"]%string, true); (["fc1"; "bias"]%string, true);
     (["fc2"; "weight"]%string, true); (["fc2"; "bias"]%string, true)].
Proof. reflexivity. Qed.

Lemma spec_head_output width hidden_units :
  output_dim (spec_head width hidden_units) = Some 102.
Proof. reflexivity. Qed.

Lemma dict_get_app_last {V} k (v : V) before :
  ~ In k (map fst before) -> dict_get k (before ++ [(k, v)]) = Some v.
Proof.
  induction before as [|[k' v'] before IH]; simpl; intros Hnotin.
  - now rewrite String.eqb_refl.
  - destruct (String.eqb_spec k k') as [->|Hne].
    + exfalso. apply Hnotin. now left.
    + apply IH. intros H. apply Hnotin. now right.
Qed.

Lemma frozen_names ms : map fst (frozen ms) = map fst ms.
Proof. unfold frozen. rewrite map_map. reflexivity. Qed.

Section BuildModelClaims.
Context {T : Torch}.

(** C6, as amended.  For each supported architecture name, whose
    torchvision model ends in a child [classifier] that is a linear layer
    or a sequence starting with one: for every [hidden_units] that is not
    negative and for which torch can allocate the two linear layers,
    [build_model] returns a model whose [classifier] child has been
    replaced by: linear (discovered width to [hidden_units]), ReLU,
    dropout 0.5, linear ([hidden_units] to 102), log-softmax; the other
    children are the frozen backbone, and the head's output
    dimensionality is 102.  For a negative [hidden_units] [build_model]
    returns no model. *)
Theorem build_model_attaches_head :
  forall arch hidden_units mapping backbone before old width,
    In arch VALID_ARCH_CHOICES ->
    torchvision_models arch = Some backbone ->
    ends_in_classifier backbone before old width ->
    (0 <= hidden_units ->
     allocatable width hidden_units ->
     allocatable hidden_units 102 ->
     exists model,
       build_model arch hidden_units mapping = ok model
       /\ children (net model) =
            frozen before
            ++ [("classifier"%string, spec_head width hidden_units)]
       /\ getattr_module "classifier" (net model) =
            ok (spec_head width hidden_units)
       /\ output_dim (spec_head width hidden_units) = Some 102)
    /\ (hidden_units < 0 ->
        forall model, build_model arch hidden_units mapping <> ok model).
Proof.
  intros arch hidden_units mapping backbone before old width
         _ Hzoo (Hch & Hbefore & Hown & Hreads & Hwidth).
  split; [|intros Hneg model Hbuild;
           destruct (build_model_ok _ _ _ _ Hbuild)
             as (_ & _ & _ & _ & Hnonneg & _); lia].
  intros Hhidden Hfc1 Hfc2.
  assert (setattr_module "classifier" (spec_head width hidden_units)
                         (freeze backbone)
          = ok (Mod (layer_of backbone) (own_params (freeze backbone))
                    (frozen before
                     ++ [("classifier"%string,
                          spec_head width hidden_units)]))) as Hset.
  { pose proof (freeze_children backbone) as Hfc.
    pose proof (freeze_own_params_names backbone) as Hnames.
    rewrite Hch in Hfc.
    destruct backbone as [l ps ms]. cbn [freeze setattr_module].
    cbn [freeze children own_params layer_of] in *. rewrite Hfc.
    replace (existsb _ _) with false.
    - f_equal. f_equal. unfold frozen. rewrite map_app. simpl.
      apply dict_set_replaces_last.
      rewrite map_map. simpl. exact Hbefore.
    - symmetry. apply not_true_is_false. intros Hex.
      apply existsb_exists in Hex. destruct Hex as [p [Hp Heq]].
      apply in_map_iff in Hp. destruct Hp as [p0 [<- Hp0]].
      simpl in Heq. apply String.eqb_eq in Heq.
      exact (Hown p0 Hp0 Heq). }
  eexists. split; [|split; [|split]].
  - unfold build_model. rewrite Hzoo. cbn [rbind ok].
    rewrite Hch, rev_unit. cbn [rbind ok].
    assert (match layer_of old with
            | LinearL i _ => ok (Some i)
            | SequentialL =>
                match children old with
                | [] => throw IndexError
                | (_, first) :: _ =>
                    match layer_of first with
                    | LinearL i _ => ok (Some i)
                    | _ => throw (AttributeError "in_features")
                    end
                end
            | _ => ok None
            end = ok (Some width)) as ->.
    { destruct Hreads as [(o & ps & ms & ->)
                         |(o & n0 & ps & ps0 & ms0 & rest & ->)];
        reflexivity. }
    cbn [rbind ok read_local].
    rewrite (nn_Linear_nonneg width hidden_units Hwidth Hhidden Hfc1).
    cbn [rbind ok].
    rewrite (nn_Linear_nonneg hidden_units 102 Hhidden ltac:(lia) Hfc2).
    cbn [rbind ok].
    change (nn_Sequential _) with (spec_head width hidden_units).
    rewrite Hset. cbn [rbind ok]. reflexivity.
  - reflexivity.
  - unfold getattr_module. cbn [net children].
    rewrite dict_get_app_last; [reflexivity|].
    now rewrite frozen_names.
  - reflexivity.
Qed.

(** C5.  After [build_model] has returned a model, a parameter of the
    model requires gradients exactly when it belongs to the attached
    [classifier] head: every parameter kept from the pretrained backbone
    is frozen, every parameter of the new head is trainable.  The
    optimizer that [main] constructs (for a learning rate that Adam
    accepts) optimizes exactly the trainable parameters, that is, the
    head's. *)
Theorem only_head_is_trainable :
  forall arch hidden_units mapping backbone model learning_rate,
    torchvision_models arch = Some backbone ->
    distinct_children backbone ->
    build_model arch hidden_units mapping = ok model ->
    (0 <= learning_rate)%Q ->
    (forall path requires_grad,
        In (path, requires_grad) (named_parameters (net model)) ->
        (requires_grad = true <-> under_classifier path))
    /\ exists optimizer,
        make_optimizer model learning_rate = ok optimizer
        /\ forall path,
            In path (opt_params optimizer) <->
            In (path, true) (named_parameters (net model)).
Proof.
  intros arch hidden_units mapping backbone model lr Hzoo Hdistinct
         Hbuild Hlr.
  destruct (build_model_ok _ _ _ _ Hbuild)
    as (backbone' & width & Hzoo' & _ & _ & Hset & _ & _).
  rewrite Hzoo in Hzoo'. injection Hzoo' as <-.
  apply setattr_module_ok in Hset.
  destruct Hset as (Hown & _ & Hps & Hch).
  set (head := spec_head width hidden_units) in *.
  assert (forall path g,
             In (path, g) (named_parameters (net model)) ->
             (exists q, path = "classifier"%string :: q
                        /\ In (q, g) (named_parameters head) /\ g = true)
             \/ (g = false /\ ~ under_classifier path)) as Hcases.
  { intros path g Hin. rewrite named_parameters_unfold in Hin.
    apply in_app_or in Hin. destruct Hin as [Hin|Hin].
    - right. apply in_map_iff in Hin. destruct Hin as [p [E Hp]].
      rewrite Hps in Hp. injection E as <- <-. split.
      + exact (freeze_disables_grad backbone ([fst p], snd p)
                 ltac:(rewrite named_parameters_unfold; apply in_or_app;
                       left; apply in_map_iff; now exists p)).
      + unfold under_classifier. simpl. intros E. injection E as E.
        exact (Hown p Hp E).
    - apply in_flat_map in Hin. destruct Hin as [[n c] [Hnc Hin]].
      cbn [fst snd] in Hin.
      apply in_map_iff in Hin. destruct Hin as [[q g'] [E Hq]].
      simpl in E. injection E as <- <-.
      rewrite Hch in Hnc.
      destruct (String.eqb_spec n "classifier") as [->|Hne].
      + left. apply dict_set_in_key in Hnc.
        * subst c. exists q. repeat split; auto.
          unfold head in Hq. rewrite spec_head_parameters in Hq.
          simpl in Hq.
          repeat (destruct Hq as [Hq|Hq];
                  [now injection Hq as _ <-|]).
          destruct Hq.
        * now rewrite freeze_children_names.
      + right. split.
        * apply dict_set_in in Hnc. destruct Hnc as [[E _]|Hnc];
            [contradiction|].
          destruct (freeze_children_frozen _ _ _ Hnc) as [c0 ->].
          exact (freeze_disables_grad c0 (q, g') Hq).
        * unfold under_classifier. simpl. intros E. injection E as E.
          contradiction. }
  split.
  - intros path g Hin. destruct (Hcases path g Hin)
      as [(q & -> & _ & ->)|[-> Hnot]].
    + split; [reflexivity|]. intros _. reflexivity.
    + split; [discriminate|]. intros H. contradiction.
  - assert (getattr_module "classifier" (net model) = ok head) as Hget.
    { unfold getattr_module. rewrite Hch, dict_get_set_same.
      reflexivity. }
    unfold make_optimizer, classifier_parameters.
    rewrite Hget. cbn [rbind ok].
    unfold head at 1. rewrite spec_head_parameters.
    cbn [map fst optim_Adam].
    assert (negb (Qle_bool 0 lr) = false) as ->.
    { apply negb_false_iff. now apply Qle_bool_iff. }
    eexists. split; [reflexivity|]. cbn [opt_params].
    intros path. split.
    + intros Hin.
      assert (exists q, path = "classifier"%string :: q
                        /\ In (q, true) (named_parameters head))
        as (q & -> & Hq).
      { unfold head. rewrite spec_head_parameters. simpl in Hin.
        repeat (destruct Hin as [<-|Hin];
                [eexists; split; [reflexivity|]; simpl; tauto|]).
        destruct Hin. }
      rewrite named_parameters_unfold. apply in_or_app. right.
      apply in_flat_map. exists ("classifier"%string, head). split.
      * rewrite Hch. apply dict_set_contains.
      * apply in_map_iff. now exists (q, true).
    + intros Hin. destruct (Hcases path true Hin)
        as [(q & -> & Hq & _)|[Hfalse _]]; [|discriminate].
      unfold head in Hq. rewrite spec_head_parameters in Hq.
      simpl in Hq. simpl.
      repeat (destruct Hq as [Hq|Hq];
              [injection Hq as <-; tauto|]).
      destruct Hq.
Qed.
End BuildModelClaims.

(** ** The monad *)

Section Monad.
Context {T : Torch}.

Lemma bind_ok {A B} (m : M A) (k : A -> M B) w a w' :
  m w = (inr a, w') -> bind m k w = k a w'.
Proof. unfold bind. now intros ->. Qed.

Lemma bind_raise {A B} (m : M A) (k : A -> M B) w e w' :
  m w = (inl e, w') -> bind m k w = (inl e, w').
Proof. unfold bind. now intros ->. Qed.

Lemma emit_run ev w : emit ev w = (inr tt, add_events [ev] w).
Proof. reflexivity. Qed.

Lemma add_events_nil w : add_events [] w = w.
Proof. destruct w. unfold add_events. simpl. now rewrite app_nil_r. Qed.

Lemma add_events_app e1 e2 w :
  add_events e2 (add_events e1 w) = add_events (e1 ++ e2) w.
Proof. unfold add_events. simpl. now rewrite app_assoc. Qed.

Lemma bind_bind {A B C} (m : M A) (k1 : A -> M B) (k2 : B -> M C) w :
  bind (bind m k1) k2 w = bind m (fun x => bind (k1 x) k2) w.
Proof. unfold bind. destruct (m w) as [[e|a] w']; reflexivity. Qed.

Lemma bind_emit {B} ev (k : unit -> M B) w :
  bind (emit ev) k w = k tt (add_events [ev] w).
Proof. reflexivity. Qed.

Lemma bind_ret {A B} (a : A) (k : A -> M B) w : bind (ret a) k w = k a w.
Proof. reflexivity. Qed.

Lemma bind_lift_ok {A B} (a : A) (k : A -> M B) w :
  bind (lift (inr a)) k w = k a w.
Proof. reflexivity. Qed.

Lemma bind_lift_raise {A B} e (k : A -> M B) w :
  bind (lift (inl e)) k w = (inl e, w).
Proof. reflexivity. Qed.

Lemma bind_is_grad_enabled {B} (k : bool -> M B) w :
  bind is_grad_enabled k w = k (grad_enabled w) w.
Proof. reflexivity. Qed.

Lemma ret_run {A} (a : A) w : ret a w = (inr a, w).
Proof. reflexivity. Qed.

Lemma grad_enabled_add_events evs w :
  grad_enabled (add_events evs w) = grad_enabled w.
Proof. reflexivity. Qed.

Lemma no_grad_run {A} (body : M A) w r evs :
  body (set_grad_enabled false w)
    = (r, add_events evs (set_grad_enabled false w)) ->
  no_grad body w = (r, add_events evs w).
Proof. unfold no_grad. intros ->. destruct w. reflexivity. Qed.
End Monad.

(** Symbolic execution of a monadic program, one statement at a time. *)
Ltac mstep :=
  first [ rewrite bind_bind
        | rewrite bind_emit
        | rewrite bind_ret
        | rewrite bind_lift_ok
        | rewrite bind_lift_raise
        | rewrite bind_is_grad_enabled
        | rewrite ret_run
        | rewrite add_events_app
        | rewrite grad_enabled_add_events ].

(** ** [validation] *)

Section Validation.
Context {T : Torch}.

Lemma validation_loop model criterion loader :
  forall acc w,
    for_each
      (fun (batch : Batch) (acc : Q * Q) =>
         let '(images, labels) := batch in
         let '(test_loss, accuracy) := acc in
         (grad <- is_grad_enabled ;;
          emit (EvValForward (training model) grad) ;;
          let output := forward (state_dict model) (training model) images in
          let test_loss := (test_loss + criterion output labels)%Q in
          let ps := map (row_map torch_exp) output in
          let equality := equality_tensor labels (map argmax ps) in
          let accuracy := (accuracy + tensor_mean equality)%Q in
          ret (test_loss, accuracy))%M)
      loader acc w
    = (inr (fold_left
              (fun acc batch =>
                 ((fst acc + fst (batch_scores model criterion batch))%Q,
                  (snd acc + snd (batch_scores model criterion batch))%Q))
              loader acc),
       add_events
         (map (fun _ => EvValForward (training model) (grad_enabled w))
              loader) w).
Proof.
  induction loader as [|[images labels] loader IH]; intros [tl a] w.
  - simpl. unfold ret. now rewrite add_events_nil.
  - cbn [for_each]. cbn beta iota zeta.
    repeat mstep. rewrite IH. repeat mstep. reflexivity.
Qed.

(** [validation] always returns: the two sums, one forward pass per
    batch, nothing else. *)
Lemma validation_run model loader criterion device w :
  validation model loader criterion device w =
    (inr (validation_sums model criterion loader),
     add_events (validation_events model criterion loader (grad_enabled w))
                w).
Proof.
  unfold validation.
  rewrite (bind_ok _ _ _ _ _ (validation_loop model criterion loader _ w)).
  unfold validation_events, validation_sums.
  destruct (fold_left _ loader (0%Q, 0%Q)) as [vl va].
  cbn [fst snd]. repeat mstep. reflexivity.
Qed.
End Validation.

(** ** One training batch *)

Section TrainBatch.
Context {T : Torch}.
Variables (validloader : DataLoader).
Variables (epochs print_every : Z).
Variable criterion : list Row -> list Z -> Q.
Variable device : string.

Let step := train_batch validloader epochs print_every criterion device.

Lemma no_grad_validation {B} model (k : Q * Q -> M B) w :
  bind (no_grad (validation model validloader criterion device)) k w =
    k (validation_sums model criterion validloader)
      (add_events (validation_events model criterion validloader false) w).
Proof.
  apply bind_ok. apply no_grad_run. now rewrite validation_run.
Qed.

Lemma py_mod_ok a :
  print_every <> 0 -> py_mod a print_every = inr (a mod print_every).
Proof.
  intros H. unfold py_mod. apply Z.eqb_neq in H. now rewrite H.
Qed.

Lemma py_div_ok x n : n <> 0 -> py_div x n = inr (x / inject_Z n)%Q.
Proof.
  intros H. unfold py_div. apply Z.eqb_neq in H. now rewrite H.
Qed.

Lemma len_nonzero {A} (l : list A) : l <> [] -> len l <> 0.
Proof. destruct l; [congruence|]. unfold len. simpl. lia. Qed.

(** A step whose number is not a multiple of [print_every]: forward,
    backward, optimizer step, nothing else. *)
Lemma train_batch_quiet e batch L w :
  print_every <> 0 ->
  (steps L + 1) mod print_every <> 0 ->
  step e batch L w =
    (inr (after_update criterion batch L),
     add_events [EvTrainForward (training (model L));
                 EvOptimizerStep (steps L + 1) (training (model L))] w).
Proof.
  intros Hpe Hmod. unfold step, train_batch, after_update.
  destruct batch as [images labels]. cbn [fst snd].
  destruct (backward_step _ _ _ _ _ _ _) as [o wt].
  cbn [fst snd]. rewrite (py_mod_ok _ Hpe).
  apply Z.eqb_neq in Hmod.
  repeat mstep. rewrite Hmod. repeat mstep. reflexivity.
Qed.

(** A step whose number is a multiple of [print_every]: after the
    optimizer step the model goes to evaluation mode, every validation
    batch is evaluated without gradient tracking, the metrics are printed
    and the model goes back to training mode. *)
Lemma train_batch_validates e batch L w :
  print_every <> 0 ->
  validloader <> [] ->
  (steps L + 1) mod print_every = 0 ->
  let m := validated_model criterion batch L in
  let sums := validation_sums m criterion validloader in
  step e batch L w =
    (inr (after_validation validloader criterion batch L),
     add_events
       ([EvTrainForward (training (model L));
         EvOptimizerStep (steps L + 1) (training (model L));
         EvModelEval]
        ++ validation_events m criterion validloader false
        ++ [EvPrint (e + 1) epochs
                    (running_loss (after_update criterion batch L)
                     / inject_Z print_every)%Q
                    (fst sums / inject_Z (len validloader))%Q
                    (snd sums / inject_Z (len validloader) * 100)%Q;
            EvModelTrain]) w).
Proof.
  intros Hpe Hval Hmod m sums.
  unfold step, train_batch, after_validation.
  subst sums m. unfold validated_model, after_update.
  destruct batch as [images labels]. cbn [fst snd].
  destruct (backward_step _ _ _ _ _ _ _) as [o wt].
  cbn [fst snd model steps running_loss best_accuracy optimizer].
  rewrite (py_mod_ok _ Hpe). rewrite Hmod.
  repeat mstep. cbn [Z.eqb]. repeat mstep.
  rewrite no_grad_validation.
  destruct (validation_sums _ criterion validloader) as [vl va] eqn:Es.
  rewrite (py_div_ok _ _ Hpe).
  rewrite !(py_div_ok _ _ (len_nonzero _ Hval)).
  repeat mstep. cbn [fst snd]. rewrite <- !app_assoc. reflexivity.
Qed.
End TrainBatch.

(** ** Traces *)

Section Traces.
Context {T : Torch}.

Lemma optimizer_steps_app e1 e2 :
  optimizer_steps (e1 ++ e2) = optimizer_steps e1 ++ optimizer_steps e2.
Proof. unfold optimizer_steps. apply flat_map_app. Qed.

Lemma counts_from_app s l1 l2 :
  counts_from s l1 -> counts_from (s + len l1) l2 ->
  counts_from s (l1 ++ l2).
Proof.
  revert s. induction l1 as [|x l1 IH]; simpl; intros s H1 H2.
  - unfold len in H2. simpl in H2. now rewrite Z.add_0_r in H2.
  - destruct H1 as [-> H1]. split; [reflexivity|]. apply IH; [exact H1|].
    unfold len in *. simpl length in H2.
    replace (s + 1 + Z.of_nat (length l1))
      with (s + Z.of_nat (S (length l1))) by lia.
    exact H2.
Qed.

Lemma validation_events_steps model criterion loader grad :
  optimizer_steps (validation_events model criterion loader grad) = [].
Proof.
  unfold validation_events. rewrite optimizer_steps_app. simpl.
  rewrite app_nil_r. induction loader; simpl; auto.
Qed.

Lemma validation_events_in_phase model criterion loader :
  training model = false ->
  Forall event_in_phase (validation_events model criterion loader false).
Proof.
  intros Hm. unfold validation_events. apply Forall_app. split.
  - apply Forall_forall. intros ev Hev. apply in_map_iff in Hev.
    destruct Hev as [b [<- _]]. simpl. auto.
  - repeat constructor.
Qed.

Lemma validation_events_no_save model criterion loader grad :
  Forall (fun ev => is_save ev = false)
         (validation_events model criterion loader grad).
Proof.
  unfold validation_events. apply Forall_app. split.
  - apply Forall_forall. intros ev Hev. apply in_map_iff in Hev.
    now destruct Hev as [b [<- _]].
  - repeat constructor.
Qed.

Lemma last_validation_from init evs :
  fold_left (fun acc ev => match ev with
                           | EvValidation _ a => Some a
                           | _ => acc
                           end) evs init
  = match last_validation evs with
    | Some a => Some a
    | None => init
    end.
Proof.
  unfold last_validation. revert init.
  induction evs as [|ev evs IH]; intros init; simpl; [reflexivity|].
  rewrite IH. rewrite (IH (match ev with
                            | EvValidation _ a => Some a
                            | _ => None
                            end)).
  destruct (fold_left _ evs None); [reflexivity|].
  destruct ev; reflexivity.
Qed.

Lemma last_validation_app e1 e2 :
  last_validation (e1 ++ e2) =
    match last_validation e2 with
    | Some a => Some a
    | None => last_validation e1
    end.
Proof.
  unfold last_validation at 1. rewrite fold_left_app.
  apply last_validation_from.
Qed.

Lemma last_validation_of_pass model criterion loader grad :
  last_validation (validation_events model criterion loader grad)
  = Some (snd (validation_sums model criterion loader)).
Proof.
  unfold validation_events. rewrite last_validation_app. reflexivity.
Qed.
End Traces.

(** ** The loop over the batches of an epoch *)

Section BatchLoop.
Context {T : Torch}.
Variables (validloader : DataLoader).
Variables (epochs print_every : Z).
Variable criterion : list Row -> list Z -> Q.
Variable device : string.

Let step := train_batch validloader epochs print_every criterion device.

Lemma keeps_refl L : keeps L L.
Proof. unfold keeps. auto. Qed.

Lemma keeps_trans L1 L2 L3 : keeps L1 L2 -> keeps L2 L3 -> keeps L1 L3.
Proof.
  unfold keeps. intros (B1 & N1 & C1 & T1) (B2 & N2 & C2 & T2).
  repeat split; try congruence. auto.
Qed.

Lemma train_batch_any e batch L w :
  exists r evs,
    step e batch L w = (r, add_events evs w)
    /\ optimizer_steps evs = [steps L + 1]
    /\ Forall (fun ev => is_save ev = false) evs
    /\ (training (model L) = true -> Forall event_in_phase evs)
    /\ (forall L', r = inr L' -> steps L' = steps L + 1 /\ keeps L L').
Proof.
  destruct (Z.eq_dec print_every 0) as [Hpe|Hpe].
  - (* the modulus raises right after the optimizer step *)
    exists (inl ZeroDivisionError),
           [EvTrainForward (training (model L));
            EvOptimizerStep (steps L + 1) (training (model L))].
    split; [|split; [|split; [|split]]].
    + unfold step, train_batch. destruct batch as [images labels].
      destruct (backward_step _ _ _ _ _ _ _) as [o wt].
      unfold py_mod. rewrite Hpe. cbn [Z.eqb throw].
      repeat mstep. reflexivity.
    + reflexivity.
    + repeat constructor.
    + intros Ht. repeat constructor. exact Ht.
    + discriminate.
  - destruct (Z.eq_dec ((steps L + 1) mod print_every) 0) as [Hmod|Hmod].
    + assert (validloader = [] \/ validloader <> []) as [Hval|Hval]
        by (destruct validloader; [now left | now right]).
      * (* nothing to validate on: the print divides by zero *)
        exists (inl ZeroDivisionError),
               ([EvTrainForward (training (model L));
                 EvOptimizerStep (steps L + 1) (training (model L));
                 EvModelEval]
                ++ validation_events (validated_model criterion batch L)
                                     criterion validloader false).
        split; [|split; [|split; [|split]]].
        -- unfold step, train_batch, validated_model, after_update.
           destruct batch as [images labels]. cbn [fst snd].
           destruct (backward_step _ _ _ _ _ _ _) as [o wt].
           cbn [fst snd model].
           rewrite (py_mod_ok _ _ Hpe), Hmod.
           repeat mstep. cbn [Z.eqb]. repeat mstep.
           rewrite no_grad_validation.
           destruct (validation_sums _ criterion validloader)
             as [vl' va'].
           rewrite (py_div_ok _ _ Hpe). repeat mstep.
           rewrite Hval. reflexivity.
        -- rewrite optimizer_steps_app, validation_events_steps.
           reflexivity.
        -- apply Forall_app. split; [repeat constructor|].
           apply validation_events_no_save.
        -- intros Ht. apply Forall_app. split.
           ++ repeat constructor. exact Ht.
           ++ now apply validation_events_in_phase.
        -- discriminate.
      * eexists. eexists. split; [|split; [|split; [|split]]].
        -- apply train_batch_validates; assumption.
        -- rewrite !optimizer_steps_app.
           rewrite validation_events_steps. reflexivity.
        -- apply Forall_app. split; [repeat constructor|].
           apply Forall_app. split.
           ++ apply validation_events_no_save.
           ++ repeat constructor.
        -- intros Ht. apply Forall_app. split.
           ++ repeat constructor. exact Ht.
           ++ apply Forall_app. split.
              ** now apply validation_events_in_phase.
              ** repeat constructor.
        -- intros L' E. injection E as <-.
           unfold keeps. simpl. auto.
    + eexists. eexists. split; [|split; [|split; [|split]]].
      * apply train_batch_quiet; assumption.
      * reflexivity.
      * repeat constructor.
      * intros Ht. repeat constructor. exact Ht.
      * intros L' E. injection E as <-.
        unfold keeps. simpl. auto.
Qed.

Lemma for_each_cons {A S} (body : A -> S -> M S) x xs s w :
  for_each body (x :: xs) s w = bind (body x s) (for_each body xs) w.
Proof. reflexivity. Qed.

(** The whole loop, whatever happens: the optimizer steps are numbered
    consecutively, nothing is saved, the phases are respected. *)
Lemma batch_loop_any e bs :
  forall L w,
  exists r evs,
    for_each (step e) bs L w = (r, add_events evs w)
    /\ counts_from (steps L) (optimizer_steps evs)
    /\ Forall (fun ev => is_save ev = false) evs
    /\ (training (model L) = true -> Forall event_in_phase evs)
    /\ (forall L', r = inr L' ->
          steps L' = steps L + len (optimizer_steps evs) /\ keeps L L').
Proof.
  induction bs as [|b bs IH]; intros L w.
  - exists (inr L), []. split; [|split; [|split; [|split]]].
    + simpl. now rewrite ret_run, add_events_nil.
    + exact I.
    + constructor.
    + intros _. constructor.
    + intros L' E. injection E as <-. split.
      * unfold len. simpl. lia.
      * apply keeps_refl.
  - destruct (train_batch_any e b L w)
      as (r1 & evs1 & Hrun1 & Hsteps1 & Hsave1 & Hphase1 & Hok1).
    fold step in Hrun1.
    destruct r1 as [err|L1].
    + exists (inl err), evs1. split; [|split; [|split; [|split]]]; auto.
      * rewrite for_each_cons. now apply bind_raise.
      * rewrite Hsteps1. simpl. auto.
      * discriminate.
    + destruct (Hok1 L1 eq_refl) as [Hs1 Hk1].
      destruct (IH L1 (add_events evs1 w))
        as (r2 & evs2 & Hrun2 & Hsteps2 & Hsave2 & Hphase2 & Hok2).
      exists r2, (evs1 ++ evs2). split; [|split; [|split; [|split]]].
      * rewrite for_each_cons, (bind_ok _ _ _ _ _ Hrun1), Hrun2.
        now rewrite add_events_app.
      * rewrite optimizer_steps_app, Hsteps1. simpl.
        split; [reflexivity|]. now rewrite <- Hs1.
      * apply Forall_app. auto.
      * intros Ht. apply Forall_app. split; [auto|].
        apply Hphase2. now apply Hk1.
      * intros L' E. destruct (Hok2 L' E) as [Hs2 Hk2]. split.
        -- rewrite optimizer_steps_app, Hsteps1, Hs2, Hs1.
           unfold len. simpl length. lia.
        -- exact (keeps_trans _ _ _ Hk1 Hk2).
Qed.

(** No step number of the loop is a multiple of [print_every]: the loop
    finishes, [accuracy] is what it was. *)
Lemma batch_loop_quiet e bs :
  print_every <> 0 ->
  forall L w,
    (forall k, 1 <= k <= len bs -> (steps L + k) mod print_every <> 0) ->
    exists L' evs,
      for_each (step e) bs L w = (inr L', add_events evs w)
      /\ accuracy L' = accuracy L
      /\ last_validation evs = None
      /\ Forall (fun ev => is_save ev = false) evs.
Proof.
  intros Hpe. induction bs as [|b bs IH]; intros L w Hquiet.
  - exists L, []. simpl. rewrite ret_run, add_events_nil. auto.
  - assert ((steps L + 1) mod print_every <> 0) as Hmod.
    { apply Hquiet. unfold len. simpl length. lia. }
    pose proof (train_batch_quiet validloader epochs print_every criterion
                                  device e b L w Hpe Hmod) as Hrun1.
    fold step in Hrun1.
    destruct (IH (after_update criterion b L)
                 (add_events [EvTrainForward (training (model L));
                              EvOptimizerStep (steps L + 1)
                                              (training (model L))] w))
      as (L' & evs & Hrun & Hacc & Hlast & Hsave).
    { intros k Hk. cbn [after_update steps].
      replace (steps L + 1 + k) with (steps L + (k + 1)) by lia.
      apply Hquiet. unfold len in *. simpl length. lia. }
    eexists. eexists. split; [|split; [|split]].
    + rewrite for_each_cons, (bind_ok _ _ _ _ _ Hrun1), Hrun.
      now rewrite add_events_app.
    + exact Hacc.
    + rewrite last_validation_app, Hlast. reflexivity.
    + apply Forall_app. split; [repeat constructor | exact Hsave].
Qed.

(** With something to validate on, the loop always finishes, and
    [accuracy] is then what the last validation pass of the loop returned
    (what it was before, if there was no pass). *)
Lemma batch_loop_run e bs :
  print_every <> 0 ->
  validloader <> [] ->
  forall L w,
  exists L' evs,
    for_each (step e) bs L w = (inr L', add_events evs w)
    /\ accuracy L' = match last_validation evs with
                     | Some a => Some a
                     | None => accuracy L
                     end
    /\ (last_validation evs = None <->
        forall k, 1 <= k <= len bs -> (steps L + k) mod print_every <> 0).
Proof.
  intros Hpe Hval. induction bs as [|b bs IH]; intros L w.
  - exists L, []. simpl. rewrite ret_run, add_events_nil.
    split; [reflexivity|]. split; [reflexivity|]. split; [|reflexivity].
    intros _ k Hk. unfold len in Hk. simpl in Hk. lia.
  - destruct (Z.eq_dec ((steps L + 1) mod print_every) 0) as [Hmod|Hmod].
    + pose proof (train_batch_validates validloader epochs print_every
                    criterion device e b L w Hpe Hval Hmod) as Hrun1.
      cbv zeta in Hrun1. fold step in Hrun1.
      match type of Hrun1 with
      | _ = (_, add_events ?evs1 _) =>
          destruct (IH (after_validation validloader criterion b L)
                       (add_events evs1 w))
            as (L' & evs & Hrun & Hacc & Hnone);
          assert (last_validation evs1 =
                    accuracy (after_validation validloader criterion b L))
            as Hlast1
      end.
      { rewrite app_assoc, last_validation_app. cbn [last_validation fold_left].
        rewrite last_validation_app, last_validation_of_pass.
        reflexivity. }
      eexists. eexists. split; [|split].
      * rewrite for_each_cons, (bind_ok _ _ _ _ _ Hrun1), Hrun.
        now rewrite add_events_app.
      * rewrite Hacc, last_validation_app, Hlast1.
        destruct (last_validation evs); reflexivity.
      * rewrite last_validation_app, Hlast1. split.
        -- destruct (last_validation evs); discriminate.
        -- intros Hall. exfalso. apply (Hall 1); [|exact Hmod].
           unfold len. simpl length. lia.
    + pose proof (train_batch_quiet validloader epochs print_every criterion
                                    device e b L w Hpe Hmod) as Hrun1.
      fold step in Hrun1.
      destruct (IH (after_update criterion b L)
                   (add_events [EvTrainForward (training (model L));
                                EvOptimizerStep (steps L + 1)
                                                (training (model L))] w))
        as (L' & evs & Hrun & Hacc & Hnone).
      eexists. eexists. split; [|split].
      * rewrite for_each_cons, (bind_ok _ _ _ _ _ Hrun1), Hrun.
        now rewrite add_events_app.
      * rewrite Hacc, last_validation_app.
        destruct (last_validation evs); reflexivity.
      * rewrite last_validation_app.
        assert (last_validation
                  [EvTrainForward (training (model L));
                   EvOptimizerStep (steps L + 1) (training (model L))]
                = None) as -> by reflexivity.
        assert (match last_validation evs with
                | Some a => Some a
                | None => None
                end = last_validation evs) as ->
            by (destruct (last_validation evs); reflexivity).
        rewrite Hnone. cbn [after_update steps]. split.
        -- intros Hall k Hk.
           destruct (Z.eq_dec k 1) as [->|Hk1]; [exact Hmod|].
           replace (steps L + k) with (steps L + 1 + (k - 1)) by lia.
           apply Hall. unfold len in *. simpl length in Hk. lia.
        -- intros Hall k Hk.
           replace (steps L + 1 + k) with (steps L + (k + 1)) by lia.
           apply Hall. unfold len in *. simpl length. lia.
Qed.
End BatchLoop.

(** ** The end of an epoch *)

Section EpochEnd.
Context {T : Torch}.
Variables (validloader : DataLoader).
Variables (epochs : Z).
Variables (arch model_dir : string).

Lemma torch_save_trace st path w :
  trace (snd (torch_save st path w)) = trace w.
Proof. unfold torch_save. destruct (dir_exists _ w); reflexivity. Qed.

Lemma shutil_copyfile_trace src dst w :
  trace (snd (shutil_copyfile src dst w)) = trace w.
Proof.
  unfold shutil_copyfile.
  destruct (realpath src =? realpath dst)%string; [reflexivity|].
  destruct (read_file src w); [|reflexivity].
  destruct (dir_exists _ w); reflexivity.
Qed.

Lemma save_checkpoint_trace st is_best dir filename w :
  trace (snd (save_checkpoint st is_best dir filename w))
  = trace w ++ [EvSaveCheckpoint st is_best dir filename].
Proof.
  unfold save_checkpoint. rewrite bind_emit. unfold bind.
  pose proof (torch_save_trace st (os_path_join dir filename)
                (add_events [EvSaveCheckpoint st is_best dir filename] w))
    as Hsave.
  destruct (torch_save _ _ _) as [[err|[]] w1]; cbn [snd] in *.
  - exact Hsave.
  - destruct is_best.
    + rewrite shutil_copyfile_trace. exact Hsave.
    + exact Hsave.
Qed.

(** The epoch end when [accuracy] is bound, the model has a classifier
    and the validation loader is not empty: one call of
    [save_checkpoint], whose flag compares [accuracy] with the best so
    far. *)
Lemma epoch_end_run L w a c :
  accuracy L = Some a ->
  getattr_module "classifier" (net (model L)) = ok c ->
  validloader <> [] ->
  exists r w',
    epoch_end validloader epochs arch model_dir L w = (r, w')
    /\ trace w' =
         trace w
         ++ [EvSaveCheckpoint
               (checkpoint_fields
                  epochs arch c (model L) (optimizer L)
                  (py_max a (best_accuracy L)
                   / inject_Z (len validloader) * 100)%Q)
               (py_gt a (best_accuracy L)) model_dir "checkpoint.pth"]
    /\ (forall L', r = inr L' ->
          steps L' = steps L /\ model L' = model L
          /\ accuracy L' = Some a
          /\ best_accuracy L' = py_max a (best_accuracy L)).
Proof.
  intros Hacc Hget Hval. unfold epoch_end.
  rewrite Hacc, Hget. cbn [read_local]. unfold ok.
  repeat mstep.
  rewrite (py_div_ok _ _ (len_nonzero _ Hval)).
  repeat mstep. unfold bind.
  match goal with
  | |- context [save_checkpoint ?st ?b ?d ?f w] =>
      pose proof (save_checkpoint_trace st b d f w) as Htrace;
      destruct (save_checkpoint st b d f w) as [[err|[]] w1]
  end; cbn [snd] in Htrace.
  - eexists. eexists. split; [reflexivity|]. split; [exact Htrace|].
    discriminate.
  - eexists. eexists. split; [reflexivity|]. split; [exact Htrace|].
    intros L' E. injection E as <-. simpl. auto.
Qed.

(** The epoch end, whatever happens. *)
Lemma epoch_end_any L w :
  exists r w' evs,
    epoch_end validloader epochs arch model_dir L w = (r, w')
    /\ trace w' = trace w ++ evs
    /\ optimizer_steps evs = []
    /\ Forall event_in_phase evs
    /\ Forall (saved_from (net (model L)) (class_idx_mapping (model L))) evs
    /\ (forall L', r = inr L' -> steps L' = steps L /\ model L' = model L).
Proof.
  assert (forall e, exists r w' evs,
             ((inl e : result Locals), w) = (r, w')
             /\ trace w' = trace w ++ evs
             /\ optimizer_steps evs = []
             /\ Forall event_in_phase evs
             /\ Forall (saved_from (net (model L))
                                   (class_idx_mapping (model L))) evs
             /\ (forall L' : Locals, r = inr L' ->
                   steps L' = steps L /\ model L' = model L)) as Hraise.
  { intros e. exists (inl e), w, []. rewrite app_nil_r.
    repeat split; auto; discriminate. }
  destruct (accuracy L) as [a|] eqn:Hacc.
  2:{ unfold epoch_end. rewrite Hacc. cbn [read_local]. unfold throw.
      rewrite bind_lift_raise. apply Hraise. }
  destruct (getattr_module "classifier" (net (model L))) as [e|c] eqn:Hget.
  { unfold epoch_end. rewrite Hacc, Hget. cbn [read_local]. unfold ok.
    repeat mstep. apply Hraise. }
  assert (validloader = [] \/ validloader <> []) as [Hval|Hval]
    by (destruct validloader; [now left | now right]).
  { unfold epoch_end. rewrite Hacc, Hget. cbn [read_local]. unfold ok.
    repeat mstep. rewrite Hval. unfold py_div. cbn [len length Z.of_nat Z.eqb].
    unfold throw. rewrite bind_lift_raise. apply Hraise. }
  destruct (epoch_end_run L w a c Hacc Hget Hval)
    as (r & w' & Hrun & Htrace & Hok).
  exists r, w'. eexists. split; [exact Hrun|]. split; [exact Htrace|].
  split; [reflexivity|]. split; [repeat constructor|].
  split.
  - constructor; [|constructor]. simpl. split; [reflexivity|].
    split; [|reflexivity]. exists c. split; [exact Hget|reflexivity].
  - intros L' E. destruct (Hok L' E) as (Hs & Hm & _). auto.
Qed.
End EpochEnd.

(** ** Epochs and the whole of [train] *)

Section TrainLoop.
Context {T : Torch}.
Variables (trainloader validloader : DataLoader).
Variables (epochs print_every : Z).
Variable criterion : list Row -> list Z -> Q.
Variables (arch device model_dir : string).

Let epoch :=
  train_epoch trainloader validloader epochs print_every criterion arch
              device model_dir.

Lemma add_events_inj evs evs' w :
  add_events evs w = add_events evs' w -> evs = evs'.
Proof.
  intros E. apply (f_equal trace) in E. simpl in E.
  now apply app_inv_head in E.
Qed.

Lemma not_save_saved_from n mapping evs :
  Forall (fun ev => is_save ev = false) evs ->
  Forall (saved_from n mapping) evs.
Proof.
  apply Forall_impl. intros [] H; simpl; auto. discriminate.
Qed.

Lemma train_epoch_any e L w :
  exists r w' evs,
    epoch e L w = (r, w')
    /\ trace w' = trace w ++ evs
    /\ counts_from (steps L) (optimizer_steps evs)
    /\ (training (model L) = true -> Forall event_in_phase evs)
    /\ Forall (saved_from (net (model L)) (class_idx_mapping (model L))) evs
    /\ (forall L', r = inr L' ->
          steps L' = steps L + len (optimizer_steps evs)
          /\ same_structure L L').
Proof.
  unfold epoch, train_epoch.
  set (L0 := {| steps := steps L; running_loss := 0;
                accuracy := accuracy L; best_accuracy := best_accuracy L;
                model := model L; optimizer := optimizer L |}).
  destruct (batch_loop_any validloader epochs print_every criterion device
                           e trainloader L0 w)
    as (r1 & evs1 & Hrun1 & Hcount1 & Hsave1 & Hphase1 & Hok1).
  destruct r1 as [err|L1].
  - exists (inl err), (add_events evs1 w), evs1.
    split; [now apply bind_raise|]. split; [reflexivity|].
    split; [exact Hcount1|]. split; [exact Hphase1|].
    split; [now apply not_save_saved_from|]. discriminate.
  - destruct (Hok1 L1 eq_refl) as (Hs1 & _ & Hnet & Hmap & Htr).
    cbn [L0 steps model] in Hs1, Hnet, Hmap, Htr.
    destruct (epoch_end_any validloader epochs arch model_dir L1
                            (add_events evs1 w))
      as (r2 & w2 & evs2 & Hrun2 & Htrace2 & Hsteps2 & Hphase2 & Hsaved2
          & Hok2).
    exists r2, w2, (evs1 ++ evs2).
    split; [now rewrite (bind_ok _ _ _ _ _ Hrun1)|].
    split; [rewrite Htrace2; simpl; now rewrite app_assoc|].
    rewrite optimizer_steps_app, Hsteps2, app_nil_r.
    split; [exact Hcount1|].
    split; [intros Ht; apply Forall_app; auto|].
    split.
    + apply Forall_app. split; [now apply not_save_saved_from|].
      now rewrite <- Hnet, <- Hmap.
    + intros L' E. destruct (Hok2 L' E) as [Hs2 Hm2].
      unfold same_structure. rewrite Hm2, Hs2. auto.
Qed.

Lemma epochs_loop_any es :
  forall L w,
  exists r w' evs,
    for_each epoch es L w = (r, w')
    /\ trace w' = trace w ++ evs
    /\ counts_from (steps L) (optimizer_steps evs)
    /\ (training (model L) = true -> Forall event_in_phase evs)
    /\ Forall (saved_from (net (model L)) (class_idx_mapping (model L))) evs.
Proof.
  induction es as [|e es IH]; intros L w.
  - exists (inr L), w, []. rewrite app_nil_r. simpl. repeat split; auto.
  - destruct (train_epoch_any e L w)
      as (r1 & w1 & evs1 & Hrun1 & Htrace1 & Hcount1 & Hphase1 & Hsaved1
          & Hok1).
    destruct r1 as [err|L1].
    + exists (inl err), w1, evs1. split; [now apply bind_raise|]. auto.
    + destruct (Hok1 L1 eq_refl) as (Hs1 & Hnet & Hmap & Htr).
      destruct (IH L1 w1)
        as (r2 & w2 & evs2 & Hrun2 & Htrace2 & Hcount2 & Hphase2 & Hsaved2).
      exists r2, w2, (evs1 ++ evs2).
      split; [now rewrite for_each_cons, (bind_ok _ _ _ _ _ Hrun1)|].
      split; [rewrite Htrace2, Htrace1; now rewrite app_assoc|].
      split; [|split].
      * rewrite optimizer_steps_app. apply counts_from_app; [auto|].
        now rewrite <- Hs1.
      * intros Ht. apply Forall_app. auto.
      * apply Forall_app. split; [auto|]. now rewrite <- Hnet, <- Hmap.
Qed.

(** Every run of [train]: optimizer steps happen in training mode and are
    numbered 1, 2, 3, ... across epochs; validation forwards happen in
    evaluation mode without gradients; every checkpoint handed to
    [save_checkpoint] holds the model's classifier and class mapping. *)
Lemma train_any m0 opt0 w :
  exists r w' evs,
    train trainloader validloader epochs print_every criterion arch device
          model_dir m0 opt0 w = (r, w')
    /\ trace w' = trace w ++ evs
    /\ counts_from 0 (optimizer_steps evs)
    /\ Forall event_in_phase evs
    /\ Forall (saved_from (net m0) (class_idx_mapping m0)) evs.
Proof.
  unfold train. rewrite bind_emit.
  match goal with
  | |- context [bind (for_each _ _ ?L0) _ ?w0] =>
      destruct (epochs_loop_any (range epochs) L0 w0)
        as (r & w' & evs & Hrun & Htrace & Hcount & Hphase & Hsaved)
  end.
  fold epoch. unfold bind. rewrite Hrun.
  cbn [steps model set_training training net class_idx_mapping] in *.
  destruct r as [err|L'].
  - exists (inl err), w', (EvModelTrain :: evs).
    split; [reflexivity|]. split.
    { rewrite Htrace. simpl. now rewrite <- app_assoc. }
    split; [exact Hcount|].
    split; constructor; simpl; auto.
  - exists (inr tt), w', (EvModelTrain :: evs).
    split; [reflexivity|]. split.
    { rewrite Htrace. simpl. now rewrite <- app_assoc. }
    split; [exact Hcount|].
    split; constructor; simpl; auto.
Qed.
End TrainLoop.

(** ** Claims about the training loop *)

Section TrainClaims.
Context {T : Torch}.
Variables (trainloader validloader : DataLoader).
Variables (epochs print_every : Z).
Variable criterion : list Row -> list Z -> Q.
Variables (arch device model_dir : string).


(** C4.  When the training loader yields fewer than [print_every] batches
    and there is at least one epoch, [train] raises
    [UnboundLocalError] for [accuracy] at the end of the first epoch: no
    validation pass has run, [save_checkpoint] has not been called and
    the files are what they were. *)
Theorem accuracy_unbound_in_short_first_epoch :
  forall m0 opt0 w,
    1 <= epochs ->
    len trainloader < print_every ->
    exists w' evs,
      train trainloader validloader epochs print_every criterion arch
            device model_dir m0 opt0 w
      = (inl (UnboundLocalError "accuracy"), w')
      /\ trace w' = trace w ++ evs
      /\ last_validation evs = None
      /\ Forall (fun ev => is_save ev = false) evs
      /\ files w' = files w.
Proof.
  intros m0 opt0 w Hepochs Hshort.
  assert (print_every <> 0) as Hpe by (unfold len in Hshort; lia).
  unfold train. rewrite bind_emit.
  assert (exists n, range epochs = 0 :: map Z.of_nat (seq 1 n))
    as [n ->].
  { unfold range. destruct (Z.to_nat epochs) as [|n] eqn:En; [lia|].
    exists n. reflexivity. }
  cbn [for_each]. rewrite bind_bind.
  unfold train_epoch at 1. rewrite bind_bind.
  match goal with
  | |- context [bind (for_each _ trainloader ?L0) _ ?w0] =>
      destruct (batch_loop_quiet validloader epochs print_every criterion
                                 device 0 trainloader Hpe L0 w0)
        as (L1 & evs1 & Hrun1 & Hacc1 & Hlast1 & Hsave1)
  end.
  { intros k Hk. cbn [steps]. rewrite Z.add_0_l.
    rewrite Z.mod_small; lia. }
  rewrite (bind_ok _ _ _ _ _ Hrun1).
  unfold epoch_end. rewrite Hacc1. cbn [accuracy read_local]. unfold throw.
  rewrite bind_bind, bind_lift_raise. rewrite add_events_app.
  eexists. eexists. split; [reflexivity|].
  split; [reflexivity|]. split; [|split].
  - change (EvModelTrain :: evs1) with ([EvModelTrain] ++ evs1).
    rewrite last_validation_app, Hlast1. reflexivity.
  - constructor; [reflexivity | exact Hsave1].
  - reflexivity.
Qed.

(** C2.  In an epoch during which at least one periodic validation pass
    runs (some step of the epoch has a number that is a multiple of
    [print_every]), the epoch ends with one call of [save_checkpoint]
    whose [is_best] flag compares the accuracy returned by the last
    validation pass of the epoch with the best so far, and whose
    [best_accuracy] field is the larger of the two, as a percentage.
    Nothing is recomputed at the end of the epoch and nothing is
    averaged over the epoch. *)
Theorem best_uses_last_validation :
  forall e L w classifier k,
    print_every <> 0 ->
    validloader <> [] ->
    getattr_module "classifier" (net (model L)) = ok classifier ->
    1 <= k <= len trainloader ->
    (steps L + k) mod print_every = 0 ->
    exists r w' evs a st is_best,
      train_epoch trainloader validloader epochs print_every criterion
                  arch device model_dir e L w = (r, w')
      /\ trace w' =
           trace w
           ++ evs
           ++ [EvSaveCheckpoint st is_best model_dir "checkpoint.pth"]
      /\ Forall (fun ev => is_save ev = false) evs
      /\ last_validation evs = Some a
      /\ is_best = py_gt a (best_accuracy L)
      /\ dict_get "best_accuracy" st =
           Some (VFloat (py_max a (best_accuracy L)
                         / inject_Z (len validloader) * 100)%Q).
Proof.
  intros e L w c k Hpe Hval Hget Hk Hmod.
  unfold train_epoch.
  set (L0 := {| steps := steps L; running_loss := 0;
                accuracy := accuracy L; best_accuracy := best_accuracy L;
                model := model L; optimizer := optimizer L |}).
  destruct (batch_loop_run validloader epochs print_every criterion device
                           e trainloader Hpe Hval L0 w)
    as (L1 & evs & Hrun & Hacc & Hnone).
  destruct (batch_loop_any validloader epochs print_every criterion device
                           e trainloader L0 w)
    as (r' & evs' & Hrun' & _ & Hsave & _ & Hkeeps).
  rewrite Hrun in Hrun'. injection Hrun' as <- Hevs.
  apply app_inv_head in Hevs. subst evs'.
  destruct (Hkeeps L1 eq_refl) as (_ & Hbest & Hnet & _).
  cbn [L0 best_accuracy model] in Hbest, Hnet.
  destruct (last_validation evs) as [a|] eqn:Hlast.
  2:{ exfalso. destruct Hnone as [Hnone _].
      apply (Hnone eq_refl k Hk). exact Hmod. }
  rewrite <- Hnet in Hget.
  destruct (epoch_end_run validloader epochs arch model_dir L1
                          (add_events evs w) a c Hacc Hget Hval)
    as (r & w' & Hend & Htrace & _).
  exists r, w', evs, a. eexists. eexists.
  split; [now rewrite (bind_ok _ _ _ _ _ Hrun)|].
  split; [rewrite Htrace; simpl; now rewrite <- app_assoc|].
  split; [exact Hsave|]. split; [exact Hlast|].
  rewrite Hbest. split; reflexivity.
Qed.
End TrainClaims.

(** ** Validation metrics *)

Lemma py_gt_lt a b : py_gt a b = true <-> (b < a)%Q.
Proof.
  unfold py_gt. rewrite negb_true_iff. split.
  - intros H. apply Qnot_le_lt. intros Hle.
    apply Qle_bool_iff in Hle. congruence.
  - intros H. apply not_true_is_false. intros Hle.
    apply Qle_bool_iff in Hle. exact (Qlt_not_le _ _ H Hle).
Qed.

Lemma py_gt_le a b : py_gt a b = false <-> (a <= b)%Q.
Proof.
  unfold py_gt. rewrite negb_false_iff. apply Qle_bool_iff.
Qed.

(** [argmax_from] keeps the first maximum of what it has seen. *)
Lemma argmax_from_top1 xs :
  forall (seen : list Q) (best_i : nat) (best : Q),
    nth_error seen best_i = Some best ->
    (forall j q, nth_error seen j = Some q ->
                 (q <= best)%Q /\ ((j < best_i)%nat -> (q < best)%Q)) ->
    let i := argmax_from (Z.of_nat best_i) best (len seen) xs in
    0 <= i
    /\ exists p,
        nth_error (seen ++ xs) (Z.to_nat i) = Some p
        /\ forall j q,
            nth_error (seen ++ xs) j = Some q ->
            (q <= p)%Q /\ ((j < Z.to_nat i)%nat -> (q < p)%Q).
Proof.
  induction xs as [|x xs IH]; intros seen best_i best Hbest Hmax; cbn zeta.
  - simpl. rewrite app_nil_r, Nat2Z.id. split; [lia|]. now exists best.
  - assert (best_i < length seen)%nat as Hlt
        by (apply nth_error_Some; congruence).
    cbn [argmax_from].
    replace (seen ++ x :: xs) with ((seen ++ [x]) ++ xs)
      by (rewrite <- app_assoc; reflexivity).
    replace (len seen + 1) with (len (seen ++ [x]))
      by (unfold len; rewrite length_app; simpl; lia).
    destruct (py_gt x best) eqn:Hgt.
    + apply py_gt_lt in Hgt.
      apply (IH (seen ++ [x]) (length seen) x).
      * rewrite nth_error_app2, Nat.sub_diag; [reflexivity|lia].
      * intros j q Hj.
        destruct (Nat.lt_ge_cases j (length seen)) as [Hjs|Hjs].
        -- rewrite nth_error_app1 in Hj by exact Hjs.
           destruct (Hmax j q Hj) as [Hle _].
           assert (q < x)%Q by (eapply Qle_lt_trans; eauto).
           split; [now apply Qlt_le_weak | auto].
        -- rewrite nth_error_app2 in Hj by exact Hjs.
           destruct (j - length seen)%nat as [|n] eqn:En.
           ++ injection Hj as <-. split; [apply Qle_refl | lia].
           ++ destruct n; discriminate.
    + apply py_gt_le in Hgt.
      apply (IH (seen ++ [x]) best_i best).
      * rewrite nth_error_app1; assumption.
      * intros j q Hj.
        destruct (Nat.lt_ge_cases j (length seen)) as [Hjs|Hjs].
        -- rewrite nth_error_app1 in Hj by exact Hjs. now apply Hmax.
        -- rewrite nth_error_app2 in Hj by exact Hjs.
           destruct (j - length seen)%nat as [|n] eqn:En.
           ++ injection Hj as <-. split; [exact Hgt | lia].
           ++ destruct n; discriminate.
Qed.

Section ValidationMetrics.
Context {T : Torch}.

(** The prediction read off a row of probabilities is its top-1 class. *)
Lemma argmax_is_top1 r : is_top1 r (argmax r).
Proof.
  destruct r as [x xs]. unfold is_top1, argmax, entries. cbn [fst snd].
  apply (argmax_from_top1 xs [x] 0%nat x).
  - reflexivity.
  - intros [|[|j]] q Hj; try discriminate.
    injection Hj as <-. split; [apply Qle_refl | lia].
Qed.

Lemma equality_tensor_correct labels ps :
  equality_tensor labels (map argmax ps)
  = map (fun s => if correct s then 1%Q else 0%Q) (combine labels ps).
Proof.
  unfold equality_tensor. revert ps.
  induction labels as [|l labels IH]; intros [|p ps]; simpl; auto.
  now rewrite IH.
Qed.

Lemma sum_of_indicators {A} (f : A -> bool) l :
  forall a,
    (fold_left Qplus (map (fun s => if f s then 1 else 0) l) a
     == a + inject_Z (len (filter f l)))%Q.
Proof.
  unfold len. induction l as [|s l IH]; intros a; simpl.
  - ring.
  - rewrite IH. destruct (f s); simpl length.
    + rewrite Nat2Z.inj_succ, <- Z.add_1_l, inject_Z_plus. ring.
    + ring.
Qed.

Lemma batch_scores_fraction m criterion batch :
  (snd (batch_scores m criterion batch) == fraction_correct m batch)%Q.
Proof.
  unfold batch_scores, fraction_correct, probabilities, tensor_mean.
  cbn [snd]. rewrite equality_tensor_correct.
  rewrite sum_of_indicators. unfold len at 2. rewrite length_map.
  unfold len. setoid_replace (0 + inject_Z (Z.of_nat (length
    (filter correct (combine (snd batch)
       (map (row_map torch_exp)
            (forward (state_dict m) (training m) (fst batch))))))))%Q
    with (inject_Z (Z.of_nat (length
    (filter correct (combine (snd batch)
       (map (row_map torch_exp)
            (forward (state_dict m) (training m) (fst batch))))))))%Q
    by ring.
  reflexivity.
Qed.

Lemma validation_sums_from m criterion loader :
  forall acc,
    let r := fold_left
               (fun acc batch =>
                  ((fst acc + fst (batch_scores m criterion batch))%Q,
                   (snd acc + snd (batch_scores m criterion batch))%Q))
               loader acc in
    (fst r == fst acc + total (map (batch_loss m criterion) loader))%Q
    /\ (snd r == snd acc + total (map (fraction_correct m) loader))%Q.
Proof.
  induction loader as [|b loader IH]; intros acc; cbn zeta.
  - simpl. split; ring.
  - cbn [fold_left map total fold_right].
    destruct (IH ((fst acc + fst (batch_scores m criterion b))%Q,
                  (snd acc + snd (batch_scores m criterion b))%Q))
      as [H1 H2].
    cbn zeta in H1, H2. cbn [fst snd] in H1, H2.
    split.
    + rewrite H1. unfold total, batch_loss, batch_scores. cbn [fst]. ring.
    + rewrite H2, batch_scores_fraction. unfold total. ring.
Qed.

Lemma validation_sums_totals m criterion loader :
  (fst (validation_sums m criterion loader)
   == total (map (batch_loss m criterion) loader))%Q
  /\ (snd (validation_sums m criterion loader)
      == total (map (fraction_correct m) loader))%Q.
Proof.
  unfold validation_sums.
  destruct (validation_sums_from m criterion loader (0%Q, 0%Q)) as [H1 H2].
  cbn zeta in H1, H2. cbn [fst snd] in H1, H2.
  split; [rewrite H1 | rewrite H2]; ring.
Qed.
End ValidationMetrics.

Section TopOne.
Context {T : Torch}.

Lemma top1_unique r i j : is_top1 r i -> is_top1 r j -> i = j.
Proof.
  intros (Hi & p & Hp & Hpmax) (Hj & q & Hq & Hqmax).
  destruct (Z.lt_trichotomy i j) as [Hlt|[Heq|Hlt]]; [|exact Heq|]; exfalso.
  - destruct (Hqmax _ _ Hp) as [_ Hstrict].
    destruct (Hpmax _ _ Hq) as [Hle _].
    apply (Qlt_not_le _ _ (Hstrict ltac:(lia)) Hle).
  - destruct (Hpmax _ _ Hq) as [_ Hstrict].
    destruct (Hqmax _ _ Hp) as [Hle _].
    apply (Qlt_not_le _ _ (Hstrict ltac:(lia)) Hle).
Qed.

Lemma correct_iff_top1 label row :
  correct (label, row) = true <-> is_top1 row label.
Proof.
  unfold correct. cbn [fst snd]. rewrite Z.eqb_eq. split.
  - intros ->. apply argmax_is_top1.
  - intros H. exact (top1_unique _ _ _ H (argmax_is_top1 row)).
Qed.

Lemma validation_events_no_print model criterion loader grad :
  Forall (fun ev => is_print ev = false)
         (validation_events model criterion loader grad).
Proof.
  unfold validation_events. apply Forall_app. split.
  - apply Forall_forall. intros ev Hev. apply in_map_iff in Hev.
    now destruct Hev as [b [<- _]].
  - repeat constructor.
Qed.
End TopOne.

Section ValidationClaim.
Context {T : Torch}.
Variables (validloader : DataLoader).
Variables (epochs print_every : Z).
Variable criterion : list Row -> list Z -> Q.
Variable device : string.

(** C7.  A loop iteration whose step count is a multiple of
    [print_every] (with a non-empty validation loader) prints exactly one
    log line.  Its validation accuracy is the mean over the validation
    batches of the per-batch fraction of samples whose top-1 prediction
    is the true label, times 100; its validation loss is the sum of the
    per-batch criterion losses divided by the number of validation
    batches.  Both are measured on the model as it is after this step's
    update, in evaluation mode; a sample counts as correct exactly when
    its label is the class of highest probability (the first one among
    equals). *)
Theorem logged_validation_metrics :
  forall e batch L w,
    print_every <> 0 ->
    validloader <> [] ->
    (steps L + 1) mod print_every = 0 ->
    exists L' before after training_loss val_loss val_acc,
      train_batch validloader epochs print_every criterion device
                  e batch L w
      = (inr L',
         add_events
           (before
            ++ EvPrint (e + 1) epochs training_loss val_loss val_acc
            :: after) w)
      /\ Forall (fun ev => is_print ev = false) (before ++ after)
      /\ (val_acc ==
          spec_validation_accuracy (validated_model criterion batch L)
                                   validloader)%Q
      /\ (val_loss ==
          spec_validation_loss (validated_model criterion batch L)
                               criterion validloader)%Q
      /\ (forall label row,
             correct (label, row) = true <-> is_top1 row label).
Proof.
  intros e batch L w Hpe Hval Hmod.
  pose proof (train_batch_validates validloader epochs print_every
                criterion device e batch L w Hpe Hval Hmod) as Hrun.
  cbv zeta in Hrun.
  set (m := validated_model criterion batch L) in *.
  destruct (validation_sums_totals m criterion validloader) as [Hloss Hacc].
  exists (after_validation validloader criterion batch L),
         ([EvTrainForward (training (model L));
           EvOptimizerStep (steps L + 1) (training (model L));
           EvModelEval]
          ++ validation_events m criterion validloader false),
         [EvModelTrain].
  do 3 eexists. split; [|split; [|split; [|split]]].
  - rewrite Hrun. rewrite <- app_assoc. reflexivity.
  - rewrite <- app_assoc. apply Forall_app. split; [repeat constructor|].
    apply Forall_app. split; [apply validation_events_no_print|].
    repeat constructor.
  - unfold spec_validation_accuracy, mean. rewrite Hacc.
    unfold len. rewrite length_map. reflexivity.
  - unfold spec_validation_loss. rewrite Hloss. reflexivity.
  - apply correct_iff_top1.
Qed.
End ValidationClaim.

(** ** [load_data_folder] *)

Lemma insert_sorted_perm s l : Permutation (insert_sorted s l) (s :: l).
Proof.
  induction l as [|x l IH]; simpl; [reflexivity|].
  destruct (String.leb s x); [reflexivity|].
  rewrite IH. apply perm_swap.
Qed.

Lemma sorted_perm l : Permutation (sorted l) l.
Proof.
  induction l as [|x l IH]; simpl; [reflexivity|].
  rewrite insert_sorted_perm. now constructor.
Qed.

Lemma dict_set_fresh {V} k (v : V) d :
  ~ In k (map fst d) -> dict_set k v d = d ++ [(k, v)].
Proof.
  induction d as [|[k' v'] d IH]; simpl; intros Hfresh; [reflexivity|].
  destruct (String.eqb_spec k k') as [->|Hne].
  - exfalso. apply Hfresh. now left.
  - f_equal. apply IH. intros H. apply Hfresh. now right.
Qed.

(** Numbering distinct names one by one gives one entry per name. *)
Lemma class_to_idx_length names :
  forall i (d : list (string * Z)),
    NoDup names ->
    (forall k, In k names -> ~ In k (map fst d)) ->
    length (fold_left (fun d ic => dict_set (snd ic) (fst ic) d)
                      (enumerate_from i names) d)
    = (length d + length names)%nat.
Proof.
  induction names as [|n names IH]; intros i d Hnd Hfresh; simpl.
  - lia.
  - inversion Hnd as [|? ? Hn Hnd']; subst.
    rewrite dict_set_fresh by (apply Hfresh; now left).
    rewrite IH.
    + rewrite length_app. simpl. lia.
    + exact Hnd'.
    + intros k Hk. rewrite map_app. simpl. intros Hin.
      apply in_app_or in Hin. destruct Hin as [Hin|[<-|[]]].
      * apply (Hfresh k); [now right | exact Hin].
      * contradiction.
Qed.

Section LoadData.
Context {T : Torch}.

Lemma ImageFolder_mapping root dataset entries :
  ImageFolder root = ok dataset ->
  scan_image_dir root = Some entries ->
  NoDup (map fst entries) ->
  len (class_to_idx dataset) = len entries.
Proof.
  intros Hds Hscan Hnd.
  assert (class_to_idx dataset
          = fold_left (fun d ic => dict_set (snd ic) (fst ic) d)
                      (enumerate (sorted (map fst entries))) []) as ->.
  { revert Hds. unfold ImageFolder. rewrite Hscan. cbv zeta.
    destruct strict_folders.
    - destruct (sorted (map fst entries)); [discriminate|].
      destruct (existsb empty_class entries); [discriminate|].
      intros E. injection E as <-. reflexivity.
    - destruct (flat_map _ _); [discriminate|].
      intros E. injection E as <-. reflexivity. }
  pose proof (sorted_perm (map fst entries)) as Hperm.
  assert (NoDup (sorted (map fst entries))) as Hnd'
      by (apply (Permutation_NoDup (Permutation_sym Hperm)); exact Hnd).
  unfold len, enumerate. rewrite class_to_idx_length.
  - apply Permutation_length in Hperm. rewrite length_map in Hperm.
    simpl. lia.
  - exact Hnd'.
  - intros k _ [].
Qed.

Lemma load_data_folder_mapping data_folder loaders mapping entries :
  load_data_folder data_folder = ok (loaders, mapping) ->
  scan_image_dir (os_path_join data_folder "train") = Some entries ->
  NoDup (map fst entries) ->
  len mapping = len entries.
Proof.
  unfold load_data_folder. intros Hload Hscan Hnd.
  destruct (ImageFolder (os_path_join data_folder "train"))
    as [e|train_dataset] eqn:Htrain; [discriminate|].
  cbn [rbind] in Hload.
  destruct (ImageFolder (os_path_join data_folder "valid"))
    as [e|valid_dataset]; [discriminate|].
  cbn [rbind] in Hload. injection Hload as _ <-.
  exact (ImageFolder_mapping _ _ _ Htrain Hscan Hnd).
Qed.
End LoadData.

(** ** [main] *)

Section Main.
Context {T : Torch}.

Lemma os_system_run cmd w :
  exists w',
    os_system cmd w = (inr tt, w')
    /\ trace w' = trace w ++ [EvSystem cmd]
    /\ files w' = files w.
Proof.
  unfold os_system. rewrite bind_emit.
  destruct (strip_prefix "mkdir -p " cmd) as [arg|].
  - destruct (shell_word arg); eexists; (split; [reflexivity|]);
      split; reflexivity.
  - eexists. split; [reflexivity|]. split; reflexivity.
Qed.

(** Every call of [save_checkpoint] in a run of [main] saves the model
    that [build_model] returned for the class mapping that
    [load_data_folder] returned. *)
Lemma main_saves argv w r w' :
  main argv w = (r, w') ->
  exists evs,
    trace w' = trace w ++ evs
    /\ forall st b d f,
        In (EvSaveCheckpoint st b d f) evs ->
        exists args loaders mapping model,
          parse_args argv = ok args
          /\ load_data_folder (arg_data_dir args) = ok (loaders, mapping)
          /\ build_model (arg_arch args) (arg_hidden_units args)
                         (Some mapping) = ok model
          /\ saved_from (net model) (Some mapping)
                        (EvSaveCheckpoint st b d f).
Proof.
  unfold main.
  destruct (parse_args argv) as [e|args] eqn:Hparse.
  { rewrite bind_lift_raise. intros E. injection E as <- <-.
    exists []. rewrite app_nil_r. split; [reflexivity|].
    intros st b d f []. }
  rewrite bind_lift_ok.
  destruct (os_system_run ("mkdir -p " ++ arg_model_dir args) w)
    as (w1 & Hsys & Htrace1 & _).
  rewrite (bind_ok _ _ _ _ _ Hsys). rewrite bind_emit.
  destruct (load_data_folder (arg_data_dir args))
    as [e|[[train_dl valid_dl] mapping]] eqn:Hload.
  { rewrite bind_lift_raise. intros E. injection E as <- <-.
    eexists. split.
    - simpl. rewrite Htrace1, <- app_assoc. reflexivity.
    - intros st b d f Hin. simpl in Hin.
      destruct Hin as [?|[?|[]]]; discriminate. }
  rewrite bind_lift_ok. cbn beta iota zeta. rewrite bind_emit.
  destruct (build_model (arg_arch args) (arg_hidden_units args)
                        (Some mapping)) as [e|model] eqn:Hbuild.
  { rewrite bind_lift_raise. intros E. injection E as <- <-.
    eexists. split.
    - simpl. rewrite Htrace1, <- !app_assoc. reflexivity.
    - intros st b d f Hin. simpl in Hin.
      destruct Hin as [?|[?|[?|[]]]]; discriminate. }
  rewrite bind_lift_ok.
  destruct (make_optimizer model (arg_learning_rate args))
    as [e|optimizer].
  { rewrite bind_lift_raise. intros E. injection E as <- <-.
    eexists. split.
    - simpl. rewrite Htrace1, <- !app_assoc. reflexivity.
    - intros st b d f Hin. simpl in Hin.
      destruct Hin as [?|[?|[?|[]]]]; discriminate. }
  rewrite bind_lift_ok, bind_emit.
  match goal with
  | |- train ?tl ?vl ?ep ?pe ?cr ?ar ?dev ?md ?m ?o ?w0 = _ -> _ =>
      destruct (train_any tl vl ep pe cr ar dev md m o w0)
        as (r0 & w0' & evs & Hrun & Htrace & _ & _ & Hsaved)
  end.
  rewrite Hrun. intros E. injection E as <- <-.
  eexists. split.
  - rewrite Htrace. simpl. rewrite Htrace1, <- !app_assoc. reflexivity.
  - intros st b d f Hin. simpl in Hin.
    destruct Hin as [?|[?|[?|[?|Hin]]]]; try discriminate.
    rewrite Forall_forall in Hsaved. pose proof (Hsaved _ Hin) as Hs.
    destruct (build_model_ok _ _ _ _ Hbuild)
      as (_ & _ & _ & _ & _ & _ & Hmap & _).
    rewrite Hmap in Hs.
    exists args, (train_dl, valid_dl), mapping, model. auto.
Qed.


(** C3, as amended.  In every checkpoint that a run of [main] hands to
    [save_checkpoint], the stored classifier head has 102 outputs and the
    stored class mapping has one entry per class sub-directory of
    [train/]; so the two agree exactly when [train/] has 102 class
    sub-directories. *)
Theorem checkpoint_head_has_102_outputs :
  forall argv w args entries,
    parse_args argv = ok args ->
    scan_image_dir (os_path_join (arg_data_dir args) "train")
      = Some entries ->
    NoDup (map fst entries) ->
    exists evs,
      trace (snd (main argv w)) = trace w ++ evs
      /\ forall st b d f,
          In (EvSaveCheckpoint st b d f) evs ->
          recorded_classes st = Some (len entries)
          /\ recorded_outputs st = Some 102
          /\ (mapping_matches_head st <-> len entries = 102).
Proof.
  intros argv w args entries Hparse Hscan Hnd.
  destruct (main argv w) as [r w'] eqn:Hmain.
  destruct (main_saves argv w r w' Hmain) as (evs & Htrace & Hsaves).
  exists evs. split; [exact Htrace|].
  intros st b d f Hin.
  destruct (Hsaves st b d f Hin)
    as (args' & loaders & mapping & model & Hparse' & Hload & Hbuild
        & _ & (c & Hget & Hc) & Hm).
  rewrite Hparse in Hparse'. injection Hparse' as <-.
  destruct (build_model_ok _ _ _ _ Hbuild)
    as (backbone & width & _ & _ & _ & Hset & _ & _).
  apply setattr_module_ok in Hset. destruct Hset as (_ & _ & _ & Hch).
  unfold getattr_module in Hget.
  rewrite Hch, dict_get_set_same in Hget. injection Hget as <-.
  pose proof (load_data_folder_mapping _ _ _ _ Hload Hscan Hnd) as Hlen.
  assert (recorded_classes st = Some (len entries)) as Hclasses
      by (unfold recorded_classes; now rewrite Hm, Hlen).
  assert (recorded_outputs st = Some 102) as Houtputs
      by (unfold recorded_outputs; now rewrite Hc).
  split; [exact Hclasses|]. split; [exact Houtputs|]. split.
  - intros (n & Hn1 & Hn2). congruence.
  - intros H102. exists 102. rewrite Hclasses, Houtputs, H102. auto.
Qed.
End Main.

(** ** Which epoch is the best one *)

Lemma py_max_lt x b a :
  (py_max x b < a)%Q <-> (b < a)%Q /\ (x < a)%Q.
Proof.
  unfold py_max. destruct (py_gt b x) eqn:Hgt.
  - apply py_gt_lt in Hgt. split.
    + intros H. split; [exact H|]. eapply Qlt_trans; eauto.
    + tauto.
  - apply py_gt_le in Hgt. split.
    + intros H. split; [|exact H]. eapply Qle_lt_trans; eauto.
    + tauto.
Qed.

(** The flag [accuracy > best_accuracy], where [best_accuracy] is the
    running [max] of the earlier accuracies starting from 0, says that the
    accuracy is positive and exceeds each earlier one. *)
Lemma is_best_exceeds_all (earlier : list Q) (a : Q) :
  py_gt a (fold_left (fun best x => py_max x best) earlier 0%Q) = true
  <-> (0 < a)%Q /\ Forall (fun x => (x < a)%Q) earlier.
Proof.
  rewrite py_gt_lt. generalize 0%Q as b.
  induction earlier as [|x earlier IH]; intros b; simpl.
  - split; [intros H; split; [exact H | constructor] | tauto].
  - rewrite IH, py_max_lt. split.
    + intros [[Hb Hx] Hall]. split; [exact Hb | now constructor].
    + intros [Hb Hall]. inversion Hall; subst. tauto.
Qed.

Lemma dict_get_set_other {V} k k' (v : V) d :
  k <> k' -> dict_get k (dict_set k' v d) = dict_get k d.
Proof.
  intros Hne. induction d as [|[k0 v0] d IH]; simpl.
  - destruct (String.eqb_spec k k'); [contradiction | reflexivity].
  - destruct (String.eqb_spec k' k0) as [->|Hne0]; simpl.
    + destruct (String.eqb_spec k k0); [contradiction | reflexivity].
    + destruct (String.eqb_spec k k0); [reflexivity | exact IH].
Qed.

Section SaveCheckpoint.
Context {T : Torch}.

(** The copy of the best checkpoint reads [filename] in the working
    directory, not the file just written under [model_dir]: when these
    are different files and the working directory has no such file, a
    best epoch ends in an exception and nothing is copied. *)
Lemma save_checkpoint_best_reads_cwd st dir w :
  read_file "checkpoint.pth" w = None ->
  realpath (os_path_join dir "checkpoint.pth") <> realpath "checkpoint.pth" ->
  exists e w',
    save_checkpoint st true dir "checkpoint.pth" w = (inl e, w')
    /\ (files w' = files w
        \/ files w' =
             dict_set (realpath (os_path_join dir "checkpoint.pth")) st
                      (files w)).
Proof.
  intros Hnone Hpath. unfold save_checkpoint. rewrite bind_emit.
  unfold bind, torch_save.
  destruct (dir_exists _ _).
  - unfold shutil_copyfile.
    destruct (realpath "checkpoint.pth"
              =? realpath (os_path_join dir "model_best.pth"))%string.
    + eexists. eexists. split; [reflexivity|]. right. reflexivity.
    + unfold read_file in *. cbn [files write_file add_events].
      rewrite dict_get_set_other by congruence. rewrite Hnone.
      eexists. eexists. split; [reflexivity|]. right. reflexivity.
  - eexists. eexists. split; [reflexivity|]. left. reflexivity.
Qed.
End SaveCheckpoint.

(** ** The script on explicit inputs *)

(** C1.  A run with the default options on a data set of two classes and
    1280 training images (20 batches, so one validation pass in the first
    epoch), started in a directory without files: the first epoch's
    accuracy exceeds the initial best of 0 and [save_checkpoint] is called
    with [is_best] set, the checkpoint is written to
    [models/checkpoint.pth], and then the copy looks for [checkpoint.pth]
    in the working directory and raises [FileNotFoundError]:
    [models/model_best.pth] is not written. *)
Theorem best_copy_misses_model_dir :
  let run := main (T := Example.torch 640) no_options (fresh_world [] []) in
  fst run = inl (FileNotFoundError "checkpoint.pth")
  /\ save_calls (trace (snd run)) = [(true, "models", "checkpoint.pth")]%string
  /\ map fst (files (snd run)) = ["models/checkpoint.pth"]%string.
Proof.
  cbv zeta. split; [|split]; vm_compute; reflexivity.
Qed.

(** C10.  A run with the default options on a data set of two classes
    with four training images each (one batch per epoch): the output
    directory is made, and the first epoch ends in [UnboundLocalError] for
    [accuracy] before [save_checkpoint] is called; no checkpoint file
    exists afterwards. *)
Theorem tiny_dataset_writes_no_checkpoint :
  let run := main (T := Example.torch 4) no_options (fresh_world [] []) in
  fst run = inl (UnboundLocalError "accuracy")
  /\ dirs (snd run) = ["models"]%string
  /\ save_calls (trace (snd run)) = []
  /\ map fst (files (snd run)) = [].
Proof.
  cbv zeta. split; [|split; [|split]]; vm_compute; reflexivity.
Qed.

(** C3 fails as stated: in the run of C1 the checkpoint written to
    [models/checkpoint.pth] records a mapping of two classes next to a
    classifier head of 102 outputs. *)
Lemma two_classes_head_of_102 :
  ~ (forall st,
        dict_get "models/checkpoint.pth"
                 (files (snd (main (T := Example.torch 640) no_options
                                   (fresh_world [] []))))
        = Some st ->
        mapping_matches_head st).
Proof.
  intros Hclaim.
  assert (option_map
            (fun st => (recorded_classes st, recorded_outputs st))
            (dict_get "models/checkpoint.pth"
                      (files (snd (main (T := Example.torch 640) no_options
                                        (fresh_world [] [])))))
          = Some (Some 2, Some 102)) as Hrun
      by (vm_compute; reflexivity).
  destruct (dict_get _ _) as [st|]; [|discriminate].
  destruct (Hclaim st eq_refl) as (n & Hclasses & Houtputs).
  simpl in Hrun. congruence.
Qed.

(** ** The general statements at explicit inputs *)

Lemma best_uses_last_validation_witness :
  2 <> 0
  /\ [Example.batch] <> []
  /\ getattr_module "classifier" (net (model Example.start))
     = ok (spec_head 8 4)
  /\ 1 <= 2 <= len [Example.batch; Example.batch]
  /\ (steps Example.start + 2) mod 2 = 0
  /\ exists r w' evs a st is_best,
      train_epoch (T := Example.torch 4) [Example.batch; Example.batch]
                  [Example.batch] 3 2 Example.criterion "vgg16" "cpu" "models" 0
                  Example.start (fresh_world [] []) = (r, w')
      /\ trace w' =
           trace (fresh_world [] [])
           ++ evs
           ++ [EvSaveCheckpoint st is_best "models" "checkpoint.pth"]
      /\ Forall (fun ev => is_save ev = false) evs
      /\ last_validation evs = Some a
      /\ is_best = py_gt a (best_accuracy Example.start)
      /\ dict_get "best_accuracy" st =
           Some (VFloat (py_max a (best_accuracy Example.start)
                         / inject_Z (len [Example.batch]) * 100)%Q).
Proof.
  split; [lia|]. split; [discriminate|]. split; [reflexivity|].
  split; [unfold len; simpl; lia|]. split; [reflexivity|].
  apply (best_uses_last_validation (T := Example.torch 4)
           [Example.batch; Example.batch] [Example.batch] 3 2 Example.criterion
           "vgg16" "cpu" "models" 0 Example.start (fresh_world [] [])
           (spec_head 8 4) 2).
  - lia.
  - discriminate.
  - reflexivity.
  - unfold len; simpl; lia.
  - reflexivity.
Defined.

Lemma accuracy_unbound_in_short_first_epoch_witness :
  1 <= 3
  /\ len [Example.batch] < 20
  /\ exists w' evs,
      train (T := Example.torch 4) [Example.batch] [Example.batch] 3 20
            Example.criterion "vgg16" "cpu" "models" Example.small_model
            Example.small_optimizer (fresh_world [] [])
      = (inl (UnboundLocalError "accuracy"), w')
      /\ trace w' = trace (fresh_world [] []) ++ evs
      /\ last_validation evs = None
      /\ Forall (fun ev => is_save ev = false) evs
      /\ files w' = files (fresh_world [] []).
Proof.
  split; [lia|]. split; [unfold len; simpl; lia|].
  apply (accuracy_unbound_in_short_first_epoch (T := Example.torch 4)
           [Example.batch] [Example.batch] 3 20 Example.criterion "vgg16" "cpu"
           "models" Example.small_model Example.small_optimizer
           (fresh_world [] [])).
  - lia.
  - unfold len; simpl; lia.
Defined.

Lemma only_head_is_trainable_witness :
  torchvision_models (Torch := Example.torch 4) "vgg16" = Some Example.vgg
  /\ distinct_children Example.vgg
  /\ build_model (T := Example.torch 4) "vgg16" 512 None
     = ok Example.vgg16_512
  /\ (0 <= 1 # 1000)%Q
  /\ (forall path requires_grad,
         In (path, requires_grad)
            (named_parameters (net Example.vgg16_512)) ->
         (requires_grad = true <-> under_classifier path))
  /\ exists optimizer,
      make_optimizer Example.vgg16_512 (1 # 1000) = ok optimizer
      /\ forall path,
          In path (opt_params optimizer) <->
          In (path, true) (named_parameters (net Example.vgg16_512)).
Proof.
  assert (distinct_children Example.vgg) as Hdistinct.
  { unfold distinct_children. simpl.
    repeat constructor; simpl; intuition discriminate. }
  assert (0 <= 1 # 1000)%Q as Hlr by (unfold Qle; simpl; lia).
  split; [reflexivity|]. split; [exact Hdistinct|].
  split; [reflexivity|]. split; [exact Hlr|].
  apply (only_head_is_trainable (T := Example.torch 4) "vgg16" 512 None
           Example.vgg Example.vgg16_512 (1 # 1000)).
  - reflexivity.
  - exact Hdistinct.
  - reflexivity.
  - exact Hlr.
Defined.

Lemma build_model_attaches_head_witness :
  In "densenet121"%string VALID_ARCH_CHOICES
  /\ torchvision_models (Torch := Example.torch 4) "densenet121"
     = Some Example.densenet
  /\ ends_in_classifier Example.densenet Example.densenet_features
                        (Example.linear 1024 1000) 1024
  /\ 0 <= 512
  /\ allocatable (T := Example.torch 4) 1024 512
  /\ allocatable (T := Example.torch 4) 512 102
  /\ exists model,
      build_model (T := Example.torch 4) "densenet121" 512 None = ok model
      /\ children (net model) =
           frozen Example.densenet_features
           ++ [("classifier"%string, spec_head 1024 512)]
      /\ getattr_module "classifier" (net model) = ok (spec_head 1024 512)
      /\ output_dim (spec_head 1024 512) = Some 102.
Proof.
  assert (In "densenet121"%string VALID_ARCH_CHOICES) as Harch
      by (simpl; tauto).
  assert (ends_in_classifier Example.densenet Example.densenet_features
                             (Example.linear 1024 1000) 1024) as Hshape.
  { unfold ends_in_classifier. split; [reflexivity|].
    split; [simpl; intuition discriminate|].
    split; [intros p []|].
    split; [|lia].
    left. exists 1000, [("weight"%string, true); ("bias"%string, true)], [].
    reflexivity. }
  split; [exact Harch|]. split; [reflexivity|]. split; [exact Hshape|].
  split; [lia|]. split; [reflexivity|]. split; [reflexivity|].
  apply (proj1 (build_model_attaches_head (T := Example.torch 4)
                  "densenet121" 512 None Example.densenet
                  Example.densenet_features (Example.linear 1024 1000) 1024
                  Harch eq_refl Hshape)).
  - lia.
  - reflexivity.
  - reflexivity.
Defined.

(** C6 as first stated, for every value of [hidden_units], fails at
    [hidden_units = -1], a value that the argument parser accepts: the
    first linear layer of the head cannot be made, [build_model] raises
    and there is no model whose classifier is the described head. *)
Lemma negative_hidden_units_has_no_head :
  In "vgg16"%string VALID_ARCH_CHOICES
  /\ py_int (Torch := Example.torch 4) "-1" = Some (-1)
  /\ build_model (T := Example.torch 4) "vgg16" (-1) None
     = throw (RuntimeError "Trying to create tensor with negative dimension")
  /\ ~ (exists model,
           build_model (T := Example.torch 4) "vgg16" (-1) None = ok model
           /\ getattr_module "classifier" (net model)
              = ok (spec_head 25088 (-1))).
Proof.
  split; [simpl; tauto|]. split; [reflexivity|].
  assert (build_model (T := Example.torch 4) "vgg16" (-1) None
          = throw (RuntimeError
                     "Trying to create tensor with negative dimension"))
    as Hraises by reflexivity.
  split; [exact Hraises|].
  intros (model & Hbuild & _). rewrite Hraises in Hbuild. discriminate.
Qed.

(** Nor is there a head for a width beyond what torch can allocate. *)
Lemma oversized_hidden_units_has_no_head :
  build_model (T := Example.torch 4) "vgg16" (2 ^ 63) None
  = throw (RuntimeError "Overflow when unpacking long").
Proof. reflexivity. Qed.

Lemma logged_validation_metrics_witness :
  1 <> 0
  /\ [Example.batch] <> []
  /\ (steps Example.start + 1) mod 1 = 0
  /\ exists L' before after training_loss val_loss val_acc,
      train_batch (T := Example.torch 4) [Example.batch] 3 1
                  Example.criterion "cpu"
                  0 Example.batch Example.start (fresh_world [] [])
      = (inr L',
         add_events
           (before ++ EvPrint (0 + 1) 3 training_loss val_loss val_acc
            :: after) (fresh_world [] []))
      /\ Forall (fun ev => is_print ev = false) (before ++ after)
      /\ (val_acc ==
          spec_validation_accuracy
            (validated_model Example.criterion Example.batch Example.start)
            [Example.batch])%Q
      /\ (val_loss ==
          spec_validation_loss
            (validated_model Example.criterion Example.batch Example.start)
            Example.criterion [Example.batch])%Q
      /\ (forall label row,
             correct (label, row) = true <-> is_top1 row label).
Proof.
  split; [lia|]. split; [discriminate|]. split; [reflexivity|].
  apply (logged_validation_metrics (T := Example.torch 4) [Example.batch] 3
           1 Example.criterion "cpu" 0 Example.batch Example.start
           (fresh_world [] [])).
  - lia.
  - discriminate.
  - reflexivity.
Defined.


Lemma checkpoint_head_has_102_outputs_witness :
  parse_args (T := Example.torch 640) no_options = ok Example.default_args
  /\ scan_image_dir (Torch := Example.torch 640)
       (os_path_join (arg_data_dir Example.default_args) "train")
     = Some [("rose"%string, repeat 1 640%nat);
             ("daisy"%string, repeat 0 640%nat)]
  /\ NoDup ["rose"; "daisy"]%string
  /\ exists evs,
      trace (snd (main (T := Example.torch 640) no_options
                       (fresh_world [] [])))
      = trace (fresh_world [] []) ++ evs
      /\ forall st b d f,
          In (EvSaveCheckpoint st b d f) evs ->
          recorded_classes st = Some 2
          /\ recorded_outputs st = Some 102
          /\ (mapping_matches_head st <-> 2 = 102).
Proof.
  assert (NoDup ["rose"; "daisy"]%string) as Hnd
      by (repeat constructor; simpl; intuition discriminate).
  split; [reflexivity|]. split; [reflexivity|]. split; [exact Hnd|].
  apply (checkpoint_head_has_102_outputs (T := Example.torch 640) no_options
           (fresh_world [] []) Example.default_args
           [("rose"%string, repeat 1 640%nat);
            ("daisy"%string, repeat 0 640%nat)]).
  - reflexivity.
  - reflexivity.
  - exact Hnd.
Defined.



(** * Further properties of the code *)

(** ** [check_accuracy_on_test] *)

Lemma count_equal_bounds predicted labels :
  0 <= count_equal predicted labels <= len labels.
Proof.
  unfold count_equal, len. split; [lia|].
  apply inj_le.
  etransitivity; [apply filter_length_le|].
  rewrite length_combine. lia.
Qed.

Section CheckAccuracy.
Context {T : Torch}.

Lemma test_loop m loader :
  forall acc w,
    for_each
      (fun (data : Batch) (acc : Z * Z) =>
         let '(images, labels) := data in
         let '(correct, total) := acc in
         (grad <- is_grad_enabled ;;
          emit (EvValForward (training m) grad) ;;
          let outputs := forward (state_dict m) (training m) images in
          let predicted := map argmax outputs in
          let total := total + len labels in
          let correct := correct + count_equal predicted labels in
          ret (correct, total))%M)
      loader acc w
    = (inr (fold_left
              (fun acc (data : Batch) =>
                 (fst acc
                  + count_equal
                      (map argmax
                           (forward (state_dict m) (training m) (fst data)))
                      (snd data),
                  snd acc + len (snd data)))
              loader acc),
       add_events
         (map (fun _ => EvValForward (training m) (grad_enabled w)) loader)
         w).
Proof.
  induction loader as [|[images labels] loader IH]; intros [c t] w.
  - simpl. unfold ret. now rewrite add_events_nil.
  - cbn [for_each]. cbn beta iota zeta.
    repeat mstep. rewrite IH. repeat mstep. reflexivity.
Qed.

Lemma check_accuracy_run loader m w :
  check_accuracy_on_test loader m w =
    (py_div (inject_Z (100 * fst (test_counts m loader)))
            (snd (test_counts m loader)),
     add_events (map (fun _ => EvValForward (training m) false) loader) w).
Proof.
  unfold check_accuracy_on_test.
  rewrite (bind_ok _ _ _ _ _
             (no_grad_run _ _ _ _ (test_loop m loader (0, 0) _))).
  unfold test_counts. destruct (fold_left _ loader (0, 0)) as [c t].
  reflexivity.
Qed.

Lemma test_counts_from m loader :
  forall acc,
    let r := fold_left
               (fun acc (data : Batch) =>
                  (fst acc
                   + count_equal
                       (map argmax
                            (forward (state_dict m) (training m) (fst data)))
                       (snd data),
                   snd acc + len (snd data)))
               loader acc in
    (0 <= fst acc <= snd acc -> 0 <= fst r <= snd r)
    /\ snd acc <= snd r
    /\ ((forall b, In b loader -> snd b = []) -> r = acc)
    /\ ((exists b, In b loader /\ snd b <> []) -> snd acc < snd r).
Proof.
  induction loader as [|b loader IH]; intros acc; cbn zeta.
  - simpl. repeat split; auto; try lia. intros (b & [] & _).
  - cbn [fold_left].
    pose proof (count_equal_bounds
                  (map argmax (forward (state_dict m) (training m) (fst b)))
                  (snd b)) as Hb.
    assert (0 <= len (snd b)) as Hlen by (unfold len; lia).
    match goal with
    | |- context [fold_left ?f loader ?acc'] =>
        destruct (IH acc') as (Hrange & Hmono & Hnone & Hsome)
    end.
    cbn zeta in *. cbn [fst snd] in *.
    split; [|split; [|split]].
    + intros Hacc. apply Hrange. lia.
    + lia.
    + intros Hall. rewrite Hnone by (intros b' Hb'; apply Hall; now right).
      assert (snd b = []) as Hempty by (apply Hall; now left).
      rewrite Hempty in *. unfold len in *. simpl in *.
      destruct acc as [c t]. simpl. f_equal; lia.
    + intros (b' & [<-|Hin] & Hne).
      * assert (0 < len (snd b)).
        { unfold len. destruct (snd b); [congruence|]. simpl. lia. }
        lia.
      * assert (exists b0, In b0 loader /\ snd b0 <> []) as Hex
            by (now exists b').
        specialize (Hsome Hex). lia.
Qed.

Lemma test_counts_flat m loader :
  forall acc,
    fold_left
      (fun acc (data : Batch) =>
         (fst acc
          + count_equal
              (map argmax
                   (forward (state_dict m) (training m) (fst data)))
              (snd data),
          snd acc + len (snd data)))
      loader acc
    = (fst acc
       + len (filter (fun pl => fst pl =? snd pl) (test_pairs m loader)),
       snd acc + len (labels_of loader)).
Proof.
  unfold test_pairs, labels_of, count_equal, len.
  induction loader as [|b loader IH]; intros [c t].
  - simpl. f_equal; lia.
  - cbn [fold_left flat_map fst snd]. rewrite IH. cbn [fst snd].
    rewrite filter_app, !length_app. f_equal; lia.
Qed.

Lemma proper_batches_labels loader :
  loader <> [] -> proper_batches loader ->
  exists b, In b loader /\ snd b <> [].
Proof.
  destruct loader as [|b loader]; [congruence|]. intros _ Hproper.
  inversion Hproper as [|? ? [Hone Hsame] _]; subst.
  exists b. split; [now left|]. intros Hempty.
  rewrite Hempty in Hsame. unfold len in *. simpl in Hsame. lia.
Qed.

(** X1.  On a non-empty test loader [check_accuracy_on_test] returns 100
    times the number of test samples whose top-1 prediction equals the
    label, divided by the number of all test samples: a value between 0
    and 100, in which every sample weighs the same whatever the size of
    its batch. *)
Theorem check_accuracy_is_a_percentage :
  forall loader m w,
    loader <> [] ->
    proper_batches loader ->
    exists r,
      fst (check_accuracy_on_test loader m w) = inr r
      /\ r = (inject_Z
                (100 * len (filter (fun pl => fst pl =? snd pl)
                                   (test_pairs m loader)))
              / inject_Z (len (labels_of loader)))%Q
      /\ (0 <= r <= 100)%Q.
Proof.
  intros loader m w Hne Hproper.
  pose proof (proper_batches_labels loader Hne Hproper) as Hlabel.
  destruct (test_counts_from m loader (0, 0)) as (Hrange & _ & _ & Hsome).
  cbn zeta in *. cbn [fst snd] in *.
  fold (test_counts m loader) in *.
  specialize (Hrange ltac:(lia)). specialize (Hsome Hlabel).
  assert (test_counts m loader
          = (len (filter (fun pl => fst pl =? snd pl) (test_pairs m loader)),
             len (labels_of loader))) as Hflat
      by (unfold test_counts; now rewrite test_counts_flat).
  rewrite check_accuracy_run. cbn [fst].
  rewrite py_div_ok by lia.
  eexists. split; [reflexivity|]. rewrite Hflat in *. cbn [fst snd] in *.
  split; [reflexivity|].
  assert (0 < inject_Z (len (labels_of loader)))%Q as Hpos
      by (change 0%Q with (inject_Z 0); rewrite <- Zlt_Qlt; lia).
  split.
  - apply Qle_shift_div_l; [exact Hpos|].
    rewrite Qmult_0_l. change 0%Q with (inject_Z 0).
    rewrite <- Zle_Qle. lia.
  - apply Qle_shift_div_r; [exact Hpos|].
    change 100%Q with (inject_Z 100). rewrite <- inject_Z_mult.
    rewrite <- Zle_Qle. lia.
Qed.

(** X2.  On an empty test loader [check_accuracy_on_test] raises
    [ZeroDivisionError] at its last line, whatever the model, and leaves
    the world as it found it. *)
Theorem check_accuracy_of_nothing_raises :
  forall m w,
    check_accuracy_on_test [] m w = (inl ZeroDivisionError, w).
Proof.
  intros m w. rewrite check_accuracy_run. cbn [map].
  now rewrite add_events_nil.
Qed.

(** X3.  [check_accuracy_on_test] runs one forward pass per batch, with
    gradient tracking off and in the mode the model is already in (it does
    not switch to evaluation mode); afterwards the autograd switch,
    the directories and the files are what they were. *)
Theorem check_accuracy_keeps_the_mode :
  forall loader m w,
    snd (check_accuracy_on_test loader m w)
    = add_events (map (fun _ => EvValForward (training m) false) loader) w.
Proof.
  intros loader m w. now rewrite check_accuracy_run.
Qed.
End CheckAccuracy.

(** ** [validation] once more *)

Section ValidationRange.
Context {T : Torch}.

Lemma fraction_correct_range m batch :
  (0 <= fraction_correct m batch <= 1)%Q.
Proof.
  unfold fraction_correct. cbv zeta.
  set (samples := combine (snd batch) (probabilities m (fst batch))).
  assert (0 <= len (filter correct samples) <= len samples) as Hcount
      by (unfold len; split; [lia | apply inj_le, filter_length_le]).
  destruct (Z.eq_dec (len samples) 0) as [Hzero|Hpos].
  - rewrite Hzero. assert (len (filter correct samples) = 0) as -> by lia.
    split; discriminate.
  - assert (0 < inject_Z (len samples))%Q as Hq
        by (change 0%Q with (inject_Z 0); rewrite <- Zlt_Qlt; lia).
    split.
    + apply Qle_shift_div_l; [exact Hq|]. rewrite Qmult_0_l.
      change 0%Q with (inject_Z 0). rewrite <- Zle_Qle. lia.
    + apply Qle_shift_div_r; [exact Hq|]. rewrite Qmult_1_l.
      rewrite <- Zle_Qle. lia.
Qed.

Lemma total_fraction_range m loader :
  (0 <= total (map (fraction_correct m) loader) <= inject_Z (len loader))%Q.
Proof.
  unfold len. induction loader as [|b loader IH]; simpl.
  - split; apply Qle_refl.
  - destruct (fraction_correct_range m b) as [H0 H1].
    destruct IH as [IH0 IH1].
    rewrite Zpos_P_of_succ_nat, <- Z.add_1_l, inject_Z_plus.
    split.
    + change 0%Q with (0 + 0)%Q. now apply Qplus_le_compat.
    + now apply Qplus_le_compat.
Qed.

(** X4.  On batches as a [DataLoader] yields them, [validation] returns
    and touches nothing but the trace; the accuracy it returns lies
    between 0 and the number of batches, so that the percentage [train]
    prints from it lies between 0 and 100. *)
Theorem validation_accuracy_range :
  forall m loader criterion device w,
    proper_batches loader ->
    exists test_loss accuracy,
      validation m loader criterion device w
      = (inr (test_loss, accuracy),
         add_events (validation_events m criterion loader (grad_enabled w)) w)
      /\ (0 <= accuracy <= inject_Z (len loader))%Q
      /\ (loader <> [] ->
          0 <= accuracy / inject_Z (len loader) * 100 <= 100)%Q.
Proof.
  intros m loader criterion device w _.
  rewrite validation_run.
  destruct (validation_sums_totals m criterion loader) as [_ Hacc].
  destruct (validation_sums m criterion loader) as [test_loss accuracy].
  cbn [fst snd] in Hacc.
  pose proof (total_fraction_range m loader) as [H0 H1].
  rewrite <- Hacc in H0, H1.
  exists test_loss, accuracy. split; [reflexivity|].
  split; [split; assumption|].
  intros Hne.
  assert (0 < inject_Z (len loader))%Q as Hq.
  { change 0%Q with (inject_Z 0). rewrite <- Zlt_Qlt.
    unfold len. destruct loader; [congruence|]. simpl. lia. }
  split.
  - apply Qmult_le_0_compat; [|discriminate].
    apply Qle_shift_div_l; [exact Hq|]. now rewrite Qmult_0_l.
  - setoid_replace 100%Q with (1 * 100)%Q at 2 by ring.
    apply Qmult_le_compat_r; [|discriminate].
    apply Qle_shift_div_r; [exact Hq|]. now rewrite Qmult_1_l.
Qed.
End ValidationRange.

(** ** What [save_checkpoint] and [train] touch *)

Section Footprint.
Context {T : Torch}.

Lemma same_outside_refl paths w : same_outside paths w w.
Proof. unfold same_outside. auto. Qed.

Lemma same_outside_trans paths w1 w2 w3 :
  same_outside paths w1 w2 -> same_outside paths w2 w3 ->
  same_outside paths w1 w3.
Proof.
  intros (D1 & G1 & F1) (D2 & G2 & F2). unfold same_outside.
  split; [congruence|]. split; [congruence|].
  intros p Hp. rewrite F2, F1; auto.
Qed.

Lemma same_outside_more paths paths' w w' :
  incl paths paths' -> same_outside paths w w' -> same_outside paths' w w'.
Proof.
  intros Hincl (D & G & F). unfold same_outside.
  split; [exact D|]. split; [exact G|].
  intros p Hp. apply F. intros Hin. apply Hp.
  apply in_map_iff in Hin. destruct Hin as [q [<- Hq]].
  apply in_map. now apply Hincl.
Qed.

Lemma same_outside_add_events paths evs w :
  same_outside paths w (add_events evs w).
Proof. unfold same_outside. simpl. auto. Qed.

Lemma torch_save_footprint st path w :
  same_outside [path] w (snd (torch_save st path w)).
Proof.
  unfold torch_save. destruct (dir_exists _ w); cbn [snd].
  - unfold same_outside. cbn [dirs grad_enabled files write_file].
    split; [reflexivity|]. split; [reflexivity|]. intros p Hp.
    apply dict_get_set_other. intros ->. apply Hp. now left.
  - apply same_outside_refl.
Qed.

Lemma shutil_copyfile_footprint src dst w :
  same_outside [dst] w (snd (shutil_copyfile src dst w)).
Proof.
  unfold shutil_copyfile.
  destruct (realpath src =? realpath dst)%string;
    [apply same_outside_refl|].
  destruct (read_file src w); [|apply same_outside_refl].
  destruct (dir_exists _ w); cbn [snd]; [|apply same_outside_refl].
  unfold same_outside. cbn [dirs grad_enabled files write_file].
  split; [reflexivity|]. split; [reflexivity|]. intros p Hp.
  apply dict_get_set_other. intros ->. apply Hp. now left.
Qed.

(** A call without the flag touches the checkpoint file only. *)
Lemma save_checkpoint_plain_footprint st dir filename w :
  same_outside [os_path_join dir filename] w
               (snd (save_checkpoint st false dir filename w)).
Proof.
  unfold save_checkpoint. rewrite bind_emit. unfold bind.
  pose proof (torch_save_footprint st (os_path_join dir filename)
                (add_events [EvSaveCheckpoint st false dir filename] w))
    as Hsave.
  destruct (torch_save _ _ _) as [[err|[]] w1]; cbn [snd] in *;
    (eapply same_outside_trans; [apply same_outside_add_events|]);
    exact Hsave.
Qed.

Lemma save_checkpoint_footprint st is_best dir filename w :
  same_outside [os_path_join dir filename;
                os_path_join dir "model_best.pth"] w
               (snd (save_checkpoint st is_best dir filename w)).
Proof.
  destruct is_best.
  - unfold save_checkpoint. rewrite bind_emit. unfold bind.
    pose proof (torch_save_footprint st (os_path_join dir filename)
                  (add_events [EvSaveCheckpoint st true dir filename] w))
      as Hsave.
    destruct (torch_save _ _ _) as [[err|[]] w1]; cbn [snd] in *.
    + eapply same_outside_trans; [apply same_outside_add_events|].
      eapply same_outside_more; [|exact Hsave].
      intros p [<-|[]]. now left.
    + eapply same_outside_trans; [apply same_outside_add_events|].
      eapply same_outside_trans.
      * eapply same_outside_more; [|exact Hsave].
        intros p [<-|[]]. now left.
      * eapply same_outside_more; [|apply shutil_copyfile_footprint].
        intros p [<-|[]]. right. now left.
  - eapply same_outside_more;
      [|apply save_checkpoint_plain_footprint].
    intros p [<-|[]]. now left.
Qed.
End Footprint.

(** ** Runs of [train] that return *)

Section TrainRuns.
Context {T : Torch}.
Variables (trainloader validloader : DataLoader).
Variables (epochs print_every : Z).
Variable criterion : list Row -> list Z -> Q.
Variables (arch device model_dir : string).

Let step := train_batch validloader epochs print_every criterion device.
Let epoch :=
  train_epoch trainloader validloader epochs print_every criterion arch
              device model_dir.

Lemma save_calls_app e1 e2 :
  save_calls (e1 ++ e2) = save_calls e1 ++ save_calls e2.
Proof. unfold save_calls. apply flat_map_app. Qed.

Lemma save_calls_no_save evs :
  Forall (fun ev => is_save ev = false) evs -> save_calls evs = [].
Proof.
  induction 1 as [|ev evs Hev _ IH]; [reflexivity|].
  simpl. rewrite IH. destruct ev; try reflexivity. discriminate.
Qed.

Lemma count_steps_app e1 e2 :
  count_steps (e1 ++ e2) = count_steps e1 + count_steps e2.
Proof.
  unfold count_steps, len. rewrite optimizer_steps_app, length_app. lia.
Qed.

Lemma count_saves_app e1 e2 :
  count_saves (e1 ++ e2) = count_saves e1 + count_saves e2.
Proof.
  unfold count_saves, len. rewrite save_calls_app, length_app. lia.
Qed.

(** The epoch end with [accuracy] bound, a classifier and a non-empty
    validation loader is the call of [save_checkpoint] followed by the
    update of [best_accuracy]. *)
Lemma epoch_end_bound L w a c :
  accuracy L = Some a ->
  getattr_module "classifier" (net (model L)) = ok c ->
  validloader <> [] ->
  epoch_end validloader epochs arch model_dir L w =
    bind (save_checkpoint
            (checkpoint_fields epochs arch c (model L) (optimizer L)
               (py_max a (best_accuracy L)
                / inject_Z (len validloader) * 100)%Q)
            (py_gt a (best_accuracy L)) model_dir "checkpoint.pth")
         (fun _ =>
            ret {| steps := steps L; running_loss := running_loss L;
                   accuracy := Some a;
                   best_accuracy := py_max a (best_accuracy L);
                   model := model L; optimizer := optimizer L |}) w.
Proof.
  intros Hacc Hget Hval. unfold epoch_end.
  rewrite Hacc, Hget. cbn [read_local]. unfold ok.
  repeat mstep. rewrite (py_div_ok _ _ (len_nonzero _ Hval)).
  repeat mstep. reflexivity.
Qed.

(** Otherwise it raises before calling anything. *)
Lemma epoch_end_shape L w :
  (exists e, epoch_end validloader epochs arch model_dir L w = (inl e, w))
  \/ (exists a c,
         accuracy L = Some a
         /\ getattr_module "classifier" (net (model L)) = ok c
         /\ validloader <> []).
Proof.
  clear step epoch.
  destruct (accuracy L) as [a|] eqn:Hacc.
  2:{ left. eexists. unfold epoch_end. rewrite Hacc. cbn [read_local].
      unfold throw. now rewrite bind_lift_raise. }
  destruct (getattr_module "classifier" (net (model L))) as [e|c] eqn:Hget.
  { left. eexists. unfold epoch_end. rewrite Hacc, Hget.
    cbn [read_local]. unfold ok. repeat mstep. reflexivity. }
  assert (validloader = [] \/ validloader <> []) as [Hval|Hval]
      by (destruct validloader; [now left | now right]).
  { left. eexists. unfold epoch_end. rewrite Hacc, Hget.
    cbn [read_local]. unfold ok. repeat mstep. rewrite Hval.
    unfold py_div. cbn [len length Z.of_nat Z.eqb]. unfold throw.
    now rewrite bind_lift_raise. }
  right. exists a, c. auto.
Qed.

Lemma epoch_end_returns L w L' w' :
  epoch_end validloader epochs arch model_dir L w = (inr L', w') ->
  exists a c,
    accuracy L = Some a
    /\ getattr_module "classifier" (net (model L)) = ok c
    /\ validloader <> []
    /\ L' = {| steps := steps L; running_loss := running_loss L;
               accuracy := Some a;
               best_accuracy := py_max a (best_accuracy L);
               model := model L; optimizer := optimizer L |}
    /\ save_checkpoint
         (checkpoint_fields epochs arch c (model L) (optimizer L)
            (py_max a (best_accuracy L)
             / inject_Z (len validloader) * 100)%Q)
         (py_gt a (best_accuracy L)) model_dir "checkpoint.pth" w
       = (inr tt, w').
Proof.
  intros Hrun.
  destruct (epoch_end_shape L w) as [[e He]|(a & c & Hacc & Hget & Hval)].
  - rewrite He in Hrun. discriminate.
  - exists a, c. rewrite (epoch_end_bound L w a c Hacc Hget Hval) in Hrun.
    unfold bind in Hrun.
    destruct (save_checkpoint _ _ _ _ w) as [[err|[]] w1];
      [discriminate|].
    injection Hrun as <- <-. auto.
Qed.

Lemma epoch_end_footprint L w :
  same_outside [os_path_join model_dir "checkpoint.pth";
                os_path_join model_dir "model_best.pth"] w
               (snd (epoch_end validloader epochs arch model_dir L w)).
Proof.
  destruct (epoch_end_shape L w) as [[e He]|(a & c & Hacc & Hget & Hval)].
  - rewrite He. apply same_outside_refl.
  - rewrite (epoch_end_bound L w a c Hacc Hget Hval). unfold bind.
    match goal with
    | |- context [save_checkpoint ?st ?b ?d ?f w] =>
        pose proof (save_checkpoint_footprint st b d f w) as Hfoot;
        destruct (save_checkpoint st b d f w) as [[err|[]] w1]
    end; exact Hfoot.
Qed.

Lemma batch_loop_steps e bs :
  forall L w L' w',
    for_each (step e) bs L w = (inr L', w') ->
    steps L' = steps L + len bs.
Proof.
  induction bs as [|b bs IH]; intros L w L' w' Hrun.
  - simpl in Hrun. injection Hrun as <- _. unfold len. simpl. lia.
  - rewrite for_each_cons in Hrun.
    destruct (train_batch_any validloader epochs print_every criterion
                              device e b L w)
      as (r1 & evs1 & Hrun1 & _ & _ & _ & Hok1).
    fold step in Hrun1. destruct r1 as [err|L1].
    + rewrite (bind_raise _ _ _ _ _ Hrun1) in Hrun. discriminate.
    + rewrite (bind_ok _ _ _ _ _ Hrun1) in Hrun.
      destruct (Hok1 L1 eq_refl) as [Hs1 _].
      rewrite (IH _ _ _ _ Hrun), Hs1. unfold len. simpl length. lia.
Qed.

(** An epoch that returns has taken one optimizer step per batch and has
    then called [save_checkpoint] once. *)
Lemma train_epoch_returns e L w L' w' :
  epoch e L w = (inr L', w') ->
  exists evs st b a,
    trace w' =
      trace w ++ evs
      ++ [EvSaveCheckpoint st b model_dir "checkpoint.pth"]
    /\ Forall (fun ev => is_save ev = false) evs
    /\ count_steps evs = len trainloader
    /\ steps L' = steps L + len trainloader
    /\ net (model L') = net (model L)
    /\ accuracy L' = Some a
    /\ best_accuracy L' = py_max a (best_accuracy L).
Proof.
  unfold epoch, train_epoch.
  set (L0 := {| steps := steps L; running_loss := 0;
                accuracy := accuracy L; best_accuracy := best_accuracy L;
                model := model L; optimizer := optimizer L |}).
  intros Hrun.
  destruct (batch_loop_any validloader epochs print_every criterion device
                           e trainloader L0 w)
    as (r1 & evs1 & Hrun1 & _ & Hsave1 & _ & Hok1).
  fold step in Hrun1. destruct r1 as [err|L1].
  { rewrite (bind_raise _ _ _ _ _ Hrun1) in Hrun. discriminate. }
  rewrite (bind_ok _ _ _ _ _ Hrun1) in Hrun.
  destruct (Hok1 L1 eq_refl) as (Hsteps1 & Hbest1 & Hnet1 & _).
  pose proof (batch_loop_steps e trainloader _ _ _ _ Hrun1) as Hlen1.
  cbn [L0 steps best_accuracy model] in Hsteps1, Hbest1, Hnet1, Hlen1.
  destruct (epoch_end_returns _ _ _ _ Hrun)
    as (a & c & Hacc & Hget & Hval & -> & Hsaved).
  pose proof (save_checkpoint_trace
                (checkpoint_fields epochs arch c (model L1) (optimizer L1)
                   (py_max a (best_accuracy L1)
                    / inject_Z (len validloader) * 100)%Q)
                (py_gt a (best_accuracy L1)) model_dir "checkpoint.pth"
                (add_events evs1 w)) as Htrace.
  rewrite Hsaved in Htrace. cbn [snd] in Htrace.
  exists evs1. do 2 eexists. exists a.
  split; [rewrite Htrace; simpl; now rewrite <- app_assoc|].
  split; [exact Hsave1|].
  split; [unfold count_steps; lia|].
  cbn [steps model accuracy best_accuracy].
  rewrite Hbest1. auto.
Qed.

Lemma epochs_loop_returns es :
  forall L w L' w',
    for_each epoch es L w = (inr L', w') ->
    exists evs,
      trace w' = trace w ++ evs
      /\ count_steps evs = len es * len trainloader
      /\ count_saves evs = len es.
Proof.
  induction es as [|e es IH]; intros L w L' w' Hrun.
  - simpl in Hrun. injection Hrun as _ <-. exists [].
    rewrite app_nil_r. auto.
  - rewrite for_each_cons in Hrun. unfold bind in Hrun.
    destruct (epoch e L w) as [[err|L1] w1] eqn:Hrun1; [discriminate|].
    destruct (train_epoch_returns _ _ _ _ _ Hrun1)
      as (evs1 & st & b & a & Htrace1 & Hsave1 & Hcount1 & _).
    destruct (IH _ _ _ _ Hrun) as (evs2 & Htrace2 & Hcount2 & Hsaves2).
    eexists. split; [rewrite Htrace2, Htrace1, <- !app_assoc; reflexivity|].
    rewrite !count_steps_app, !count_saves_app, Hcount1, Hcount2, Hsaves2.
    assert (count_saves evs1 = 0) as ->
        by (unfold count_saves; now rewrite (save_calls_no_save _ Hsave1)).
    change (count_steps [EvSaveCheckpoint st b model_dir "checkpoint.pth"])
      with 0.
    change (count_saves [EvSaveCheckpoint st b model_dir "checkpoint.pth"])
      with 1.
    unfold len. simpl length. split; lia.
Qed.

(** X5.  A run of [train] that returns has taken, over all epochs,
    [epochs] times the number of training batches optimizer steps and has
    called [save_checkpoint] once per epoch (a non-positive [epochs]
    counting as none). *)
Theorem train_counts_when_it_returns :
  forall m0 opt0 w,
    fst (train trainloader validloader epochs print_every criterion arch
               device model_dir m0 opt0 w) = inr tt ->
    exists evs,
      trace (snd (train trainloader validloader epochs print_every criterion
                        arch device model_dir m0 opt0 w))
      = trace w ++ evs
      /\ count_steps evs = Z.max 0 epochs * len trainloader
      /\ count_saves evs = Z.max 0 epochs.
Proof.
  intros m0 opt0 w. unfold train. rewrite bind_emit. unfold bind.
  fold epoch.
  destruct (for_each epoch (range epochs) _ _) as [[err|L'] w'] eqn:Hrun;
    [discriminate|].
  intros _. cbn [snd ret].
  destruct (epochs_loop_returns _ _ _ _ _ Hrun)
    as (evs & Htrace & Hcount & Hsaves).
  assert (len (range epochs) = Z.max 0 epochs) as Hlen.
  { unfold len, range. rewrite length_map, length_seq. lia. }
  rewrite Hlen in *.
  exists (EvModelTrain :: evs).
  split; [rewrite Htrace; simpl; now rewrite <- app_assoc|].
  split; assumption.
Qed.
End TrainRuns.


(** ** Every run of [train] *)

Lemma py_max_ge_second a b : (b <= py_max a b)%Q.
Proof.
  unfold py_max. destruct (py_gt b a) eqn:Hgt; [apply Qle_refl|].
  now apply py_gt_le in Hgt.
Qed.

Lemma py_max_ge_first a b : (a <= py_max a b)%Q.
Proof.
  unfold py_max. destruct (py_gt b a) eqn:Hgt; [|apply Qle_refl].
  apply py_gt_lt in Hgt. now apply Qlt_le_weak.
Qed.

Lemma py_max_is_one a b : py_max a b = a \/ py_max a b = b.
Proof. unfold py_max. destruct (py_gt b a); auto. Qed.

Section TrainAlways.
Context {T : Torch}.
Variables (trainloader validloader : DataLoader).
Variables (epochs print_every : Z).
Variable criterion : list Row -> list Z -> Q.
Variables (arch device model_dir : string).

Let step := train_batch validloader epochs print_every criterion device.
Let epoch :=
  train_epoch trainloader validloader epochs print_every criterion arch
              device model_dir.
Let touched :=
  [os_path_join model_dir "checkpoint.pth";
   os_path_join model_dir "model_best.pth"].

Lemma not_save_epoch_checkpoint evs :
  Forall (fun ev => is_save ev = false) evs ->
  Forall (epoch_checkpoint epochs arch model_dir) evs.
Proof.
  apply Forall_impl. intros [] H; simpl; auto. discriminate.
Qed.

Lemma epoch_end_always L w :
  exists evs,
    trace (snd (epoch_end validloader epochs arch model_dir L w))
    = trace w ++ evs
    /\ Forall (epoch_checkpoint epochs arch model_dir) evs.
Proof.
  destruct (epoch_end_shape validloader epochs arch model_dir L w)
    as [[e He]|(a & c & Hacc & Hget & Hval)].
  - rewrite He. exists []. rewrite app_nil_r. auto.
  - destruct (epoch_end_run validloader epochs arch model_dir L w a c
                            Hacc Hget Hval)
      as (r & w' & Hrun & Htrace & _).
    rewrite Hrun. eexists. split; [exact Htrace|].
    constructor; [|constructor]. simpl. auto.
Qed.

Lemma train_epoch_always e L w :
  exists evs,
    trace (snd (epoch e L w)) = trace w ++ evs
    /\ Forall (epoch_checkpoint epochs arch model_dir) evs
    /\ same_outside touched w (snd (epoch e L w)).
Proof.
  unfold epoch, train_epoch.
  match goal with
  | |- context [bind (for_each _ trainloader ?L0) _ w] =>
      destruct (batch_loop_any validloader epochs print_every criterion
                               device e trainloader L0 w)
        as (r1 & evs1 & Hrun1 & _ & Hsave1 & _)
  end.
  destruct r1 as [err|L1].
  - rewrite (bind_raise _ _ _ _ _ Hrun1). exists evs1.
    split; [reflexivity|].
    split; [now apply not_save_epoch_checkpoint|].
    apply same_outside_add_events.
  - rewrite (bind_ok _ _ _ _ _ Hrun1).
    destruct (epoch_end_always L1 (add_events evs1 w))
      as (evs2 & Htrace2 & Hshape2).
    exists (evs1 ++ evs2).
    split; [rewrite Htrace2; simpl; now rewrite app_assoc|].
    split.
    + apply Forall_app. split; [now apply not_save_epoch_checkpoint|].
      exact Hshape2.
    + eapply same_outside_trans; [apply same_outside_add_events|].
      apply epoch_end_footprint.
Qed.

Lemma epochs_loop_always es :
  forall L w,
  exists evs,
    trace (snd (for_each epoch es L w)) = trace w ++ evs
    /\ Forall (epoch_checkpoint epochs arch model_dir) evs
    /\ same_outside touched w (snd (for_each epoch es L w)).
Proof.
  induction es as [|e es IH]; intros L w.
  - exists []. simpl. rewrite app_nil_r.
    split; [reflexivity|]. split; [constructor|]. apply same_outside_refl.
  - destruct (train_epoch_always e L w) as (evs1 & Htrace1 & Hshape1 & Hout1).
    rewrite for_each_cons. unfold bind.
    destruct (epoch e L w) as [[err|L1] w1]; cbn [snd] in *.
    + exists evs1. auto.
    + destruct (IH L1 w1) as (evs2 & Htrace2 & Hshape2 & Hout2).
      exists (evs1 ++ evs2).
      split; [rewrite Htrace2, Htrace1; now rewrite app_assoc|].
      split; [apply Forall_app; auto|].
      eapply same_outside_trans; eauto.
Qed.

Lemma train_always m0 opt0 w :
  exists evs,
    trace (snd (train trainloader validloader epochs print_every criterion
                      arch device model_dir m0 opt0 w))
    = trace w ++ evs
    /\ Forall (epoch_checkpoint epochs arch model_dir) evs
    /\ same_outside touched w
         (snd (train trainloader validloader epochs print_every criterion
                     arch device model_dir m0 opt0 w)).
Proof.
  unfold train. rewrite bind_emit. unfold bind. fold epoch.
  match goal with
  | |- context [for_each epoch (range epochs) ?L0 ?w0] =>
      destruct (epochs_loop_always (range epochs) L0 w0)
        as (evs & Htrace & Hshape & Hout);
      destruct (for_each epoch (range epochs) L0 w0) as [[err|L'] w']
  end; unfold ret; cbn [snd] in *.
  - exists (EvModelTrain :: evs).
    split; [rewrite Htrace; simpl; now rewrite <- app_assoc|].
    split; [constructor; [exact I | exact Hshape]|].
    eapply same_outside_trans; [apply same_outside_add_events | exact Hout].
  - exists (EvModelTrain :: evs).
    split; [rewrite Htrace; simpl; now rewrite <- app_assoc|].
    split; [constructor; [exact I | exact Hshape]|].
    eapply same_outside_trans; [apply same_outside_add_events | exact Hout].
Qed.

(** X6.  Whatever happens in a run of [train], it leaves the directories
    and the autograd switch as they were, and no file changes other than
    [checkpoint.pth] and [model_best.pth] under [model_dir]. *)
Theorem train_touches_two_files_only :
  forall m0 opt0 w,
    same_outside [os_path_join model_dir "checkpoint.pth";
                  os_path_join model_dir "model_best.pth"] w
      (snd (train trainloader validloader epochs print_every criterion arch
                  device model_dir m0 opt0 w)).
Proof.
  intros m0 opt0 w.
  destruct (train_always m0 opt0 w) as (_ & _ & _ & Hout). exact Hout.
Qed.

(** X7.  Every checkpoint that [train] hands to [save_checkpoint] goes to
    [checkpoint.pth] under [model_dir] and holds exactly the seven fields
    [epoch], [classifier], [state_dict], [optimizer], [class_idx_mapping],
    [arch], [best_accuracy]; its [epoch] field is the total number of
    epochs asked for, whichever epoch wrote it, and its [arch] field is
    the architecture name passed in. *)
Theorem train_checkpoints_have_seven_fields :
  forall m0 opt0 w,
  exists evs,
    trace (snd (train trainloader validloader epochs print_every criterion
                      arch device model_dir m0 opt0 w))
    = trace w ++ evs
    /\ forall st b d f,
        In (EvSaveCheckpoint st b d f) evs ->
        d = model_dir
        /\ f = "checkpoint.pth"%string
        /\ dict_keys st =
             ["epoch"; "classifier"; "state_dict"; "optimizer";
              "class_idx_mapping"; "arch"; "best_accuracy"]%string
        /\ dict_get "epoch" st = Some (VInt epochs)
        /\ dict_get "arch" st = Some (VStr arch).
Proof.
  intros m0 opt0 w.
  destruct (train_always m0 opt0 w) as (evs & Htrace & Hshape & _).
  exists evs. split; [exact Htrace|].
  intros st b d f Hin. rewrite Forall_forall in Hshape.
  exact (Hshape _ Hin).
Qed.
End TrainAlways.

(** ** Edge cases of [train] *)

Section TrainEdges.
Context {T : Torch}.
Variables (trainloader validloader : DataLoader).
Variables (epochs print_every : Z).
Variable criterion : list Row -> list Z -> Q.
Variables (arch device model_dir : string).

(** X8.  With [epochs] zero or negative [train] only puts the model in
    training mode and returns: no batch is looked at, nothing is saved. *)
Theorem train_without_epochs :
  forall m0 opt0 w,
    epochs <= 0 ->
    train trainloader validloader epochs print_every criterion arch device
          model_dir m0 opt0 w
    = (inr tt, add_events [EvModelTrain] w).
Proof.
  intros m0 opt0 w Hepochs. unfold train. rewrite bind_emit.
  assert (range epochs = []) as ->.
  { unfold range. destruct (Z.to_nat epochs) eqn:E; [reflexivity|lia]. }
  reflexivity.
Qed.

(** X9.  With [print_every] zero, at least one epoch and at least one
    training batch, [train] raises [ZeroDivisionError] at the modulus
    right after the first optimizer step: the weights have been updated
    once, nothing has been validated or saved. *)
Theorem train_with_zero_print_every :
  forall b bs m0 opt0 w,
    trainloader = b :: bs ->
    1 <= epochs ->
    print_every = 0 ->
    train trainloader validloader epochs print_every criterion arch device
          model_dir m0 opt0 w
    = (inl ZeroDivisionError,
       add_events [EvModelTrain; EvTrainForward true;
                   EvOptimizerStep 1 true] w).
Proof.
  intros b bs m0 opt0 w Hloader Hepochs Hzero.
  unfold train. rewrite bind_emit.
  assert (exists n, range epochs = 0 :: map Z.of_nat (seq 1 n)) as [n ->].
  { unfold range. destruct (Z.to_nat epochs) as [|n] eqn:En; [lia|].
    exists n. reflexivity. }
  cbn [for_each]. rewrite bind_bind.
  unfold train_epoch at 1. rewrite bind_bind, Hloader.
  cbn [for_each]. rewrite bind_bind.
  unfold train_batch at 1. destruct b as [images labels].
  cbn [steps model set_training training].
  destruct (backward_step _ _ _ _ _ _ _) as [o wt].
  unfold py_mod. rewrite Hzero. cbn [Z.eqb throw].
  repeat mstep. reflexivity.
Qed.

(** X10.  An epoch either raises or returns with [accuracy] bound and
    [best_accuracy] equal to the larger of that accuracy and the previous
    best: the best never decreases, is never below the accuracy just
    compared, and is always one of the two. *)
Theorem best_accuracy_is_a_running_max :
  forall e L w,
    (exists err,
        fst (train_epoch trainloader validloader epochs print_every
                         criterion arch device model_dir e L w) = inl err)
    \/ (exists L' a,
           fst (train_epoch trainloader validloader epochs print_every
                            criterion arch device model_dir e L w) = inr L'
           /\ accuracy L' = Some a
           /\ best_accuracy L' = py_max a (best_accuracy L)
           /\ (a <= best_accuracy L')%Q
           /\ (best_accuracy L <= best_accuracy L')%Q
           /\ (best_accuracy L' = a
               \/ best_accuracy L' = best_accuracy L)).
Proof.
  intros e L w.
  destruct (train_epoch trainloader validloader epochs print_every criterion
                        arch device model_dir e L w) as [[err|L'] w'] eqn:Hrun.
  - left. now exists err.
  - right.
    destruct (train_epoch_returns _ _ _ _ _ _ _ _ _ _ _ _ _ Hrun)
      as (evs & st & b & a & _ & _ & _ & _ & _ & Hacc & Hbest).
    exists L', a. split; [reflexivity|]. split; [exact Hacc|].
    split; [exact Hbest|]. rewrite Hbest.
    split; [apply py_max_ge_first|].
    split; [apply py_max_ge_second|]. apply py_max_is_one.
Qed.

End TrainEdges.

(** ** [save_checkpoint] *)

Section SaveCheckpointMore.
Context {T : Torch}.

(** X12.  When a call of [save_checkpoint] with the best flag returns,
    [model_best.pth] under [model_dir] holds a copy of the file that the
    bare [filename] names.  That is the checkpoint just saved exactly when
    [filename] under [model_dir] and the bare [filename] name the same
    file (a [model_dir] that is the working directory, an absolute
    [filename]); otherwise it is the file that [filename] named before
    the call. *)
Theorem best_copy_comes_from_the_working_directory :
  forall st dir filename w,
    fst (save_checkpoint st true dir filename w) = inr tt ->
    exists c,
      read_file (os_path_join dir "model_best.pth")
                (snd (save_checkpoint st true dir filename w))
      = Some c
      /\ ((realpath (os_path_join dir filename) = realpath filename
           /\ c = st)
          \/ (realpath (os_path_join dir filename) <> realpath filename
              /\ read_file filename w = Some c)).
Proof.
  intros st dir filename w. unfold save_checkpoint.
  rewrite bind_emit. unfold bind, torch_save.
  destruct (dir_exists _ _); [|discriminate].
  unfold shutil_copyfile.
  destruct (realpath filename
            =? realpath (os_path_join dir "model_best.pth"))%string;
    [discriminate|].
  unfold read_file. cbn [files write_file add_events].
  destruct (dict_get (realpath filename) _) as [c|] eqn:Hsrc;
    [|discriminate].
  destruct (dir_exists _ _); [|discriminate].
  intros _. cbn [snd files write_file]. exists c.
  split; [apply dict_get_set_same|].
  destruct (string_dec (realpath (os_path_join dir filename))
                       (realpath filename)) as [Heq|Hne].
  - left. split; [exact Heq|].
    rewrite Heq, dict_get_set_same in Hsrc. congruence.
  - right. split; [exact Hne|].
    rewrite dict_get_set_other in Hsrc by congruence. exact Hsrc.
Qed.

(** X13.  [save_checkpoint] writes first and copies second.  When a call
    with the best flag raises although the directory of the checkpoint
    exists, it is the copy that failed (no file of the bare name
    [filename], a copy onto itself, no directory for the copy): the state
    has then been stored under [filename] in [model_dir] all the same,
    and no other file has changed. *)
Theorem failed_copy_leaves_the_checkpoint :
  forall st dir filename w e,
    dir_exists (dirname (os_path_join dir filename)) w = true ->
    fst (save_checkpoint st true dir filename w) = inl e ->
    read_file (os_path_join dir filename)
              (snd (save_checkpoint st true dir filename w)) = Some st
    /\ same_outside [os_path_join dir filename] w
                    (snd (save_checkpoint st true dir filename w))
    /\ (e = FileNotFoundError filename
        \/ e = SameFileError filename
        \/ e = FileNotFoundError (os_path_join dir "model_best.pth")).
Proof.
  intros st dir filename w e Hdir. unfold save_checkpoint.
  rewrite bind_emit. unfold bind, torch_save.
  change (dir_exists (dirname (os_path_join dir filename))
            (add_events [EvSaveCheckpoint st true dir filename] w))
    with (dir_exists (dirname (os_path_join dir filename)) w).
  rewrite Hdir.
  assert (same_outside [os_path_join dir filename] w
            (write_file (os_path_join dir filename) st
               (add_events [EvSaveCheckpoint st true dir filename] w)))
    as Hfoot.
  { unfold same_outside. cbn [dirs grad_enabled files write_file add_events].
    split; [reflexivity|]. split; [reflexivity|]. intros p Hp.
    apply dict_get_set_other. intros ->. apply Hp. now left. }
  assert (read_file (os_path_join dir filename)
            (write_file (os_path_join dir filename) st
               (add_events [EvSaveCheckpoint st true dir filename] w))
          = Some st) as Hread
      by (unfold read_file; cbn [files write_file]; apply dict_get_set_same).
  unfold shutil_copyfile.
  destruct (realpath filename
            =? realpath (os_path_join dir "model_best.pth"))%string.
  - cbn [fst snd]. intros E. injection E as <-. auto.
  - destruct (read_file filename _) as [c|].
    + destruct (dir_exists (dirname (os_path_join dir "model_best.pth"))
                          _); cbn [fst snd]; [discriminate|].
      intros E. injection E as <-. auto.
    + cbn [fst snd]. intros E. injection E as <-. auto.
Qed.
End SaveCheckpointMore.


(** ** [load_data_folder]: classes, labels, batches *)

Lemma insert_sorted_Sorted s l :
  Sorted (fun a b => String.leb a b = true) l ->
  Sorted (fun a b => String.leb a b = true) (insert_sorted s l).
Proof.
  induction 1 as [|x l Hsorted IH Hhd]; simpl.
  - repeat constructor.
  - destruct (String.leb s x) eqn:Hle.
    + constructor; [now constructor|]. now constructor.
    + constructor; [exact IH|].
      assert (String.leb x s = true) as Hxs
          by (destruct (String.leb_total s x); congruence).
      destruct l as [|y l]; simpl.
      * now constructor.
      * inversion Hhd; subst.
        destruct (String.leb s y); now constructor.
Qed.

Lemma sorted_Sorted l : Sorted (fun a b => String.leb a b = true) (sorted l).
Proof.
  induction l as [|x l IH]; simpl; [constructor|].
  now apply insert_sorted_Sorted.
Qed.

Lemma enumerate_from_names {A} (l : list A) :
  forall i, map snd (enumerate_from i l) = l.
Proof.
  induction l as [|x l IH]; intros i; simpl; [reflexivity|].
  now rewrite IH.
Qed.

Lemma enumerate_from_numbers {A} (l : list A) :
  forall i,
    map fst (enumerate_from i l)
    = map (fun k => i + Z.of_nat k) (seq 0 (length l)).
Proof.
  induction l as [|x l IH]; intros i; simpl; [reflexivity|].
  rewrite Z.add_0_r. f_equal. rewrite IH, <- seq_shift, map_map.
  apply map_ext. intros k. lia.
Qed.

Lemma enumerate_from_in {A} (l : list A) :
  forall i j x,
    In (j, x) (enumerate_from i l) -> i <= j < i + len l /\ In x l.
Proof.
  unfold len.
  induction l as [|y l IH]; intros i j x; simpl; [tauto|].
  intros [E|Hin].
  - injection E as <- <-. split; [lia | now left].
  - destruct (IH _ _ _ Hin) as [Hrange Hx]. split; [lia | now right].
Qed.

(** Numbering distinct names keeps them in order, each with its number. *)
Lemma class_to_idx_entries names :
  forall i (d : list (string * Z)),
    NoDup names ->
    (forall k, In k names -> ~ In k (map fst d)) ->
    fold_left (fun d ic => dict_set (snd ic) (fst ic) d)
              (enumerate_from i names) d
    = d ++ map (fun ic => (snd ic, fst ic)) (enumerate_from i names).
Proof.
  induction names as [|n names IH]; intros i d Hnd Hfresh; simpl.
  - now rewrite app_nil_r.
  - inversion Hnd as [|? ? Hn Hnd']; subst.
    rewrite dict_set_fresh by (apply Hfresh; now left).
    rewrite IH.
    + now rewrite <- app_assoc.
    + exact Hnd'.
    + intros k Hk. rewrite map_app. simpl. intros Hin.
      apply in_app_or in Hin. destruct Hin as [Hin|[<-|[]]].
      * apply (Hfresh k); [now right | exact Hin].
      * contradiction.
Qed.

Lemma dict_get_numbered names :
  forall i j c,
    NoDup names ->
    In (j, c) (enumerate_from i names) ->
    dict_get c (map (fun ic => (snd ic, fst ic)) (enumerate_from i names))
    = Some j.
Proof.
  induction names as [|n names IH]; intros i j c Hnd Hin; simpl in *.
  - destruct Hin.
  - inversion Hnd as [|? ? Hn Hnd']; subst.
    destruct Hin as [E|Hin].
    + injection E as <- <-. now rewrite String.eqb_refl.
    + destruct (String.eqb_spec c n) as [->|Hne].
      * exfalso. apply Hn.
        now destruct (enumerate_from_in _ _ _ _ Hin).
      * now apply IH.
Qed.

Section ImageFolderMore.
Context {T : Torch}.

Lemma ImageFolder_ok root dataset entries :
  ImageFolder root = ok dataset ->
  scan_image_dir root = Some entries ->
  class_to_idx dataset =
    fold_left (fun d ic => dict_set (snd ic) (fst ic) d)
              (enumerate (sorted (map fst entries))) []
  /\ samples dataset =
       flat_map
         (fun ic =>
            match dict_get (snd ic) entries with
            | Some images => map (fun img => (img, fst ic)) images
            | None => []
            end)
         (enumerate (sorted (map fst entries))).
Proof.
  unfold ImageFolder. intros Hds Hscan. rewrite Hscan in Hds.
  cbv zeta in Hds. destruct strict_folders.
  - destruct (sorted (map fst entries)); [discriminate|].
    destruct (existsb empty_class entries); [discriminate|].
    injection Hds as <-. split; reflexivity.
  - destruct (flat_map _ _); [discriminate|].
    injection Hds as <-. split; reflexivity.
Qed.

(** X14.  The class mapping that [ImageFolder] derives from a directory
    lists the class sub-directory names in sorted order and numbers them
    0, 1, 2, ...: one entry per sub-directory, each index once. *)
Theorem class_to_idx_numbers_the_sorted_names :
  forall root dataset entries,
    ImageFolder root = ok dataset ->
    scan_image_dir root = Some entries ->
    NoDup (map fst entries) ->
    Sorted (fun a b => String.leb a b = true)
           (map fst (class_to_idx dataset))
    /\ Permutation (map fst (class_to_idx dataset)) (map fst entries)
    /\ map snd (class_to_idx dataset) = range (len entries).
Proof.
  intros root dataset entries Hds Hscan Hnd.
  destruct (ImageFolder_ok _ _ _ Hds Hscan) as (Hmap & _).
  pose proof (sorted_perm (map fst entries)) as Hperm.
  assert (NoDup (sorted (map fst entries))) as Hnd'
      by (apply (Permutation_NoDup (Permutation_sym Hperm)); exact Hnd).
  unfold enumerate in Hmap.
  rewrite class_to_idx_entries in Hmap by (auto; intros k _ []).
  cbn [app] in Hmap. rewrite Hmap, !map_map. cbn [fst snd].
  change (map (fun x : Z * string => snd x)) with (@map (Z * string) _ snd).
  change (map (fun x : Z * string => fst x)) with (@map (Z * string) _ fst).
  rewrite enumerate_from_names, enumerate_from_numbers.
  split; [apply sorted_Sorted|]. split; [exact Hperm|].
  unfold range, len. rewrite Nat2Z.id.
  rewrite (Permutation_length Hperm), length_map.
  apply map_ext. intros k. lia.
Qed.

(** X15.  Every sample of an [ImageFolder] data set carries as label the
    index that the class mapping gives to the sub-directory holding the
    image; the label is at least 0 and below the number of classes. *)
Theorem labels_agree_with_class_to_idx :
  forall root dataset entries img label,
    ImageFolder root = ok dataset ->
    scan_image_dir root = Some entries ->
    NoDup (map fst entries) ->
    In (img, label) (samples dataset) ->
    exists class images,
      dict_get class (class_to_idx dataset) = Some label
      /\ dict_get class entries = Some images
      /\ In img images
      /\ 0 <= label < len (class_to_idx dataset).
Proof.
  intros root dataset entries img label Hds Hscan Hnd Hin.
  destruct (ImageFolder_ok _ _ _ Hds Hscan) as (Hmap & Hsamples).
  pose proof (sorted_perm (map fst entries)) as Hperm.
  assert (NoDup (sorted (map fst entries))) as Hnd'
      by (apply (Permutation_NoDup (Permutation_sym Hperm)); exact Hnd).
  unfold enumerate in Hmap, Hsamples.
  rewrite class_to_idx_entries in Hmap by (auto; intros k _ []).
  cbn [app] in Hmap.
  rewrite Hsamples in Hin. apply in_flat_map in Hin.
  destruct Hin as [[j c] [Hjc Hin]]. cbn [fst snd] in Hin.
  destruct (dict_get c entries) as [images|] eqn:Hc; [|destruct Hin].
  apply in_map_iff in Hin. destruct Hin as [img' [E Himg]].
  injection E as -> ->.
  exists c, images. rewrite Hmap.
  split; [now apply dict_get_numbered|]. split; [exact Hc|].
  split; [exact Himg|].
  unfold len. rewrite length_map.
  destruct (enumerate_from_in _ _ _ _ Hjc) as [Hrange _].
  unfold len in Hrange.
  assert (length (enumerate_from 0 (sorted (map fst entries)))
          = length (sorted (map fst entries))) as ->.
  { rewrite <- (length_map snd). now rewrite enumerate_from_names. }
  lia.
Qed.
End ImageFolderMore.


Section DataLoaderMore.
Context {T : Torch}.

End DataLoaderMore.


(** ** [build_model]: when it returns, how it fails *)

Lemma dict_set_split {V} k (v : V) d :
  exists before after,
    dict_set k v d = before ++ (k, v) :: after
    /\ incl before d /\ incl after d.
Proof.
  induction d as [|[k' v'] d IH]; simpl.
  - exists [], []. split; [reflexivity|]. split; intros x [].
  - destruct (String.eqb_spec k k') as [->|Hne].
    + exists [], d. split; [reflexivity|].
      split; [intros x [] | intros x Hx; now right].
    + destruct IH as (before & after & -> & Hb & Ha).
      exists ((k', v') :: before), after. split; [reflexivity|]. split.
      * intros x [<-|Hx]; [now left | right; now apply Hb].
      * intros x Hx. right. now apply Ha.
Qed.

Lemma filter_all_false {A} (l : list (A * bool)) :
  (forall p, In p l -> snd p = false) ->
  filter (fun p => snd p) l = [].
Proof.
  induction l as [|p l IH]; intros Hall; simpl; [reflexivity|].
  rewrite (Hall p) by now left. apply IH. intros q Hq. apply Hall. now right.
Qed.

Lemma map_fst_prefixed (n : string) (l : list (ParamPath * bool)) :
  map fst (map (fun q => (n :: fst q, snd q)) l)
  = map (fun q => n :: q) (map fst l).
Proof. rewrite !map_map. reflexivity. Qed.

Lemma freeze_keeps_paths m :
  map fst (named_parameters (freeze m)) = map fst (named_parameters m).
Proof.
  induction m as [l ps ms IH] using Module_nested_ind.
  cbn [freeze named_parameters]. rewrite !map_app. f_equal.
  - rewrite !map_map. reflexivity.
  - induction ms as [|[n c] ms IHms]; [reflexivity|].
    inversion IH as [|? ? Hc Hms]; subst. cbn [map flat_map].
    rewrite !map_app, IHms by exact Hms. f_equal.
    rewrite !map_fst_prefixed. cbn [snd] in Hc. now rewrite Hc.
Qed.

Lemma freeze_idempotent m : freeze (freeze m) = freeze m.
Proof.
  induction m as [l ps ms IH] using Module_nested_ind.
  cbn [freeze]. f_equal.
  - rewrite map_map. reflexivity.
  - rewrite map_map. apply map_ext_in. intros [n c] Hin.
    rewrite Forall_forall in IH. f_equal. exact (IH _ Hin).
Qed.

(** X17.  Freezing a model changes the [requires_grad] flags and nothing
    else: the parameters keep their paths and their order, all flags are
    off afterwards, and freezing again changes nothing. *)
Theorem freeze_changes_flags_only :
  forall m,
    map fst (named_parameters (freeze m)) = map fst (named_parameters m)
    /\ map snd (named_parameters (freeze m))
       = repeat false (length (named_parameters m))
    /\ freeze (freeze m) = freeze m.
Proof.
  intros m. split; [apply freeze_keeps_paths|].
  split; [|apply freeze_idempotent].
  assert (length (named_parameters m)
          = length (named_parameters (freeze m))) as ->
      by (rewrite <- (length_map fst), <- freeze_keeps_paths;
          now rewrite length_map).
  pose proof (freeze_disables_grad m) as Hoff.
  induction (named_parameters (freeze m)) as [|p l IH]; [reflexivity|].
  simpl. rewrite (Hoff p) by now left. f_equal.
  apply IH. intros q Hq. apply Hoff. now right.
Qed.

Lemma setattr_module_succeeds name child m :
  (forall p, In p (own_params m) -> fst p <> name) ->
  setattr_module name child m
  = ok (Mod (layer_of m) (own_params m) (dict_set name child (children m))).
Proof.
  destruct m as [l ps ms]. cbn [setattr_module own_params layer_of children].
  intros Hown. replace (existsb _ ps) with false; [reflexivity|].
  symmetry. apply not_true_is_false. intros Hex.
  apply existsb_exists in Hex. destruct Hex as [p [Hp Heq]].
  apply String.eqb_eq in Heq. exact (Hown p Hp Heq).
Qed.

Lemma freeze_own_names_free m name :
  (forall p, In p (own_params m) -> fst p <> name) <->
  (forall p, In p (own_params (freeze m)) -> fst p <> name).
Proof.
  destruct m as [l ps ms]. cbn [freeze own_params]. split.
  - intros H p Hp. apply in_map_iff in Hp. destruct Hp as [p0 [<- Hp0]].
    exact (H p0 Hp0).
  - intros H p Hp.
    exact (H (fst p, false)
             ltac:(apply in_map_iff; exists p; split; [reflexivity|exact Hp])).
Qed.

Section BuildModelMore.
Context {T : Torch}.

(** The width found by the two branches of lines 163-166, for a last child
    that is a linear layer or starts with one. *)
Lemma input_features_found last width :
  classifier_reads last width ->
  match layer_of last with
  | LinearL i _ => ok (Some i)
  | SequentialL =>
      match children last with
      | [] => throw IndexError
      | (_, first) :: _ =>
          match layer_of first with
          | LinearL i _ => ok (Some i)
          | _ => throw (AttributeError "in_features")
          end
      end
  | _ => ok None
  end = ok (Some width).
Proof.
  intros [(o & ps & ms & ->)|(o & n0 & ps & ps0 & ms0 & rest & ->)];
    reflexivity.
Qed.

Lemma input_features_found_inv last width :
  match layer_of last with
  | LinearL i _ => ok (Some i)
  | SequentialL =>
      match children last with
      | [] => throw IndexError
      | (_, first) :: _ =>
          match layer_of first with
          | LinearL i _ => ok (Some i)
          | _ => throw (AttributeError "in_features")
          end
      end
  | _ => ok None
  end = ok (Some width) ->
  classifier_reads last width.
Proof.
  destruct last as [l ps ms]. cbn [layer_of children].
  destruct l; try discriminate.
  - intros E. injection E as ->. left. now exists out_features, ps, ms.
  - destruct ms as [|[n0 [l0 ps0 ms0]] rest]; [discriminate|].
    cbn [layer_of]. destruct l0; try discriminate.
    intros E. injection E as ->. right.
    now exists out_features, n0, ps, ps0, ms0, rest.
Qed.

(** X18.  [build_model] returns a model exactly when torchvision has a
    model of that name whose last child is a linear layer, or a sequence
    that starts with one, no parameter of the model itself is called
    [classifier], neither the width read from that layer nor
    [hidden_units] is negative, and torch can allocate the two linear
    layers of the head.  In every other case it raises. *)
Theorem build_model_returns_iff :
  forall arch hidden_units mapping,
    (exists model, build_model arch hidden_units mapping = ok model)
    <-> (exists backbone width,
            torchvision_models arch = Some backbone
            /\ last_child_reads backbone width
            /\ (forall p, In p (own_params backbone) ->
                          fst p <> "classifier"%string)
            /\ 0 <= width /\ 0 <= hidden_units
            /\ allocatable width hidden_units
            /\ allocatable hidden_units 102).
Proof.
  intros arch hidden_units mapping. split.
  - intros [model Hbuild]. revert Hbuild. unfold build_model.
    destruct (torchvision_models arch) as [backbone|]; [|discriminate].
    cbn [rbind ok throw].
    destruct (rev (children backbone)) as [|[n last] rest] eqn:Hrev;
      [discriminate|].
    cbn [rbind ok throw].
    assert (children backbone = rev rest ++ [(n, last)]) as Hch.
    { rewrite <- (rev_involutive (children backbone)), Hrev.
      reflexivity. }
    set (found := match layer_of last with
                  | LinearL i _ => ok (Some i)
                  | SequentialL => _
                  | _ => ok None
                  end).
    destruct found as [e|[width|]] eqn:Hfound;
      cbn [rbind read_local ok throw]; try discriminate.
    destruct (nn_Linear width hidden_units) as [e|fc1] eqn:E1;
      cbn [rbind]; [discriminate|].
    destruct (nn_Linear hidden_units 102) as [e|fc2] eqn:E2;
      cbn [rbind]; [discriminate|].
    pose proof (nn_Linear_allocatable _ _ _ E1) as Hfc1.
    pose proof (nn_Linear_allocatable _ _ _ E2) as Hfc2.
    apply nn_Linear_ok in E1. destruct E1 as [-> [Hw Hh]].
    destruct (setattr_module _ _ _) as [e|net'] eqn:Eset;
      cbn [rbind]; [discriminate|].
    intros _. apply setattr_module_ok in Eset.
    destruct Eset as (Hown & _).
    exists backbone, width. split; [reflexivity|].
    split; [|split; [|repeat split; assumption]].
    + exists (rev rest), n, last. split; [exact Hch|].
      apply input_features_found_inv. exact Hfound.
    + apply (freeze_own_names_free backbone). exact Hown.
  - intros (backbone & width & Hzoo
            & (before & name & last & Hch & Hreads) & Hown & Hw & Hh
            & Hfc1 & Hfc2).
    unfold build_model. rewrite Hzoo. cbn [rbind ok].
    rewrite Hch, rev_unit. cbn [rbind ok].
    rewrite (input_features_found last width Hreads).
    cbn [rbind ok read_local].
    rewrite (nn_Linear_nonneg width hidden_units Hw Hh Hfc1).
    cbn [rbind ok].
    rewrite (nn_Linear_nonneg hidden_units 102 Hh ltac:(lia) Hfc2).
    cbn [rbind ok].
    rewrite setattr_module_succeeds
      by (apply (freeze_own_names_free backbone); exact Hown).
    cbn [rbind ok]. eexists. reflexivity.
Qed.

(** X19.  A model whose last child is a sequence that starts with a layer
    other than a linear one (torchvision's AlexNet, whose classifier
    starts with a dropout layer) makes [build_model] raise
    [AttributeError] on [last_child[0].in_features]. *)
Theorem build_model_rejects_other_sequences :
  forall arch hidden_units mapping backbone before name last n0 first rest,
    torchvision_models arch = Some backbone ->
    children backbone = before ++ [(name, last)] ->
    layer_of last = SequentialL ->
    children last = (n0, first) :: rest ->
    (forall i o, layer_of first <> LinearL i o) ->
    build_model arch hidden_units mapping
    = throw (AttributeError "in_features").
Proof.
  intros arch hidden_units mapping backbone before name last n0 first rest
         Hzoo Hch Hseq Hfirst Hnot.
  unfold build_model. rewrite Hzoo. cbn [rbind ok].
  rewrite Hch, rev_unit. cbn [rbind ok]. rewrite Hseq, Hfirst.
  destruct (layer_of first) eqn:Hl; try reflexivity.
  exfalso. exact (Hnot _ _ eq_refl).
Qed.

(** X20.  When the last child of the model is neither a linear layer nor a
    sequence, neither branch of lines 163-166 binds [input_features], and
    [build_model] raises [UnboundLocalError] when it builds the head,
    whatever [hidden_units] is. *)
Theorem build_model_without_linear_head :
  forall arch hidden_units mapping backbone before name last,
    torchvision_models arch = Some backbone ->
    children backbone = before ++ [(name, last)] ->
    (forall i o, layer_of last <> LinearL i o) ->
    layer_of last <> SequentialL ->
    build_model arch hidden_units mapping
    = throw (UnboundLocalError "input_features").
Proof.
  intros arch hidden_units mapping backbone before name last
         Hzoo Hch Hlin Hseq.
  unfold build_model. rewrite Hzoo. cbn [rbind ok].
  rewrite Hch, rev_unit. cbn [rbind ok].
  destruct (layer_of last) eqn:Hl; try reflexivity.
  - exfalso. exact (Hlin _ _ eq_refl).
  - exfalso. exact (Hseq eq_refl).
Qed.

(** X21.  For a model that has no child called [classifier] (torchvision's
    ResNets, whose head is the child [fc]), [build_model] replaces
    nothing: every child of the model, the old head included, is kept
    (frozen) and the new head, of sizes that torch can allocate, is
    appended after them as one more child. *)
Theorem build_model_appends_without_classifier :
  forall arch hidden_units mapping backbone width,
    torchvision_models arch = Some backbone ->
    ~ In "classifier"%string (map fst (children backbone)) ->
    last_child_reads backbone width ->
    (forall p, In p (own_params backbone) -> fst p <> "classifier"%string) ->
    0 <= width ->
    0 <= hidden_units ->
    allocatable width hidden_units ->
    allocatable hidden_units 102 ->
    exists model,
      build_model arch hidden_units mapping = ok model
      /\ children (net model)
         = frozen (children backbone)
           ++ [("classifier"%string, spec_head width hidden_units)].
Proof.
  intros arch hidden_units mapping backbone width Hzoo Hfresh
         (before & name & last & Hch & Hreads) Hown Hw Hh Hfc1 Hfc2.
  eexists. split.
  - unfold build_model. rewrite Hzoo. cbn [rbind ok].
    rewrite Hch, rev_unit. cbn [rbind ok].
    rewrite (input_features_found last width Hreads).
    cbn [rbind ok read_local].
    rewrite (nn_Linear_nonneg width hidden_units Hw Hh Hfc1).
    cbn [rbind ok].
    rewrite (nn_Linear_nonneg hidden_units 102 Hh ltac:(lia) Hfc2).
    cbn [rbind ok].
    rewrite setattr_module_succeeds
      by (apply (freeze_own_names_free backbone); exact Hown).
    cbn [rbind ok]. reflexivity.
  - cbn [net children]. rewrite freeze_children.
    rewrite dict_set_fresh by (now rewrite frozen_names).
    reflexivity.
Qed.
End BuildModelMore.

Lemma build_model_rejects_other_sequences_witness :
  torchvision_models (Torch := Zoo.torch) "alexnet" = Some Zoo.alexnet
  /\ build_model (T := Zoo.torch) "alexnet" 4096 None
     = throw (AttributeError "in_features").
Proof.
  split; [reflexivity|].
  apply (build_model_rejects_other_sequences (T := Zoo.torch)
           "alexnet" 4096 None Zoo.alexnet
           (firstn 2 (children Zoo.alexnet)) "classifier"
           (nn_Sequential
              [("0"%string, nn_Dropout (1 # 2));
               ("1"%string, Example.linear 9216 4096);
               ("2"%string, nn_ReLU);
               ("3"%string, nn_Dropout (1 # 2));
               ("4"%string, Example.linear 4096 4096);
               ("5"%string, nn_ReLU);
               ("6"%string, Example.linear 4096 1000)])
           "0" (nn_Dropout (1 # 2))
           [("1"%string, Example.linear 9216 4096);
            ("2"%string, nn_ReLU);
            ("3"%string, nn_Dropout (1 # 2));
            ("4"%string, Example.linear 4096 4096);
            ("5"%string, nn_ReLU);
            ("6"%string, Example.linear 4096 1000)]).
  - reflexivity.
  - reflexivity.
  - reflexivity.
  - reflexivity.
  - intros i o. simpl. discriminate.
Defined.

Lemma build_model_without_linear_head_witness :
  torchvision_models (Torch := Zoo.torch) "headless" = Some Zoo.headless
  /\ build_model (T := Zoo.torch) "headless" 4096 None
     = throw (UnboundLocalError "input_features").
Proof.
  split; [reflexivity|].
  apply (build_model_without_linear_head (T := Zoo.torch)
           "headless" 4096 None Zoo.headless
           [("conv"%string, Example.conv2d)] "pool"
           (Mod (OtherL "AdaptiveAvgPool2d") [] [])).
  - reflexivity.
  - reflexivity.
  - intros i o. simpl. discriminate.
  - simpl. discriminate.
Defined.

Lemma build_model_appends_without_classifier_witness :
  torchvision_models (Torch := Zoo.torch) "resnet18" = Some Zoo.resnet
  /\ ~ In "classifier"%string (map fst (children Zoo.resnet))
  /\ last_child_reads Zoo.resnet 512
  /\ allocatable (T := Zoo.torch) 512 256
  /\ allocatable (T := Zoo.torch) 256 102
  /\ exists model,
      build_model (T := Zoo.torch) "resnet18" 256 None = ok model
      /\ children (net model)
         = frozen (children Zoo.resnet)
           ++ [("classifier"%string, spec_head 512 256)].
Proof.
  assert (~ In "classifier"%string (map fst (children Zoo.resnet)))
    as Hfresh by (simpl; intuition discriminate).
  assert (last_child_reads Zoo.resnet 512) as Hreads.
  { exists (firstn 3 Zoo.resnet_body), "fc"%string,
           (Example.linear 512 1000).
    split; [reflexivity|]. left.
    exists 1000, [("weight"%string, true); ("bias"%string, true)], [].
    reflexivity. }
  split; [reflexivity|]. split; [exact Hfresh|]. split; [exact Hreads|].
  split; [reflexivity|]. split; [reflexivity|].
  apply (build_model_appends_without_classifier (T := Zoo.torch)
           "resnet18" 256 None Zoo.resnet 512).
  - reflexivity.
  - exact Hfresh.
  - exact Hreads.
  - intros p [].
  - lia.
  - lia.
  - reflexivity.
  - reflexivity.
Defined.

(** Without room for the head nothing is appended: a width of 2^63 is
    refused when the first linear layer is made. *)
Lemma resnet_oversized_head_is_refused :
  build_model (T := Zoo.torch) "resnet18" (2 ^ 63) None
  = throw (RuntimeError "Overflow when unpacking long").
Proof. reflexivity. Qed.


(** ** [main]: what has happened when it fails *)




Section MainMore.
Context {T : Torch}.



End MainMore.




(** ** The properties above on concrete runs *)

Lemma check_accuracy_is_a_percentage_witness :
  [Example.batch] <> []
  /\ proper_batches [Example.batch]
  /\ exists r,
      fst (check_accuracy_on_test (T := Example.torch 4) [Example.batch]
             Example.small_model (fresh_world [] [])) = inr r
      /\ r = (inject_Z
                (100 * len (filter (fun pl => fst pl =? snd pl)
                                   (test_pairs Example.small_model
                                               [Example.batch])))
              / inject_Z (len (labels_of [Example.batch])))%Q
      /\ (0 <= r <= 100)%Q.
Proof.
  assert (proper_batches (T := Example.torch 4) [Example.batch]) as Hproper.
  { constructor; [|constructor]. unfold len. simpl. lia. }
  split; [discriminate|]. split; [exact Hproper|].
  apply (check_accuracy_is_a_percentage (T := Example.torch 4)
           [Example.batch] Example.small_model (fresh_world [] [])).
  - discriminate.
  - exact Hproper.
Defined.

Lemma validation_accuracy_range_witness :
  proper_batches [Example.batch]
  /\ exists test_loss accuracy,
      validation (T := Example.torch 4) Example.small_model [Example.batch]
                 Example.criterion "cpu" (fresh_world (T := Example.torch 4) [] [])
      = (inr (test_loss, accuracy),
         add_events
           (validation_events Example.small_model Example.criterion
                              [Example.batch]
                              (grad_enabled (fresh_world (T := Example.torch 4) [] [])))
           (fresh_world (T := Example.torch 4) [] []))
      /\ (0 <= accuracy <= inject_Z (len [Example.batch]))%Q
      /\ ([Example.batch] <> [] ->
          0 <= accuracy / inject_Z (len [Example.batch]) * 100 <= 100)%Q.
Proof.
  assert (proper_batches (T := Example.torch 4) [Example.batch]) as Hproper.
  { constructor; [|constructor]. unfold len. simpl. lia. }
  split; [exact Hproper|].
  apply (validation_accuracy_range (T := Example.torch 4)
           Example.small_model [Example.batch] Example.criterion "cpu"
           (fresh_world (T := Example.torch 4) [] [])).
  exact Hproper.
Defined.

Lemma train_counts_when_it_returns_witness :
  fst (train (T := Example.torch 4) [Example.batch; Example.batch]
             [Example.batch] 2 1 Example.criterion "vgg16" "cpu" "models"
             Example.small_model Example.small_optimizer
             Samples.saved_before) = inr tt
  /\ exists evs,
      trace (snd (train (T := Example.torch 4)
                        [Example.batch; Example.batch] [Example.batch] 2 1
                        Example.criterion "vgg16" "cpu" "models"
                        Example.small_model Example.small_optimizer
                        Samples.saved_before))
      = trace Samples.saved_before ++ evs
      /\ count_steps evs = Z.max 0 2 * len [Example.batch; Example.batch]
      /\ count_saves evs = Z.max 0 2.
Proof.
  assert (fst (train (T := Example.torch 4) [Example.batch; Example.batch]
                     [Example.batch] 2 1 Example.criterion "vgg16" "cpu"
                     "models" Example.small_model Example.small_optimizer
                     Samples.saved_before) = inr tt) as Hreturns
      by (vm_compute; reflexivity).
  split; [exact Hreturns|].
  apply (train_counts_when_it_returns (T := Example.torch 4)
           [Example.batch; Example.batch] [Example.batch] 2 1
           Example.criterion "vgg16" "cpu" "models" Example.small_model
           Example.small_optimizer Samples.saved_before).
  exact Hreturns.
Defined.

Lemma train_without_epochs_witness :
  0 <= 0
  /\ train (T := Example.torch 4) [Example.batch] [Example.batch] 0 20
           Example.criterion "vgg16" "cpu" "models" Example.small_model
           Example.small_optimizer (fresh_world [] [])
     = (inr tt, add_events [EvModelTrain] (fresh_world [] [])).
Proof.
  split; [lia|].
  apply (train_without_epochs (T := Example.torch 4)
           [Example.batch] [Example.batch] 0 20 Example.criterion "vgg16"
           "cpu" "models" Example.small_model Example.small_optimizer
           (fresh_world [] [])).
  lia.
Defined.

Lemma train_with_zero_print_every_witness :
  1 <= 3
  /\ train (T := Example.torch 4) [Example.batch; Example.batch]
           [Example.batch] 3 0 Example.criterion "vgg16" "cpu" "models"
           Example.small_model Example.small_optimizer (fresh_world [] [])
     = (inl ZeroDivisionError,
        add_events [EvModelTrain; EvTrainForward true;
                    EvOptimizerStep 1 true] (fresh_world [] [])).
Proof.
  split; [lia|].
  apply (train_with_zero_print_every (T := Example.torch 4)
           [Example.batch; Example.batch] [Example.batch] 3 0
           Example.criterion "vgg16" "cpu" "models" Example.batch
           [Example.batch] Example.small_model Example.small_optimizer
           (fresh_world [] [])).
  - reflexivity.
  - lia.
  - reflexivity.
Defined.


Lemma best_copy_comes_from_the_working_directory_witness :
  fst (save_checkpoint (T := Example.torch 4)
         [("epoch"%string, VInt 3)] true "." "checkpoint.pth"
         (fresh_world [] [])) = inr tt
  /\ realpath (Torch := Example.torch 4) "./checkpoint.pth"
     = realpath (Torch := Example.torch 4) "checkpoint.pth"
  /\ exists c,
      read_file (T := Example.torch 4) (os_path_join "." "model_best.pth")
                (snd (save_checkpoint (T := Example.torch 4)
                        [("epoch"%string, VInt 3)] true "."
                        "checkpoint.pth" (fresh_world [] [])))
      = Some c
      /\ ((realpath (Torch := Example.torch 4)
                    (os_path_join "." "checkpoint.pth")
           = realpath (Torch := Example.torch 4) "checkpoint.pth"
           /\ c = [("epoch"%string, VInt 3)])
          \/ (realpath (Torch := Example.torch 4)
                       (os_path_join "." "checkpoint.pth")
              <> realpath (Torch := Example.torch 4) "checkpoint.pth"
              /\ read_file (T := Example.torch 4) "checkpoint.pth"
                           (fresh_world [] []) = Some c)).
Proof.
  assert (fst (save_checkpoint (T := Example.torch 4)
                 [("epoch"%string, VInt 3)] true "." "checkpoint.pth"
                 (fresh_world [] [])) = inr tt) as Hreturns
      by (vm_compute; reflexivity).
  split; [exact Hreturns|]. split; [vm_compute; reflexivity|].
  apply (best_copy_comes_from_the_working_directory (T := Example.torch 4)
           [("epoch"%string, VInt 3)] "." "checkpoint.pth"
           (fresh_world [] [])).
  exact Hreturns.
Defined.

Lemma failed_copy_leaves_the_checkpoint_witness :
  dir_exists (T := Example.torch 4)
             (dirname (os_path_join "models" "checkpoint.pth"))
             (fresh_world ["models"%string] []) = true
  /\ fst (save_checkpoint (T := Example.torch 4)
            [("epoch"%string, VInt 3)] true "models" "checkpoint.pth"
            (fresh_world ["models"%string] []))
     = inl (FileNotFoundError "checkpoint.pth")
  /\ read_file (T := Example.torch 4)
               (os_path_join "models" "checkpoint.pth")
               (snd (save_checkpoint (T := Example.torch 4)
                       [("epoch"%string, VInt 3)] true "models"
                       "checkpoint.pth" (fresh_world ["models"%string] [])))
     = Some [("epoch"%string, VInt 3)].
Proof.
  assert (fst (save_checkpoint (T := Example.torch 4)
                 [("epoch"%string, VInt 3)] true "models" "checkpoint.pth"
                 (fresh_world ["models"%string] []))
          = inl (FileNotFoundError "checkpoint.pth")) as Hraises
      by (vm_compute; reflexivity).
  split; [vm_compute; reflexivity|]. split; [exact Hraises|].
  apply (failed_copy_leaves_the_checkpoint (T := Example.torch 4)
           [("epoch"%string, VInt 3)] "models" "checkpoint.pth"
           (fresh_world ["models"%string] [])
           (FileNotFoundError "checkpoint.pth")).
  - vm_compute. reflexivity.
  - exact Hraises.
Defined.

Lemma class_to_idx_numbers_the_sorted_names_witness :
  ImageFolder (T := Example.torch 4) "data/train"
  = ok Samples.flowers_dataset
  /\ NoDup ["rose"%string; "daisy"%string]
  /\ Sorted (fun a b => String.leb a b = true)
            (map fst (class_to_idx Samples.flowers_dataset))
  /\ Permutation (map fst (class_to_idx Samples.flowers_dataset))
                 ["rose"%string; "daisy"%string]
  /\ map snd (class_to_idx Samples.flowers_dataset) = range 2.
Proof.
  assert (NoDup ["rose"%string; "daisy"%string]) as Hdistinct
      by (repeat constructor; simpl; intuition discriminate).
  split; [reflexivity|]. split; [exact Hdistinct|].
  apply (class_to_idx_numbers_the_sorted_names (T := Example.torch 4)
           "data/train" Samples.flowers_dataset
           [("rose"%string, repeat 1 4%nat);
            ("daisy"%string, repeat 0 4%nat)]).
  - reflexivity.
  - reflexivity.
  - exact Hdistinct.
Defined.

Lemma labels_agree_with_class_to_idx_witness :
  ImageFolder (T := Example.torch 4) "data/train"
  = ok Samples.flowers_dataset
  /\ In (1, 1) (samples Samples.flowers_dataset)
  /\ exists class images,
      dict_get class (class_to_idx Samples.flowers_dataset) = Some 1
      /\ dict_get class [("rose"%string, repeat 1 4%nat);
                         ("daisy"%string, repeat 0 4%nat)] = Some images
      /\ In 1 images
      /\ 0 <= 1 < len (class_to_idx Samples.flowers_dataset).
Proof.
  assert (In (1, 1) (samples Samples.flowers_dataset)) as Hsample
      by (simpl; tauto).
  split; [reflexivity|]. split; [exact Hsample|].
  apply (labels_agree_with_class_to_idx (T := Example.torch 4)
           "data/train" Samples.flowers_dataset
           [("rose"%string, repeat 1 4%nat);
            ("daisy"%string, repeat 0 4%nat)] 1 1).
  - reflexivity.
  - reflexivity.
  - repeat constructor; simpl; intuition discriminate.
  - exact Hsample.
Defined.

